(** * Poolo ride backend: the booking ledger

    A shallow embedding of the seat-inventory logic of the poolo-ride
    backend.  The repository ships the same HTTP surface twice:

    - the Express server on better-sqlite3: the routes of [routes/rides.js]
      and [routes/bookings.js] over the schema of [db/database.js];
    - the serverless server on Supabase, one file of [app.<verb>] routes.

    Module [Sqlite] embeds the first one, module [Supabase] the second.
    Both work on the same four tables.  A table is the list of its rows in
    insertion order; a handler is a function from the database, the
    authenticated user id ([req.user.id], [req.userId]), the request and the
    identifiers it draws ([uuidv4()], column defaults) to the new database
    and the HTTP response.

    The constraints that [initDatabase] declares are enforced: primary
    keys, the CHECK lists, and the foreign keys (better-sqlite3 opens a
    database with foreign keys on).  A statement that violates one throws
    and changes nothing; there is no transaction around a handler, so what
    was written before a throw stays.

    In these two modules the numbers of the JSON requests and of the
    INTEGER / REAL columns are whole numbers ([Z]) with exact arithmetic,
    and the [status] of a status request is a text; timestamps and
    coordinates, which no modelled handler reads, are left out of the
    rows.  This is the ledger as the specification speaks of it.  Where a
    statement depends on the arithmetic, on a NULL or on the coordinates,
    it is made on module [Stored] further down, which embeds the
    better-sqlite3 routes over the values that the program and the store
    have: doubles, nullable columns, all columns that the routes write. *)

From Stdlib Require Import ZArith List String Bool Lia Permutation.
From Stdlib Require Import DecimalString.
Import ListNotations.

Local Open Scope string_scope.
Local Open Scope Z_scope.

Infix "==" := String.eqb (at level 70, no associativity).

(** ** Rows of the four tables ([initDatabase]) *)

Record User := mkUser {
  u_id : string;
  name : string
}.

Record Ride := mkRide {
  r_id : string;
  driver_id : string;
  pickup_address : string;
  drop_address : string;
  pickup_time : string;
  total_seats : Z;
  available_seats : Z;
  vehicle_type : string;
  price_per_seat : Z;
  description : option string;
  status : string
}.

Record Booking := mkBooking {
  b_id : string;
  ride_id : string;
  passenger_id : string;
  seats_booked : Z;
  booking_status : string;
  total_price : Z
}.

(** The notification texts are template strings; the embedding keeps the
    values that are interpolated, one constructor per template. *)
Inductive MessageText :=
| NewBooking (passenger_name : string) (seats : Z)
    (pickup drop pickup_at : string) (total : Z)
| BookingCancelled (passenger_name : string)
    (pickup drop pickup_at : string) (seats refund newAvailableSeats : Z)
| RideCancelled (driver_name : string)
    (pickup drop pickup_at : string) (seats refund : Z)
    (reason : option string).

Record Message := mkMessage {
  m_id : string;
  m_ride_id : string;
  sender_id : string;
  receiver_id : string;
  message : MessageText;
  message_type : string
}.

Record DB := mkDB {
  users : list User;
  rides : list Ride;
  ride_bookings : list Booking;
  ride_messages : list Message
}.

(** ** Requests and responses *)

Record RideReq := mkRideReq {
  rq_pickup_address : string;
  rq_drop_address : string;
  rq_pickup_time : string;
  rq_total_seats : Z;
  rq_available_seats : option Z;
  rq_vehicle_type : string;
  rq_price_per_seat : Z;
  rq_description : option string
}.

Record BookingReq := mkBookingReq {
  rq_ride_id : string;
  rq_seats_booked : Z
}.

Record StatusReq := mkStatusReq {
  rq_status : string;
  rq_cancellation_reason : option string
}.

Inductive Body :=
| Msg (text : string)
| RideRow (r : option Ride)
| BookingRow (b : option Booking).

Definition Response : Type := Z * Body.

(** The identifiers a handler draws, in the order of its calls. *)
Definition Ids : Type := nat -> string.

(** ** JavaScript truthiness *)

Definition falsy_str (s : string) : bool := s == EmptyString.
Definition falsy_num (n : Z) : bool := Z.eqb n 0.

(** [a || b] on an optional number. *)
Definition num_or (a : option Z) (b : Z) : Z :=
  match a with
  | Some n => if falsy_num n then b else n
  | None => b
  end.

(** [x?.name || fallback] *)
Definition name_or (u : option User) (fallback : string) : string :=
  match u with
  | Some x => if falsy_str (name x) then fallback else name x
  | None => fallback
  end.

(** An optional text that counts only when it is truthy:
    [if (cancellation_reason)], [description || null]. *)
Definition truthy (r : option string) : option string :=
  match r with
  | Some s => if falsy_str s then None else Some s
  | None => None
  end.

(** ** The statements the handlers run *)

Definition mem (x : string) (l : list string) : bool :=
  existsb (fun y => y == x) l.

Definition vehicle_types : list string := ["bike"; "car"; "cab"; "suv"].
Definition ride_statuses : list string :=
  ["available"; "active"; "completed"; "cancelled"].
Definition booking_statuses : list string :=
  ["pending"; "confirmed"; "cancelled"; "completed"].
Definition message_types : list string := ["text"; "image"; "location"].

(** [SELECT * FROM t WHERE id = ?] with [.get()]: the first row. *)
Definition lookup {A : Type} (key : A -> string) (id : string)
    (rows : list A) : option A :=
  find (fun x => key x == id) rows.

(** [SELECT * FROM users WHERE id = ?] *)
Definition get_user (db : DB) (id : string) : option User :=
  lookup u_id id (users db).

(** [SELECT * FROM rides WHERE id = ?] *)
Definition get_ride (db : DB) (id : string) : option Ride :=
  lookup r_id id (rides db).

(** [SELECT * FROM ride_bookings WHERE id = ?] *)
Definition get_booking (db : DB) (id : string) : option Booking :=
  lookup b_id id (ride_bookings db).

(** [SELECT * FROM ride_bookings
     WHERE ride_id = ? AND passenger_id = ? AND booking_status != ?] *)
Definition is_booking_of (rid pid st : string) (b : Booking) : bool :=
  (ride_id b == rid) && (passenger_id b == pid)
  && negb (booking_status b == st).

Definition get_booking_of (db : DB) (rid pid st : string) : option Booking :=
  find (is_booking_of rid pid st) (ride_bookings db).

(** [SELECT b.* FROM ride_bookings b JOIN users u ON b.passenger_id = u.id
     WHERE b.ride_id = ? AND b.booking_status = 'confirmed'] *)
Definition is_confirmed_on (rid : string) (b : Booking) : bool :=
  (ride_id b == rid) && (booking_status b == "confirmed").

Definition confirmed_with_passenger (db : DB) (rid : string) : list Booking :=
  filter (fun b => is_confirmed_on rid b
                   && mem (passenger_id b) (map u_id (users db)))
         (ride_bookings db).

(** The same selection without the inner join (Supabase embeds the
    passenger, which keeps a booking whose passenger row is missing). *)
Definition confirmed_on (db : DB) (rid : string) : list Booking :=
  filter (is_confirmed_on rid) (ride_bookings db).

Definition with_rides (db : DB) (rs : list Ride) : DB :=
  mkDB (users db) rs (ride_bookings db) (ride_messages db).
Definition with_bookings (db : DB) (bs : list Booking) : DB :=
  mkDB (users db) (rides db) bs (ride_messages db).
Definition with_messages (db : DB) (ms : list Message) : DB :=
  mkDB (users db) (rides db) (ride_bookings db) ms.

(** An INSERT throws when the primary key is taken, a foreign key has no
    target or a CHECK fails; the statement then changes nothing. *)
Definition insert_ride (db : DB) (r : Ride) : option DB :=
  if negb (mem (r_id r) (map r_id (rides db)))
     && mem (driver_id r) (map u_id (users db))
     && mem (vehicle_type r) vehicle_types
     && mem (status r) ride_statuses
  then Some (with_rides db (rides db ++ [r]))
  else None.

Definition insert_booking (db : DB) (b : Booking) : option DB :=
  if negb (mem (b_id b) (map b_id (ride_bookings db)))
     && mem (ride_id b) (map r_id (rides db))
     && mem (passenger_id b) (map u_id (users db))
     && mem (booking_status b) booking_statuses
  then Some (with_bookings db (ride_bookings db ++ [b]))
  else None.

Definition insert_message (db : DB) (m : Message) : option DB :=
  if negb (mem (m_id m) (map m_id (ride_messages db)))
     && mem (m_ride_id m) (map r_id (rides db))
     && mem (sender_id m) (map u_id (users db))
     && mem (receiver_id m) (map u_id (users db))
     && mem (message_type m) message_types
  then Some (with_messages db (ride_messages db ++ [m]))
  else None.

Definition set_available_seats (n : Z) (r : Ride) : Ride :=
  mkRide (r_id r) (driver_id r) (pickup_address r) (drop_address r)
         (pickup_time r) (total_seats r) n (vehicle_type r)
         (price_per_seat r) (description r) (status r).

Definition set_status (st : string) (r : Ride) : Ride :=
  mkRide (r_id r) (driver_id r) (pickup_address r) (drop_address r)
         (pickup_time r) (total_seats r) (available_seats r) (vehicle_type r)
         (price_per_seat r) (description r) st.

Definition set_booking_status (st : string) (b : Booking) : Booking :=
  mkBooking (b_id b) (ride_id b) (passenger_id b) (seats_booked b) st
            (total_price b).

(** [UPDATE t SET ... WHERE id = ?] rewrites the rows with that id. *)
Definition update_where {A : Type} (key : A -> string) (id : string)
    (f : A -> A) (rows : list A) : list A :=
  map (fun x => if key x == id then f x else x) rows.

(** [UPDATE rides SET available_seats = available_seats + ? WHERE id = ?] *)
Definition add_available_seats (db : DB) (n : Z) (id : string) : DB :=
  with_rides db
    (update_where r_id id
       (fun r => set_available_seats (available_seats r + n) r) (rides db)).

(** [UPDATE rides SET available_seats = available_seats - ? WHERE id = ?] *)
Definition sub_available_seats (db : DB) (n : Z) (id : string) : DB :=
  with_rides db
    (update_where r_id id
       (fun r => set_available_seats (available_seats r - n) r) (rides db)).

(** [UPDATE rides SET available_seats = <value> WHERE id = ?] (Supabase) *)
Definition write_available_seats (db : DB) (n : Z) (id : string) : DB :=
  with_rides db (update_where r_id id (set_available_seats n) (rides db)).

(** [UPDATE ride_bookings SET booking_status = ? WHERE id = ?]; the
    handlers only pass the literal ['cancelled'], which the CHECK admits. *)
Definition update_booking_status (db : DB) (st id : string) : DB :=
  with_bookings db
    (update_where b_id id (set_booking_status st) (ride_bookings db)).

(** [UPDATE rides SET status = ? WHERE id = ?]: the CHECK on [status] is
    evaluated on the rows that are rewritten. *)
Definition update_status_where (db : DB) (st id : string) : option DB :=
  if mem st ride_statuses || negb (mem id (map r_id (rides db)))
  then Some (with_rides db (update_where r_id id (set_status st) (rides db)))
  else None.

(** ** The better-sqlite3 server *)

Module Sqlite.

(** *** [routes/rides.js] *)

(** Create ride: [router.post('/')]. *)
Definition create_ride (db : DB) (user : string) (req : RideReq) (uuid : Ids)
  : DB * Response :=
  if falsy_str (rq_pickup_address req) || falsy_str (rq_drop_address req)
     || falsy_str (rq_pickup_time req) || falsy_num (rq_total_seats req)
     || falsy_str (rq_vehicle_type req) || falsy_num (rq_price_per_seat req)
  then (db, (400, Msg "Missing required fields"))
  else
    let rideId := uuid 0%nat in
    match insert_ride db
            (mkRide rideId user (rq_pickup_address req) (rq_drop_address req)
               (rq_pickup_time req) (rq_total_seats req)
               (num_or (rq_available_seats req) (rq_total_seats req))
               (rq_vehicle_type req) (rq_price_per_seat req)
               (truthy (rq_description req)) "available") with
    | Some db' => (db', (201, RideRow (get_ride db' rideId)))
    | None => (db, (500, Msg "Failed to create ride"))
    end.

(** The body of [for (const booking of bookings)]: the message is inserted
    first, then the booking is cancelled.  A throwing INSERT leaves the
    loop; the [catch] around it only logs, so the database is the one
    reached at that point. *)
Fixpoint cancel_each (db : DB) (ride : Ride) (driver_name : string)
    (reason : option string) (bookings : list Booking) (uuid : Ids) (i : nat)
  : DB :=
  match bookings with
  | [] => db
  | booking :: rest =>
      let messageText :=
        RideCancelled driver_name (pickup_address ride) (drop_address ride)
          (pickup_time ride) (seats_booked booking) (total_price booking)
          (truthy reason) in
      match insert_message db
              (mkMessage (uuid i) (r_id ride) (driver_id ride)
                 (passenger_id booking) messageText "text") with
      | Some db1 =>
          cancel_each (update_booking_status db1 "cancelled" (b_id booking))
            ride driver_name reason rest uuid (S i)
      | None => db
      end
  end.

(** [if (status === 'cancelled') { try { ... } catch { warn } }] *)
Definition notify_and_cancel (db : DB) (ride : Ride) (id : string)
    (reason : option string) (uuid : Ids) : DB :=
  let bookings := confirmed_with_passenger db id in
  let driver := get_user db (driver_id ride) in
  cancel_each db ride (name_or driver "The driver") reason bookings uuid 0.

(** Update ride status: [router.patch('/:id/status')]. *)
Definition update_ride_status (db : DB) (user id : string) (req : StatusReq)
    (uuid : Ids) : DB * Response :=
  match get_ride db id with
  | None => (db, (404, Msg "Ride not found"))
  | Some ride =>
      if negb (driver_id ride == user)
      then (db, (403, Msg "Not authorized"))
      else
        let db1 :=
          if rq_status req == "cancelled"
          then notify_and_cancel db ride id (rq_cancellation_reason req) uuid
          else db in
        match update_status_where db1 (rq_status req) id with
        | Some db2 => (db2, (200, RideRow (get_ride db2 id)))
        | None => (db1, (500, Msg "Failed to update ride"))
        end
  end.

(** *** [routes/bookings.js] *)

(** The notification to the driver after a booking; a failure is logged. *)
Definition notify_booked (db : DB) (user : string) (ride : Ride)
    (rid : string) (seats totalPrice : Z) (messageId : string) : DB :=
  let passenger := get_user db user in
  let messageText :=
    NewBooking (name_or passenger "A passenger") seats (pickup_address ride)
      (drop_address ride) (pickup_time ride) totalPrice in
  match insert_message db
          (mkMessage messageId rid user (driver_id ride) messageText "text")
  with
  | Some db' => db'
  | None => db
  end.

(** Create booking: [router.post('/')]. *)
Definition create_booking (db : DB) (user : string) (req : BookingReq)
    (uuid : Ids) : DB * Response :=
  let rid := rq_ride_id req in
  let seats := rq_seats_booked req in
  if falsy_str rid || falsy_num seats
  then (db, (400, Msg "ride_id and seats_booked are required"))
  else
    match get_ride db rid with
    | None => (db, (404, Msg "Ride not found"))
    | Some ride =>
        if driver_id ride == user
        then (db, (400, Msg "Cannot book your own ride"))
        else if available_seats ride <? seats
        then (db, (400, Msg "Not enough seats available"))
        else
          match get_booking_of db rid user "cancelled" with
          | Some _ => (db, (400, Msg "You already have a booking for this ride"))
          | None =>
              let bookingId := uuid 0%nat in
              let totalPrice := price_per_seat ride * seats in
              match insert_booking db
                      (mkBooking bookingId rid user seats "confirmed"
                         totalPrice) with
              | None => (db, (500, Msg "Failed to create booking"))
              | Some db1 =>
                  let db2 := sub_available_seats db1 seats rid in
                  let booking := get_booking db2 bookingId in
                  let db3 :=
                    notify_booked db2 user ride rid seats totalPrice
                      (uuid 1%nat) in
                  (db3, (201, BookingRow booking))
              end
          end
    end.

(** The notification to the driver after a cancellation.  The ride is read
    after the seats were given back; [ride.pickup_time] on a missing ride
    throws inside the [try]. *)
Definition notify_cancelled (db : DB) (user : string) (booking : Booking)
    (messageId : string) : DB :=
  match get_ride db (ride_id booking) with
  | None => db
  | Some ride =>
      let passenger := get_user db user in
      let newAvailableSeats := available_seats ride + seats_booked booking in
      let messageText :=
        BookingCancelled (name_or passenger "A passenger")
          (pickup_address ride) (drop_address ride) (pickup_time ride)
          (seats_booked booking) (total_price booking) newAvailableSeats in
      match insert_message db
              (mkMessage messageId (ride_id booking) user (driver_id ride)
                 messageText "text") with
      | Some db' => db'
      | None => db
      end
  end.

(** Cancel booking: [router.patch('/:id/cancel')]. *)
Definition cancel_booking (db : DB) (user id : string) (uuid : Ids)
  : DB * Response :=
  match get_booking db id with
  | None => (db, (404, Msg "Booking not found"))
  | Some booking =>
      if negb (passenger_id booking == user)
      then (db, (403, Msg "Not authorized"))
      else if booking_status booking == "cancelled"
      then (db, (400, Msg "Booking already cancelled"))
      else
        let db1 := update_booking_status db "cancelled" id in
        let db2 :=
          add_available_seats db1 (seats_booked booking) (ride_id booking) in
        let db3 := notify_cancelled db2 user booking (uuid 0%nat) in
        (db3, (200, BookingRow (get_booking db3 id)))
  end.

End Sqlite.

(** ** The Supabase server

    The Supabase schema is not part of the repository; its tables are taken
    to have the columns and constraints of [initDatabase].  A supabase-js
    call never throws: it returns [{ data, error }], and the handlers look
    at [error] only where the embedding returns [None].  Row ids come from
    the column default, drawn here from the same id supply. *)

Module Supabase.

(** [.single()]: exactly one row, else an error. *)
Definition single {A : Type} (rows : list A) : option A :=
  match rows with
  | [x] => Some x
  | _ => None
  end.

(** [.maybeSingle()]: [data] is the row when there is exactly one; with no
    row, or with several (an error the handler does not read), it is null. *)
Definition maybeSingle {A : Type} (rows : list A) : option A := single rows.

Definition select_ride (db : DB) (id : string) : option Ride :=
  single (filter (fun r => r_id r == id) (rides db)).

Definition select_booking (db : DB) (id : string) : option Booking :=
  single (filter (fun b => b_id b == id) (ride_bookings db)).

(** [getUser] *)
Definition getUser (db : DB) (userId : string) : option User :=
  single (filter (fun u => u_id u == userId) (users db)).

(** An insert whose error is not read. *)
Definition insert_message_quiet (db : DB) (m : Message) : DB :=
  match insert_message db m with
  | Some db' => db'
  | None => db
  end.

Fixpoint cancel_each (db : DB) (ride : Ride) (driver_name : string)
    (reason : option string) (bookings : list Booking) (uuid : Ids) (i : nat)
  : DB :=
  match bookings with
  | [] => db
  | booking :: rest =>
      let messageText :=
        RideCancelled driver_name (pickup_address ride) (drop_address ride)
          (pickup_time ride) (seats_booked booking) (total_price booking)
          (truthy reason) in
      let db1 :=
        insert_message_quiet db
          (mkMessage (uuid i) (r_id ride) (driver_id ride)
             (passenger_id booking) messageText "text") in
      cancel_each (update_booking_status db1 "cancelled" (b_id booking))
        ride driver_name reason rest uuid (S i)
  end.

(** Update ride status: [app.patch('/api/rides/:id/status')]. *)
Definition update_ride_status (db : DB) (userId id : string)
    (req : StatusReq) (uuid : Ids) : DB * Response :=
  match select_ride db id with
  | None => (db, (404, Msg "Ride not found"))
  | Some ride =>
      if negb (driver_id ride == userId)
      then (db, (403, Msg "Not authorized"))
      else
        let db1 :=
          if rq_status req == "cancelled"
          then
            let bookings := confirmed_on db id in
            cancel_each db ride (name_or (getUser db userId) "The driver")
              (rq_cancellation_reason req) bookings uuid 0
          else db in
        match update_status_where db1 (rq_status req) id with
        | Some db2 =>
            match select_ride db2 id with
            | Some updated => (db2, (200, RideRow (Some updated)))
            | None => (db2, (500, Msg "Failed to update ride"))
            end
        | None => (db1, (500, Msg "Failed to update ride"))
        end
  end.

(** Create booking: [app.post('/api/bookings')].  The handler awaits each
    of its calls.  Up to its last check it only reads: it ends with a
    refusal or with the ride row it has read. *)
Definition create_booking_checks (db : DB) (userId : string)
    (req : BookingReq) : Response + Ride :=
  let rid := rq_ride_id req in
  let seats := rq_seats_booked req in
  if falsy_str rid || falsy_num seats
  then inl (400, Msg "ride_id and seats_booked are required")
  else
    match select_ride db rid with
    | None => inl (404, Msg "Ride not found")
    | Some ride =>
        if driver_id ride == userId
        then inl (400, Msg "Cannot book your own ride")
        else if available_seats ride <? seats
        then inl (400, Msg "Not enough seats available")
        else
          match maybeSingle
                  (filter (is_booking_of rid userId "cancelled")
                     (ride_bookings db)) with
          | Some _ => inl (400, Msg "You already have a booking for this ride")
          | None => inr ride
          end
    end.

(** From the insert on it writes; the seats it stores are computed from
    the ride row read by the checks. *)
Definition create_booking_writes (db : DB) (userId : string)
    (req : BookingReq) (uuid : Ids) (ride : Ride) : DB * Response :=
  let rid := rq_ride_id req in
  let seats := rq_seats_booked req in
  let totalPrice := price_per_seat ride * seats in
  let booking :=
    mkBooking (uuid 0%nat) rid userId seats "confirmed" totalPrice in
  match insert_booking db booking with
  | None => (db, (500, Msg "Failed to create booking"))
  | Some db1 =>
      let db2 :=
        write_available_seats db1 (available_seats ride - seats) rid in
      let passenger := getUser db2 userId in
      let messageText :=
        NewBooking (name_or passenger "A passenger") seats
          (pickup_address ride) (drop_address ride) (pickup_time ride)
          totalPrice in
      let db3 :=
        insert_message_quiet db2
          (mkMessage (uuid 1%nat) rid userId (driver_id ride) messageText
             "text") in
      (db3, (201, BookingRow (Some booking)))
  end.

(** One call served without another one in between. *)
Definition create_booking (db : DB) (userId : string) (req : BookingReq)
    (uuid : Ids) : DB * Response :=
  match create_booking_checks db userId req with
  | inl refusal => (db, refusal)
  | inr ride => create_booking_writes db userId req uuid ride
  end.

(** Cancel booking: [app.patch('/api/bookings/:id/cancel')].  The ride is
    embedded in the booking when it is fetched (the [ride] relation); reading
    [booking.ride.available_seats] of a missing ride throws after the
    booking was already rewritten. *)
Definition cancel_booking (db : DB) (userId id : string) (uuid : Ids)
  : DB * Response :=
  match select_booking db id with
  | None => (db, (404, Msg "Booking not found"))
  | Some booking =>
      if negb (passenger_id booking == userId)
      then (db, (403, Msg "Not authorized"))
      else if booking_status booking == "cancelled"
      then (db, (400, Msg "Booking already cancelled"))
      else
        let db1 := update_booking_status db "cancelled" id in
        match get_ride db (ride_id booking) with
        | None => (db1, (500, Msg "Failed to cancel booking"))
        | Some ride =>
            let db2 :=
              write_available_seats db1
                (available_seats ride + seats_booked booking)
                (ride_id booking) in
            let passenger := getUser db2 userId in
            let newAvailableSeats :=
              available_seats ride + seats_booked booking in
            let messageText :=
              BookingCancelled (name_or passenger "A passenger")
                (pickup_address ride) (drop_address ride) (pickup_time ride)
                (seats_booked booking) (total_price booking)
                newAvailableSeats in
            let db3 :=
              insert_message_quiet db2
                (mkMessage (uuid 0%nat) (ride_id booking) userId
                   (driver_id ride) messageText "text") in
            (db3, (200, BookingRow (select_booking db3 id)))
        end
  end.

End Supabase.

(** ** The error taxonomy of the specification

    NotFound, Forbidden, InvalidOperation, Conflict and Internal, read off
    a response: the handlers answer 404, 403, 400 and 500; a duplicate
    active booking is the one 400 that stands for Conflict. *)

Inductive ErrorKind :=
| NotFound | Forbidden | InvalidOperation | Conflict | Internal.

Definition error_kind (r : Response) : option ErrorKind :=
  let '(code, body) := r in
  if Z.eqb code 404 then Some NotFound
  else if Z.eqb code 403 then Some Forbidden
  else if Z.eqb code 500 then Some Internal
  else if Z.eqb code 400 then
    match body with
    | Msg text =>
        if text == "You already have a booking for this ride"
        then Some Conflict else Some InvalidOperation
    | _ => Some InvalidOperation
    end
  else None.


(** ** Vocabulary of the statements *)

(** Two databases that differ at most in their messages. *)
Definition same_ledger (db db' : DB) : Prop :=
  users db' = users db /\ rides db' = rides db
  /\ ride_bookings db' = ride_bookings db.

(** The seat counters of every ride, in table order. *)
Definition seat_counters (db : DB) : list (string * Z * Z) :=
  map (fun r => (r_id r, total_seats r, available_seats r)) (rides db).

(** The status of every ride, in table order. *)
Definition status_column (db : DB) : list (string * string) :=
  map (fun r => (r_id r, status r)) (rides db).

(** The database in which the ride with id [i] has status [g i]. *)
Definition restatus (g : string -> string) (db : DB) : DB :=
  with_rides db (map (fun r => set_status (g (r_id r)) r) (rides db)).

(** "Create booking succeeds only while the ride is available": against a
    ride in another status the request is refused and no booking is
    inserted. *)
Definition refuses_unavailable_ride (db : DB) (user : string)
    (req : BookingReq) (uuid : Ids) : Prop :=
  forall ride,
    get_ride db (rq_ride_id req) = Some ride ->
    status ride <> "available" ->
    error_kind (snd (Sqlite.create_booking db user req uuid)) <> None
    /\ ride_bookings (fst (Sqlite.create_booking db user req uuid))
       = ride_bookings db.

(** "Cancelled is terminal": a status update leaves a cancelled ride
    cancelled. *)
Definition cancelled_is_terminal (db : DB) (user id : string)
    (req : StatusReq) (uuid : Ids) : Prop :=
  forall ride,
    get_ride db id = Some ride ->
    status ride = "cancelled" ->
    option_map status
      (get_ride (fst (Sqlite.update_ride_status db user id req uuid)) id)
    = Some "cancelled".

(** The preconditions of CreateBooking, in the order in which the
    specification lists them, with the error each one stands for. *)
Inductive Precondition :=
| RideExists | NotOwnRide | EnoughSeats | NoActiveBooking.

Definition preconditions : list Precondition :=
  [RideExists; NotOwnRide; EnoughSeats; NoActiveBooking].

Definition error_of (p : Precondition) : ErrorKind :=
  match p with
  | RideExists => NotFound
  | NotOwnRide => InvalidOperation
  | EnoughSeats => InvalidOperation
  | NoActiveBooking => Conflict
  end.

(** Whether a request violates a precondition.  The two that speak of the
    ride's fields cannot be violated by a ride that does not exist. *)
Definition violated (db : DB) (user : string) (req : BookingReq)
    (p : Precondition) : bool :=
  match p with
  | RideExists => negb (mem (rq_ride_id req) (map r_id (rides db)))
  | NotOwnRide =>
      match get_ride db (rq_ride_id req) with
      | Some ride => driver_id ride == user
      | None => false
      end
  | EnoughSeats =>
      match get_ride db (rq_ride_id req) with
      | Some ride => available_seats ride <? rq_seats_booked req
      | None => false
      end
  | NoActiveBooking =>
      existsb (is_booking_of (rq_ride_id req) user "cancelled")
        (ride_bookings db)
  end.

Definition earliest_violation (db : DB) (user : string) (req : BookingReq)
  : option Precondition :=
  find (violated db user req) preconditions.

(** The response with which the handlers refuse on each precondition. *)
Definition rejection (p : Precondition) : Response :=
  match p with
  | RideExists => (404, Msg "Ride not found")
  | NotOwnRide => (400, Msg "Cannot book your own ride")
  | EnoughSeats => (400, Msg "Not enough seats available")
  | NoActiveBooking => (400, Msg "You already have a booking for this ride")
  end.



(** The bookings after those with the ids of [cancelled] were cancelled. *)
Definition cancel_all (cancelled : list Booking) (rows : list Booking)
  : list Booking :=
  map (fun b => if mem (b_id b) (map b_id cancelled)
                then set_booking_status "cancelled" b else b) rows.

(** *** The server as a transition system

    The Express handlers are synchronous: the server runs one of them to
    its end before it starts the next.  A run of the server is therefore a
    list of requests, in the order in which they are dispatched. *)
Inductive Request :=
| CreateRide (user : string) (req : RideReq) (uuid : Ids)
| CreateBooking (user : string) (req : BookingReq) (uuid : Ids)
| CancelBooking (user id : string) (uuid : Ids)
| UpdateRideStatus (user id : string) (req : StatusReq) (uuid : Ids).

Definition handle (db : DB) (rq : Request) : DB * Response :=
  match rq with
  | CreateRide user req uuid => Sqlite.create_ride db user req uuid
  | CreateBooking user req uuid => Sqlite.create_booking db user req uuid
  | CancelBooking user id uuid => Sqlite.cancel_booking db user id uuid
  | UpdateRideStatus user id req uuid =>
      Sqlite.update_ride_status db user id req uuid
  end.

(** The database and the responses, in order, after a run. *)
Fixpoint serve (db : DB) (rqs : list Request) : DB * list Response :=
  match rqs with
  | [] => (db, [])
  | rq :: rest =>
      let (db1, resp) := handle db rq in
      let (db2, resps) := serve db1 rest in
      (db2, resp :: resps)
  end.

(** The database of a server that starts with registered people only. *)
Definition opening (people : list User) : DB := mkDB people [] [] [].

Definition seats_in_range (r : Ride) : Prop :=
  0 <= available_seats r <= total_seats r.

(** "At every reachable state, 0 <= available_seats <= total_seats". *)
Definition seats_always_in_range (people : list User) (rqs : list Request)
  : Prop :=
  forall r, In r (rides (fst (serve (opening people) rqs))) ->
            seats_in_range r.

(** The seats that the bookings which are not cancelled hold on a ride. *)
Definition holds_on (id : string) (b : Booking) : Z :=
  if (ride_id b == id) && negb (booking_status b == "cancelled")
  then seats_booked b else 0.

Fixpoint held (id : string) (bs : list Booking) : Z :=
  match bs with
  | [] => 0
  | b :: rest => holds_on id b + held id rest
  end.

(** Bookings of which some were cancelled, row by row. *)
Definition some_cancelled (bs bs' : list Booking) : Prop :=
  Forall2 (fun b b' => b' = b \/ b' = set_booking_status "cancelled" b)
    bs bs'.

(** *** Simultaneous bookings

    A caller of create booking: who asks, and the ids the handler draws
    while it serves the call. *)
Definition Caller : Type := (string * Ids)%type.

Definition one_seat (rid : string) (c : Caller) : Request :=
  CreateBooking (fst c) (mkBookingReq rid 1) (snd c).

Definition accepted (r : Response) : bool := Z.eqb (fst r) 201.

Definition rejected_invalid (r : Response) : bool :=
  match error_kind r with
  | Some InvalidOperation => true
  | _ => false
  end.

(** A caller who could book the ride if seats are left: a registered
    person other than the driver, without a booking on the ride that is not
    cancelled, for whom an unused booking id is drawn. *)
Definition may_book (db : DB) (rid : string) (ride : Ride) (c : Caller)
  : Prop :=
  fst c <> driver_id ride
  /\ mem (fst c) (map u_id (users db)) = true
  /\ get_booking_of db rid (fst c) "cancelled" = None
  /\ mem (snd c 0%nat) (map b_id (ride_bookings db)) = false.

(** The example of the specification: a ride of four seats at 100 a seat,
    its driver and the passengers. *)
Module Scenario.

Definition ids (prefix : string) : Ids :=
  fun n => prefix ++ "-" ++ NilEmpty.string_of_uint (Nat.to_uint n).

Definition people : list User :=
  [mkUser "driver" "Dee"; mkUser "ann" "Ann"; mkUser "bob" "Bob";
   mkUser "cy" "Cy"; mkUser "di" "Di"].

Definition ride (st : string) (available : Z) : Ride :=
  mkRide "ride-0" "driver" "Pune" "Mumbai" "2026-01-05T09:00" 4 available
         "car" 100 None st.

Definition booking (id passenger : string) (seats : Z) (st : string)
  : Booking :=
  mkBooking id "ride-0" passenger seats st (100 * seats).

(** Nobody has booked yet. *)
Definition fresh : DB := mkDB people [ride "available" 4] [] [].

(** Ann holds two seats. *)
Definition booked : DB :=
  mkDB people [ride "available" 2] [booking "bk-ann" "ann" 2 "confirmed"] [].


(** The driver has cancelled the ride on which Ann held two seats. *)
Definition called_off : DB :=
  mkDB people [ride "cancelled" 2] [booking "bk-ann" "ann" 2 "cancelled"] [].

Definition publish (available : option Z) : Request :=
  CreateRide "driver"
    (mkRideReq "Pune" "Mumbai" "2026-01-05T09:00" 4 available "car" 100 None)
    (ids "ride").

(** The driver publishes the ride, Ann books two seats, Bob asks for
    three, Ann cancels, the driver cancels the ride. *)
Definition story : list Request :=
  [publish None;
   CreateBooking "ann" (mkBookingReq "ride-0" 2) (ids "bk-ann");
   CreateBooking "bob" (mkBookingReq "ride-0" 3) (ids "bk-bob");
   CancelBooking "ann" "bk-ann-0" (ids "note");
   UpdateRideStatus "driver" "ride-0" (mkStatusReq "cancelled" None)
     (ids "bye")].

(** As [booked], with a message stored under the id that the next notice
    will draw. *)
Definition noted : DB :=
  mkDB people [ride "available" 2] [booking "bk-ann" "ann" 2 "confirmed"]
    [mkMessage "bye-0" "ride-0" "ann" "driver"
       (NewBooking "Ann" 2 "Pune" "Mumbai" "2026-01-05T09:00" 200) "text"].

(** Bob, Cy and Di ask for a seat at the same time. *)
Definition rush : list Caller :=
  [("bob", ids "bk-bob"); ("cy", ids "bk-cy"); ("di", ids "bk-di")].

(** The server happens to take Cy's call first. *)
Definition rush_served : list Caller :=
  [("cy", ids "bk-cy"); ("bob", ids "bk-bob"); ("di", ids "bk-di")].

End Scenario.

From Stdlib Require Import Ascii Sorted.

(** ** More routes of the two servers

    The routes below answer with a list of rows or with no body at all;
    their results are typed for that. *)

(** A status code with an optional body ([res.status(204).send()]). *)
Definition Reply : Type := (Z * option Body)%type.

(** [ORDER BY key ASC]: a row goes before the first row that does not sort
    before it.  SQL leaves the order of rows with equal keys open; the
    statements below do not depend on it. *)
Fixpoint insert_asc {A : Type} (key : A -> string) (x : A) (rows : list A)
  : list A :=
  match rows with
  | [] => [x]
  | y :: rest =>
      if String.leb (key x) (key y) then x :: y :: rest
      else y :: insert_asc key x rest
  end.

Definition order_by {A : Type} (key : A -> string) (rows : list A) : list A :=
  fold_right (insert_asc key) [] rows.

(** [ORDER BY key DESC] *)
Fixpoint insert_desc {A : Type} (key : A -> string) (x : A) (rows : list A)
  : list A :=
  match rows with
  | [] => [x]
  | y :: rest =>
      if String.leb (key y) (key x) then x :: y :: rest
      else y :: insert_desc key x rest
  end.

Definition order_by_desc {A : Type} (key : A -> string) (rows : list A)
  : list A :=
  fold_right (insert_desc key) [] rows.

(** [... r JOIN users u ON r.<column> = u.id]: the row with its user; a
    row without one is dropped. *)
Definition join_user {A : Type} (db : DB) (column : A -> string) (row : A)
  : list (A * User) :=
  match get_user db (column row) with
  | Some u => [(row, u)]
  | None => []
  end.

(** [... b JOIN rides r ON b.ride_id = r.id] *)
Definition join_ride (db : DB) (b : Booking) : list (Booking * Ride) :=
  match get_ride db (ride_id b) with
  | Some r => [(b, r)]
  | None => []
  end.

(** [DELETE FROM rides WHERE id = ?]: the foreign keys of [ride_bookings]
    and [ride_messages] name no action and better-sqlite3 enforces foreign
    keys unless told otherwise, so the statement throws while a booking or a
    message refers to a row it would remove. *)
Definition delete_ride_where (db : DB) (id : string) : option DB :=
  if mem id (map r_id (rides db))
     && (mem id (map ride_id (ride_bookings db))
         || mem id (map m_ride_id (ride_messages db)))
  then None
  else Some (with_rides db (filter (fun r => negb (r_id r == id)) (rides db))).

Module SqliteRoutes.

(** Get available rides: [router.get('/available')].  [now] is the text
    that [datetime('now')] gives; [pickup_time] is compared with it as
    text. *)
Definition is_open (now : string) (r : Ride) : bool :=
  (status r == "available") && (0 <? available_seats r)
  && String.ltb now (pickup_time r).

Definition available (db : DB) (now : string) : list (Ride * User) :=
  order_by (fun ru => pickup_time (fst ru))
    (flat_map (join_user db driver_id) (filter (is_open now) (rides db))).

(** Delete ride: [router.delete('/:id')]. *)
Definition delete_ride (db : DB) (user id : string) : DB * Reply :=
  match get_ride db id with
  | None => (db, (404, Some (Msg "Ride not found")))
  | Some ride =>
      if negb (driver_id ride == user)
      then (db, (403, Some (Msg "Not authorized")))
      else
        match delete_ride_where db id with
        | Some db' => (db', (204, None))
        | None => (db, (500, Some (Msg "Failed to delete ride")))
        end
  end.

(** Get my bookings: [router.get('/my')].  The rows come ordered by
    [booked_at], a column the rows leave out: it is a parameter here. *)
Definition my_bookings (booked_at : Booking -> string) (db : DB)
    (user : string) : list (Booking * Ride) :=
  order_by_desc (fun br => booked_at (fst br))
    (flat_map (join_ride db)
       (filter (fun b => passenger_id b == user) (ride_bookings db))).

(** Get bookings for a ride: [router.get('/ride/:rideId')]. *)
Definition bookings_for_ride (booked_at : Booking -> string) (db : DB)
    (user rideId : string) : Response + list (Booking * User) :=
  match get_ride db rideId with
  | None => inl (404, Msg "Ride not found")
  | Some ride =>
      if negb (driver_id ride == user)
      then inl (403, Msg "Not authorized")
      else
        inr (order_by_desc (fun bu => booked_at (fst bu))
               (flat_map (join_user db passenger_id)
                  (filter (fun b => ride_id b == rideId)
                     (ride_bookings db))))
  end.

End SqliteRoutes.

Module SupabaseRoutes.

(** [s.split(' ')] for a one-character separator. *)
Fixpoint split (sep : Ascii.ascii) (s : string) : list string :=
  match s with
  | EmptyString => [EmptyString]
  | String c rest =>
      if Ascii.eqb c sep then EmptyString :: split sep rest
      else
        match split sep rest with
        | piece :: pieces => String c piece :: pieces
        | [] => [String c EmptyString]
        end
  end.

(** [authHeader && authHeader.split(' ')[1]] *)
Definition bearer (authHeader : option string) : option string :=
  match authHeader with
  | None => None
  | Some h => if falsy_str h then Some h else nth_error (split " "%char h) 1
  end.

(** The middleware [authenticateToken].  [verify] stands for
    [jwt.verify(token, secret)]: the [userId] of the token, or nothing when
    it throws.  The result is the refusal, or the user id with which the
    route goes on. *)
Definition authenticateToken (verify : string -> option string)
    (authHeader : option string) : Response + string :=
  match bearer authHeader with
  | None => inl (401, Msg "Access token required")
  | Some token =>
      if falsy_str token
      then inl (401, Msg "Access token required")
      else
        match verify token with
        | Some userId => inr userId
        | None => inl (403, Msg "Invalid or expired token")
        end
  end.

(** Create ride: [app.post('/api/rides')]; the id is the column default. *)
Definition create_ride (db : DB) (userId : string) (req : RideReq)
    (uuid : Ids) : DB * Response :=
  if falsy_str (rq_pickup_address req) || falsy_str (rq_drop_address req)
     || falsy_str (rq_pickup_time req) || falsy_num (rq_total_seats req)
     || falsy_str (rq_vehicle_type req) || falsy_num (rq_price_per_seat req)
  then (db, (400, Msg "Missing required fields"))
  else
    let ride :=
      mkRide (uuid 0%nat) userId (rq_pickup_address req)
        (rq_drop_address req) (rq_pickup_time req) (rq_total_seats req)
        (num_or (rq_available_seats req) (rq_total_seats req))
        (rq_vehicle_type req) (rq_price_per_seat req)
        (truthy (rq_description req)) "available" in
    match insert_ride db ride with
    | Some db' => (db', (201, RideRow (Some ride)))
    | None => (db, (500, Msg "Failed to create ride"))
    end.

(** Delete ride: [app.delete('/api/rides/:id')]; the result of the delete
    is not read, so a delete that the foreign keys refuse is answered 204
    as well.  The tables are taken to be those of [initDatabase]. *)
Definition delete_ride (db : DB) (userId id : string) : DB * Reply :=
  match Supabase.select_ride db id with
  | None => (db, (404, Some (Msg "Ride not found")))
  | Some ride =>
      if negb (driver_id ride == userId)
      then (db, (403, Some (Msg "Not authorized")))
      else
        match delete_ride_where db id with
        | Some db' => (db', (204, None))
        | None => (db, (204, None))
        end
  end.

End SupabaseRoutes.

(** ** The contact form ([routes/contact.js]) *)

Module Contact.

Record Form := mkForm {
  f_name : string;
  f_email : string;
  f_subject : string;
  f_message : string
}.

(** The variables of the environment that the route reads. *)
Record Env := mkEnv {
  SMTP_USER : option string;
  CONTACT_EMAIL : option string
}.

(** [message.replace(/\n/g, '<br>')] *)
Fixpoint replace_newlines (s : string) : string :=
  match s with
  | EmptyString => EmptyString
  | String c rest =>
      if Ascii.eqb c "010"%char
      then String "<"%char (String "b"%char (String "r"%char
             (String ">"%char (replace_newlines rest))))
      else String c (replace_newlines rest)
  end.

(** The two mails; of their templates the interpolated values are kept. *)
Inductive Mail :=
| Submission (from : option string) (to replyTo subject : string)
    (name email html text : string)
| AutoReply (from : option string) (to : string) (name html : string).

(** [process.env.CONTACT_EMAIL || 'support@poolo.in'] *)
Definition receiverEmail (env : Env) : string :=
  match truthy (CONTACT_EMAIL env) with
  | Some a => a
  | None => "support@poolo.in"
  end.

(** [router.post('/')].  [sendMail] tells whether the transporter accepts
    a mail (otherwise it throws); the result lists the mails that were
    accepted, in order. *)
Definition post (env : Env) (sendMail : Mail -> bool) (form : Form)
  : list Mail * Response :=
  if falsy_str (f_name form) || falsy_str (f_email form)
     || falsy_str (f_subject form) || falsy_str (f_message form)
  then ([], (400, Msg "All fields are required"))
  else
    let mailOptions :=
      Submission (SMTP_USER env) (receiverEmail env) (f_email form)
        ("[Poolo Contact] " ++ f_subject form) (f_name form) (f_email form)
        (replace_newlines (f_message form)) (f_message form) in
    if sendMail mailOptions
    then
      let autoReplyOptions :=
        AutoReply (SMTP_USER env) (f_email form) (f_name form)
          (replace_newlines (f_message form)) in
      if sendMail autoReplyOptions
      then ([mailOptions; autoReplyOptions],
            (200, Msg "Message sent successfully"))
      else ([mailOptions], (200, Msg "Message sent successfully"))
    else ([], (500, Msg "Failed to send message. Please try again later.")).

End Contact.

(** ** Vocabulary of the further statements *)

(** A run of the better-sqlite3 server in which rides are deleted too. *)
Inductive Call :=
| Ledger (rq : Request)
| DeleteRide (user id : string).

Definition answer (db : DB) (c : Call) : DB :=
  match c with
  | Ledger rq => fst (handle db rq)
  | DeleteRide user id => fst (SqliteRoutes.delete_ride db user id)
  end.

Definition run (db : DB) (calls : list Call) : DB :=
  fold_left answer calls db.

(** The bookings of a passenger on a ride that are not cancelled. *)
Definition active_bookings (db : DB) (rid pid : string) : list Booking :=
  filter (is_booking_of rid pid "cancelled") (ride_bookings db).

Definition one_booking_each (db : DB) : Prop :=
  forall rid pid, (List.length (active_bookings db rid pid) <= 1)%nat.

(** The bookings later on: the old rows in their places, some of them
    cancelled, followed by rows that were added. *)
Definition bookings_grow (bs bs' : list Booking) : Prop :=
  exists kept added, bs' = (kept ++ added)%list /\ some_cancelled bs kept.

(** Rows in the order of a text column, ascending and descending. *)
Definition ascending {A : Type} (key : A -> string) (rows : list A) : Prop :=
  Sorted (fun a b => String.leb (key a) (key b) = true) rows.

Definition descending {A : Type} (key : A -> string) (rows : list A) : Prop :=
  Sorted (fun a b => String.leb (key b) (key a) = true) rows.


(** Whether a character occurs in a text. *)
Fixpoint occurs (c : ascii) (s : string) : bool :=
  match s with
  | EmptyString => false
  | String d rest => Ascii.eqb d c || occurs c rest
  end.

(** To whom a mail goes, and to whom an answer to it goes. *)
Definition recipient (m : Contact.Mail) : string :=
  match m with
  | Contact.Submission _ to _ _ _ _ _ _ => to
  | Contact.AutoReply _ to _ _ => to
  end.

Definition reply_to (m : Contact.Mail) : option string :=
  match m with
  | Contact.Submission _ _ replyTo _ _ _ _ _ => Some replyTo
  | Contact.AutoReply _ _ _ _ => None
  end.

Definition is_submission (m : Contact.Mail) : bool :=
  match m with
  | Contact.Submission _ _ _ _ _ _ _ _ => true
  | Contact.AutoReply _ _ _ _ => false
  end.

(** ** Numbers as the program has them

    The rows above carry whole numbers and compute with them exactly.
    The program does not: a number of a JSON request is a JavaScript
    number, better-sqlite3 binds it as a REAL, and SQLite then computes
    [available_seats - ?] and [available_seats + ?] in doubles, as
    JavaScript computes [price_per_seat * seats_booked].  A column of
    INTEGER affinity keeps a whole value that fits as an integer and any
    other value as the REAL it is; either way the row reads back as the
    same JavaScript number.  Module [Double] has this arithmetic, module
    [Stored] the better-sqlite3 routes over it. *)

Module Double.

(** An IEEE 754 double.  Every finite double is a whole multiple of the
    smallest one, 2^-1074: [Finite k] is the number k * 2^-1074.  The two
    zeros are one value: the routes never divide by a number, and both
    print as 0. *)
Inductive number :=
| Finite (k : Z)
| Infinite (negative : bool)
| NaN.

(** The number 1 in units of 2^-1074. *)
Definition scale : Z := 2 ^ 1074.

(** [a / b] to the nearest whole number, a tie to the even one
    ([0 <= a], [0 < b]). *)
Definition half_even (a b : Z) : Z :=
  let q := a / b in
  let r := a mod b in
  if 2 * r <? b then q
  else if b <? 2 * r then q + 1
  else if Z.even q then q else q + 1.

(** The magnitude [a / b], in units of 2^-1074, to 53 significant bits. *)
Definition magnitude (a b : Z) : Z :=
  let s := Z.log2 (a / b) - 52 in
  if s <=? 0 then half_even a b
  else half_even a (b * 2 ^ s) * 2 ^ s.

(** Round to nearest, ties to even: the double nearest to [n / d] units
    ([0 < d]); from 2^1024 on, an infinity. *)
Definition nearest (n d : Z) : number :=
  let m := magnitude (Z.abs n) d in
  if 2 ^ 2098 <=? m then Infinite (n <? 0) else Finite (Z.sgn n * m).

(** The whole number [v], and the number that the literal [n / d] of a
    JSON text denotes. *)
Definition of_whole (v : Z) : number := Finite (v * scale).
Definition decimal (n d : Z) : number := nearest (n * scale) d.

(** [x + y] *)
Definition add (x y : number) : number :=
  match x, y with
  | NaN, _ | _, NaN => NaN
  | Finite a, Finite b => nearest (a + b) 1
  | Infinite n, Finite _ | Finite _, Infinite n => Infinite n
  | Infinite n1, Infinite n2 => if Bool.eqb n1 n2 then Infinite n1 else NaN
  end.

Definition neg (x : number) : number :=
  match x with
  | Finite k => Finite (- k)
  | Infinite n => Infinite (negb n)
  | NaN => NaN
  end.

(** [x - y] *)
Definition sub (x y : number) : number := add x (neg y).

(** [x * y] *)
Definition mul (x y : number) : number :=
  match x, y with
  | NaN, _ | _, NaN => NaN
  | Finite a, Finite b => nearest (a * b) scale
  | Infinite n, Finite b | Finite b, Infinite n =>
      if b =? 0 then NaN else Infinite (xorb n (b <? 0))
  | Infinite n1, Infinite n2 => Infinite (xorb n1 n2)
  end.

(** [x < y] *)
Definition lt (x y : number) : bool :=
  match x, y with
  | NaN, _ | _, NaN => false
  | Finite a, Finite b => a <? b
  | Finite _, Infinite n => negb n
  | Infinite n, Finite _ => n
  | Infinite n1, Infinite n2 => n1 && negb n2
  end.

(** [!x] *)
Definition falsy (x : number) : bool :=
  match x with
  | Finite k => k =? 0
  | Infinite _ => false
  | NaN => true
  end.

(** SQLite stores a NaN as NULL, which a NOT NULL column refuses. *)
Definition is_number (x : number) : bool :=
  match x with
  | NaN => false
  | _ => true
  end.

(** The whole part of a finite number, and the numbers that are whole. *)
Definition count (x : number) : Z :=
  match x with
  | Finite k => k / scale
  | _ => 0
  end.

Definition whole (x : number) : Prop := x = of_whole (count x).

(** [x <= y] as numbers. *)
Definition le (x y : number) : Prop :=
  match x, y with
  | NaN, _ | _, NaN => False
  | Finite a, Finite b => a <= b
  | Finite _, Infinite n => n = false
  | Infinite n, Finite _ => n = true
  | Infinite n1, Infinite n2 => n1 = true \/ n2 = false
  end.

(** The whole numbers that every double between them separates:
    up to 2^53. *)
Definition safe : Z := 2 ^ 53.

End Double.

(** ** The better-sqlite3 server over the values of the store

    The routes of [routes/rides.js] and [routes/bookings.js] that write the
    ledger, once more, with the rows as [initDatabase] declares them:
    numbers are doubles, a nullable column holds an optional value, the
    coordinates of a ride are kept.  A field of a request is typed as the
    API documents it, a text or a number; a field that is missing or null
    is [None].  The columns [created_at], [updated_at], [booked_at],
    [sent_at], [is_read] and [expected_drop_time], which these routes do
    not read, are left out of the rows. *)

Module Stored.

Record Ride := mkRide {
  r_id : string;
  driver_id : string;
  pickup_address : string;
  pickup_latitude : option Double.number;
  pickup_longitude : option Double.number;
  drop_address : string;
  drop_latitude : option Double.number;
  drop_longitude : option Double.number;
  pickup_time : string;
  total_seats : Double.number;
  available_seats : Double.number;
  vehicle_type : string;
  price_per_seat : Double.number;
  description : option string;
  status : option string
}.

Record Booking := mkBooking {
  b_id : string;
  ride_id : string;
  passenger_id : string;
  seats_booked : Double.number;
  booking_status : option string;
  total_price : Double.number
}.

Inductive MessageText :=
| NewBooking (passenger_name : string) (seats : Double.number)
    (pickup drop pickup_at : string) (total : Double.number)
| BookingCancelled (passenger_name : string)
    (pickup drop pickup_at : string)
    (seats refund newAvailableSeats : Double.number)
| RideCancelled (driver_name : string)
    (pickup drop pickup_at : string) (seats refund : Double.number)
    (reason : option string).

Record Message := mkMessage {
  m_id : string;
  m_ride_id : string;
  sender_id : string;
  receiver_id : string;
  message : MessageText;
  message_type : string
}.

Record DB := mkDB {
  users : list User;
  rides : list Ride;
  ride_bookings : list Booking;
  ride_messages : list Message
}.

(** *** Requests and responses *)

Record RideReq := mkRideReq {
  rq_pickup_address : option string;
  rq_drop_address : option string;
  rq_pickup_time : option string;
  rq_total_seats : option Double.number;
  rq_available_seats : option Double.number;
  rq_vehicle_type : option string;
  rq_price_per_seat : option Double.number;
  rq_description : option string;
  rq_pickup_latitude : option Double.number;
  rq_pickup_longitude : option Double.number;
  rq_drop_latitude : option Double.number;
  rq_drop_longitude : option Double.number
}.

Record BookingReq := mkBookingReq {
  rq_ride_id : option string;
  rq_seats_booked : option Double.number
}.

Record StatusReq := mkStatusReq {
  rq_status : option string;
  rq_cancellation_reason : option string
}.

Inductive Body :=
| Msg (text : string)
| RideRow (r : option Ride)
| BookingRow (b : option Booking)
| Empty.

Definition Response : Type := Z * Body.

(** A number that is there and truthy: [if (!x)], [x || null]. *)
Definition given (x : option Double.number) : option Double.number :=
  match x with
  | Some n => if Double.falsy n then None else Some n
  | None => None
  end.

(** [a || b] *)
Definition num_or (a : option Double.number) (b : Double.number)
  : Double.number :=
  match given a with
  | Some n => n
  | None => b
  end.

(** [x === 'text'] on a nullable text, and SQL's [x = 'text']: a NULL is
    not equal to a text. *)
Definition is_text (x : option string) (s : string) : bool :=
  match x with
  | Some t => t == s
  | None => false
  end.

(** SQL's [x != 'text']: not true of a NULL either. *)
Definition is_other_text (x : option string) (s : string) : bool :=
  match x with
  | Some t => negb (t == s)
  | None => false
  end.

(** [CHECK (x IN (...))] passes on a NULL. *)
Definition check_in (x : option string) (l : list string) : bool :=
  match x with
  | Some t => mem t l
  | None => true
  end.

(** *** The statements the handlers run *)

Definition get_user (db : DB) (id : string) : option User :=
  lookup u_id id (users db).

Definition get_ride (db : DB) (id : string) : option Ride :=
  lookup r_id id (rides db).

Definition get_booking (db : DB) (id : string) : option Booking :=
  lookup b_id id (ride_bookings db).

(** [SELECT * FROM ride_bookings
     WHERE ride_id = ? AND passenger_id = ? AND booking_status != ?] *)
Definition is_booking_of (rid pid st : string) (b : Booking) : bool :=
  (ride_id b == rid) && (passenger_id b == pid)
  && is_other_text (booking_status b) st.

Definition get_booking_of (db : DB) (rid pid st : string) : option Booking :=
  find (is_booking_of rid pid st) (ride_bookings db).

(** [SELECT b.* FROM ride_bookings b JOIN users u ON b.passenger_id = u.id
     WHERE b.ride_id = ? AND b.booking_status = 'confirmed'] *)
Definition is_confirmed_on (rid : string) (b : Booking) : bool :=
  (ride_id b == rid) && is_text (booking_status b) "confirmed".

Definition confirmed_with_passenger (db : DB) (rid : string) : list Booking :=
  filter (fun b => is_confirmed_on rid b
                   && mem (passenger_id b) (map u_id (users db)))
         (ride_bookings db).

Definition with_rides (db : DB) (rs : list Ride) : DB :=
  mkDB (users db) rs (ride_bookings db) (ride_messages db).
Definition with_bookings (db : DB) (bs : list Booking) : DB :=
  mkDB (users db) (rides db) bs (ride_messages db).
Definition with_messages (db : DB) (ms : list Message) : DB :=
  mkDB (users db) (rides db) (ride_bookings db) ms.

(** An INSERT throws when the primary key is taken, a foreign key has no
    target, a CHECK fails or a NOT NULL column would get a NULL. *)
Definition insert_ride (db : DB) (r : Ride) : option DB :=
  if negb (mem (r_id r) (map r_id (rides db)))
     && mem (driver_id r) (map u_id (users db))
     && mem (vehicle_type r) vehicle_types
     && check_in (status r) ride_statuses
     && Double.is_number (total_seats r)
     && Double.is_number (available_seats r)
     && Double.is_number (price_per_seat r)
  then Some (with_rides db (rides db ++ [r]))
  else None.

Definition insert_booking (db : DB) (b : Booking) : option DB :=
  if negb (mem (b_id b) (map b_id (ride_bookings db)))
     && mem (ride_id b) (map r_id (rides db))
     && mem (passenger_id b) (map u_id (users db))
     && check_in (booking_status b) booking_statuses
     && Double.is_number (seats_booked b)
     && Double.is_number (total_price b)
  then Some (with_bookings db (ride_bookings db ++ [b]))
  else None.

Definition insert_message (db : DB) (m : Message) : option DB :=
  if negb (mem (m_id m) (map m_id (ride_messages db)))
     && mem (m_ride_id m) (map r_id (rides db))
     && mem (sender_id m) (map u_id (users db))
     && mem (receiver_id m) (map u_id (users db))
     && mem (message_type m) message_types
  then Some (with_messages db (ride_messages db ++ [m]))
  else None.

Definition set_available_seats (n : Double.number) (r : Ride) : Ride :=
  mkRide (r_id r) (driver_id r) (pickup_address r) (pickup_latitude r)
         (pickup_longitude r) (drop_address r) (drop_latitude r)
         (drop_longitude r) (pickup_time r) (total_seats r) n
         (vehicle_type r) (price_per_seat r) (description r) (status r).

Definition set_status (st : option string) (r : Ride) : Ride :=
  mkRide (r_id r) (driver_id r) (pickup_address r) (pickup_latitude r)
         (pickup_longitude r) (drop_address r) (drop_latitude r)
         (drop_longitude r) (pickup_time r) (total_seats r)
         (available_seats r) (vehicle_type r) (price_per_seat r)
         (description r) st.

Definition set_booking_status (st : option string) (b : Booking) : Booking :=
  mkBooking (b_id b) (ride_id b) (passenger_id b) (seats_booked b) st
            (total_price b).

(** [UPDATE rides SET available_seats = <expression> WHERE id = ?]: the
    statement throws when the expression is a NaN on a row it rewrites. *)
Definition update_available_seats (db : DB)
    (f : Double.number -> Double.number) (id : string) : option DB :=
  if forallb (fun r => negb (r_id r == id)
                       || Double.is_number (f (available_seats r)))
       (rides db)
  then Some (with_rides db
               (update_where r_id id
                  (fun r => set_available_seats (f (available_seats r)) r)
                  (rides db)))
  else None.

(** [UPDATE rides SET available_seats = available_seats + ? WHERE id = ?] *)
Definition add_available_seats (db : DB) (n : Double.number) (id : string)
  : option DB :=
  update_available_seats db (fun a => Double.add a n) id.

(** [UPDATE rides SET available_seats = available_seats - ? WHERE id = ?] *)
Definition sub_available_seats (db : DB) (n : Double.number) (id : string)
  : option DB :=
  update_available_seats db (fun a => Double.sub a n) id.

(** [UPDATE ride_bookings SET booking_status = 'cancelled' WHERE id = ?] *)
Definition update_booking_status (db : DB) (st id : string) : DB :=
  with_bookings db
    (update_where b_id id (set_booking_status (Some st)) (ride_bookings db)).

(** [UPDATE rides SET status = ? WHERE id = ?]: the CHECK on [status] is
    evaluated on the rows that are rewritten, and a NULL passes it. *)
Definition update_status_where (db : DB) (st : option string) (id : string)
  : option DB :=
  if check_in st ride_statuses || negb (mem id (map r_id (rides db)))
  then Some (with_rides db (update_where r_id id (set_status st) (rides db)))
  else None.

(** [DELETE FROM rides WHERE id = ?] under the foreign keys of
    [ride_bookings] and [ride_messages]. *)
Definition delete_ride_where (db : DB) (id : string) : option DB :=
  if mem id (map r_id (rides db))
     && (mem id (map ride_id (ride_bookings db))
         || mem id (map m_ride_id (ride_messages db)))
  then None
  else Some (with_rides db (filter (fun r => negb (r_id r == id)) (rides db))).

(** *** [routes/rides.js] *)

(** Create ride: [router.post('/')]. *)
Definition create_ride (db : DB) (user : string) (req : RideReq) (uuid : Ids)
  : DB * Response :=
  match truthy (rq_pickup_address req), truthy (rq_drop_address req),
        truthy (rq_pickup_time req), given (rq_total_seats req),
        truthy (rq_vehicle_type req), given (rq_price_per_seat req) with
  | Some pickup, Some drop, Some pickup_at, Some total, Some vehicle,
    Some price =>
      let rideId := uuid 0%nat in
      match insert_ride db
              (mkRide rideId user pickup (given (rq_pickup_latitude req))
                 (given (rq_pickup_longitude req)) drop
                 (given (rq_drop_latitude req))
                 (given (rq_drop_longitude req)) pickup_at total
                 (num_or (rq_available_seats req) total) vehicle price
                 (truthy (rq_description req)) (Some "available")) with
      | Some db' => (db', (201, RideRow (get_ride db' rideId)))
      | None => (db, (500, Msg "Failed to create ride"))
      end
  | _, _, _, _, _, _ => (db, (400, Msg "Missing required fields"))
  end.

(** The body of [for (const booking of bookings)]: the message is inserted
    first, then the booking is cancelled; a throwing INSERT leaves the
    loop. *)
Fixpoint cancel_each (db : DB) (ride : Ride) (driver_name : string)
    (reason : option string) (bookings : list Booking) (uuid : Ids) (i : nat)
  : DB :=
  match bookings with
  | [] => db
  | booking :: rest =>
      let messageText :=
        RideCancelled driver_name (pickup_address ride) (drop_address ride)
          (pickup_time ride) (seats_booked booking) (total_price booking)
          (truthy reason) in
      match insert_message db
              (mkMessage (uuid i) (r_id ride) (driver_id ride)
                 (passenger_id booking) messageText "text") with
      | Some db1 =>
          cancel_each (update_booking_status db1 "cancelled" (b_id booking))
            ride driver_name reason rest uuid (S i)
      | None => db
      end
  end.

(** [if (status === 'cancelled') { try { ... } catch { warn } }] *)
Definition notify_and_cancel (db : DB) (ride : Ride) (id : string)
    (reason : option string) (uuid : Ids) : DB :=
  let bookings := confirmed_with_passenger db id in
  let driver := get_user db (driver_id ride) in
  cancel_each db ride (name_or driver "The driver") reason bookings uuid 0.

(** Update ride status: [router.patch('/:id/status')]. *)
Definition update_ride_status (db : DB) (user id : string) (req : StatusReq)
    (uuid : Ids) : DB * Response :=
  match get_ride db id with
  | None => (db, (404, Msg "Ride not found"))
  | Some ride =>
      if negb (driver_id ride == user)
      then (db, (403, Msg "Not authorized"))
      else
        let db1 :=
          if is_text (rq_status req) "cancelled"
          then notify_and_cancel db ride id (rq_cancellation_reason req) uuid
          else db in
        match update_status_where db1 (rq_status req) id with
        | Some db2 => (db2, (200, RideRow (get_ride db2 id)))
        | None => (db1, (500, Msg "Failed to update ride"))
        end
  end.

(** Delete ride: [router.delete('/:id')]. *)
Definition delete_ride (db : DB) (user id : string) : DB * Response :=
  match get_ride db id with
  | None => (db, (404, Msg "Ride not found"))
  | Some ride =>
      if negb (driver_id ride == user)
      then (db, (403, Msg "Not authorized"))
      else
        match delete_ride_where db id with
        | Some db' => (db', (204, Empty))
        | None => (db, (500, Msg "Failed to delete ride"))
        end
  end.

(** *** [routes/bookings.js] *)

(** The notification to the driver after a booking; a failure is logged. *)
Definition notify_booked (db : DB) (user : string) (ride : Ride)
    (rid : string) (seats totalPrice : Double.number) (messageId : string)
  : DB :=
  let passenger := get_user db user in
  let messageText :=
    NewBooking (name_or passenger "A passenger") seats (pickup_address ride)
      (drop_address ride) (pickup_time ride) totalPrice in
  match insert_message db
          (mkMessage messageId rid user (driver_id ride) messageText "text")
  with
  | Some db' => db'
  | None => db
  end.

(** Create booking: [router.post('/')].  There is no transaction: when the
    UPDATE of the seats throws, the booking that was inserted stays. *)
Definition create_booking (db : DB) (user : string) (req : BookingReq)
    (uuid : Ids) : DB * Response :=
  match truthy (rq_ride_id req), given (rq_seats_booked req) with
  | Some rid, Some seats =>
      match get_ride db rid with
      | None => (db, (404, Msg "Ride not found"))
      | Some ride =>
          if driver_id ride == user
          then (db, (400, Msg "Cannot book your own ride"))
          else if Double.lt (available_seats ride) seats
          then (db, (400, Msg "Not enough seats available"))
          else
            match get_booking_of db rid user "cancelled" with
            | Some _ =>
                (db, (400, Msg "You already have a booking for this ride"))
            | None =>
                let bookingId := uuid 0%nat in
                let totalPrice := Double.mul (price_per_seat ride) seats in
                match insert_booking db
                        (mkBooking bookingId rid user seats
                           (Some "confirmed") totalPrice) with
                | None => (db, (500, Msg "Failed to create booking"))
                | Some db1 =>
                    match sub_available_seats db1 seats rid with
                    | None => (db1, (500, Msg "Failed to create booking"))
                    | Some db2 =>
                        let booking := get_booking db2 bookingId in
                        let db3 :=
                          notify_booked db2 user ride rid seats totalPrice
                            (uuid 1%nat) in
                        (db3, (201, BookingRow booking))
                    end
                end
            end
      end
  | _, _ => (db, (400, Msg "ride_id and seats_booked are required"))
  end.

(** The notification to the driver after a cancellation.  The ride is read
    after the seats were given back; [ride.pickup_time] on a missing ride
    throws inside the [try]. *)
Definition notify_cancelled (db : DB) (user : string) (booking : Booking)
    (messageId : string) : DB :=
  match get_ride db (ride_id booking) with
  | None => db
  | Some ride =>
      let passenger := get_user db user in
      let newAvailableSeats :=
        Double.add (available_seats ride) (seats_booked booking) in
      let messageText :=
        BookingCancelled (name_or passenger "A passenger")
          (pickup_address ride) (drop_address ride) (pickup_time ride)
          (seats_booked booking) (total_price booking) newAvailableSeats in
      match insert_message db
              (mkMessage messageId (ride_id booking) user (driver_id ride)
                 messageText "text") with
      | Some db' => db'
      | None => db
      end
  end.

(** Cancel booking: [router.patch('/:id/cancel')].  When the UPDATE of the
    seats throws, the booking stays cancelled. *)
Definition cancel_booking (db : DB) (user id : string) (uuid : Ids)
  : DB * Response :=
  match get_booking db id with
  | None => (db, (404, Msg "Booking not found"))
  | Some booking =>
      if negb (passenger_id booking == user)
      then (db, (403, Msg "Not authorized"))
      else if is_text (booking_status booking) "cancelled"
      then (db, (400, Msg "Booking already cancelled"))
      else
        let db1 := update_booking_status db "cancelled" id in
        match add_available_seats db1 (seats_booked booking)
                (ride_id booking) with
        | None => (db1, (500, Msg "Failed to cancel booking"))
        | Some db2 =>
            let db3 := notify_cancelled db2 user booking (uuid 0%nat) in
            (db3, (200, BookingRow (get_booking db3 id)))
        end
  end.

(** *** The server as a transition system *)

Inductive Request :=
| CreateRide (user : string) (req : RideReq) (uuid : Ids)
| CreateBooking (user : string) (req : BookingReq) (uuid : Ids)
| CancelBooking (user id : string) (uuid : Ids)
| UpdateRideStatus (user id : string) (req : StatusReq) (uuid : Ids)
| DeleteRide (user id : string).

Definition handle (db : DB) (rq : Request) : DB * Response :=
  match rq with
  | CreateRide user req uuid => create_ride db user req uuid
  | CreateBooking user req uuid => create_booking db user req uuid
  | CancelBooking user id uuid => cancel_booking db user id uuid
  | UpdateRideStatus user id req uuid => update_ride_status db user id req uuid
  | DeleteRide user id => delete_ride db user id
  end.

(** The database after the requests were served one after the other. *)
Definition run (db : DB) (rqs : list Request) : DB :=
  fold_left (fun d rq => fst (handle d rq)) rqs db.

Definition opening (people : list User) : DB := mkDB people [] [] [].

(** "0 <= available_seats <= total_seats", as numbers. *)
Definition seats_in_range (r : Ride) : Prop :=
  Double.le (Double.of_whole 0) (available_seats r)
  /\ Double.le (available_seats r) (total_seats r).

(** A whole number between [lo] and [hi]. *)
Definition whole_between (lo hi : Z) (x : Double.number) : Prop :=
  Double.whole x /\ lo <= Double.count x <= hi.

(** Requests whose seat counts make sense: a ride is published with whole
    numbers [0 <= available_seats <= total_seats <= 2^53], a booking asks
    for a whole number of seats that is not negative. *)
Definition plausible (rq : Request) : Prop :=
  match rq with
  | CreateRide _ req _ =>
      match rq_total_seats req with
      | Some total =>
          whole_between 0 Double.safe total
          /\ match rq_available_seats req with
             | Some a => whole_between 0 (Double.count total) a
             | None => True
             end
      | None => True
      end
  | CreateBooking _ req _ =>
      match rq_seats_booked req with
      | Some seats => Double.whole seats /\ 0 <= Double.count seats
      | None => True
      end
  | CancelBooking _ _ _ => True
  | UpdateRideStatus _ _ _ _ => True
  | DeleteRide _ _ => True
  end.

(** The seats that the bookings which are not cancelled hold on a ride. *)
Definition holds_on (id : string) (b : Booking) : Z :=
  if (ride_id b == id) && negb (is_text (booking_status b) "cancelled")
  then Double.count (seats_booked b) else 0.

Fixpoint held (id : string) (bs : list Booking) : Z :=
  match bs with
  | [] => 0
  | b :: rest => holds_on id b + held id rest
  end.

(** The invariant of the ledger: ride ids are unique; a booking holds a
    whole number of seats that is not negative, on a ride of the table; the
    seat counts of a ride are whole numbers, and its available seats
    together with the seats held on it do not exceed its total, which is at
    most 2^53. *)
Definition ledger_ok (db : DB) : Prop :=
  NoDup (map r_id (rides db))
  /\ (forall b, In b (ride_bookings db) ->
        Double.whole (seats_booked b)
        /\ 0 <= Double.count (seats_booked b)
        /\ mem (ride_id b) (map r_id (rides db)) = true)
  /\ (forall r, In r (rides db) ->
        Double.whole (total_seats r)
        /\ Double.whole (available_seats r)
        /\ 0 <= Double.count (available_seats r)
        /\ Double.count (available_seats r) + held (r_id r) (ride_bookings db)
           <= Double.count (total_seats r)
        /\ Double.count (total_seats r) <= Double.safe).

(** The seat counters of the rides. *)
Definition seat_counters (db : DB)
  : list (string * Double.number * Double.number) :=
  map (fun r => (r_id r, total_seats r, available_seats r)) (rides db).

(** Databases that differ in their messages only. *)
Definition same_tables (db db' : DB) : Prop :=
  users db' = users db /\ rides db' = rides db
  /\ ride_bookings db' = ride_bookings db.

(** Bookings of which some were cancelled, row by row. *)
Definition some_cancelled (bs bs' : list Booking) : Prop :=
  Forall2 (fun b b' => b' = b \/ b' = set_booking_status (Some "cancelled") b)
    bs bs'.

(** [z] is the difference of [x] and [y] as numbers, before any
    rounding. *)
Definition is_difference (x y z : Double.number) : Prop :=
  match x, y, z with
  | Double.Finite a, Double.Finite b, Double.Finite c => c = a - b
  | _, _, _ => False
  end.

(** *** The example: a ride of four seats at 100 a seat *)

Definition example_ride (id : string) (total available : Z)
    (price : Double.number) (st : option string) : Ride :=
  mkRide id "driver" "Pune" None None "Mumbai" None None "2026-01-05T09:00"
         (Double.of_whole total) (Double.of_whole available) "car" price
         None st.

Definition example_booking (id passenger : string) (seats price : Z)
    (st : string) : Booking :=
  mkBooking id "ride-0" passenger (Double.of_whole seats) (Some st)
            (Double.of_whole price).

(** Ann holds two of the four seats. *)
Definition booked : DB :=
  mkDB Scenario.people
    [example_ride "ride-0" 4 2 (Double.of_whole 100) (Some "available")]
    [example_booking "bk-ann-0" "ann" 2 200 "confirmed"] [].

(** A ride of 1e19 seats. *)
Definition vast : DB :=
  mkDB Scenario.people
    [example_ride "ride-0" (10 ^ 19) (10 ^ 19) (Double.of_whole 100)
       (Some "available")]
    [] [].

(** A ride published with [1e999] seats, which JSON reads as infinity. *)
Definition endless : DB :=
  mkDB Scenario.people
    [mkRide "ride-0" "driver" "Pune" None None "Mumbai" None None
       "2026-01-05T09:00" (Double.Infinite false) (Double.Infinite false)
       "car" (Double.of_whole 100) None (Some "available")]
    [] [].

Definition publish (total : Z) (available : option Z) : Request :=
  CreateRide "driver"
    (mkRideReq (Some "Pune") (Some "Mumbai") (Some "2026-01-05T09:00")
       (Some (Double.of_whole total)) (option_map Double.of_whole available)
       (Some "car") (Some (Double.of_whole 100)) None None None None None)
    (Scenario.ids "ride").

Definition book (user : string) (seats : Z) : Request :=
  CreateBooking user
    (mkBookingReq (Some "ride-0") (Some (Double.of_whole seats)))
    (Scenario.ids ("bk-" ++ user)).

(** The driver publishes the ride, Ann books two seats, Bob asks for
    three, Ann cancels, the driver cancels the ride. *)
Definition story : list Request :=
  [publish 4 None;
   book "ann" 2;
   book "bob" 3;
   CancelBooking "ann" "bk-ann-0" (Scenario.ids "note");
   UpdateRideStatus "driver" "ride-0" (mkStatusReq (Some "cancelled") None)
     (Scenario.ids "bye")].

End Stored.
(** ** Lists, keys and lookups *)

Lemma mem_In (x : string) (l : list string) : mem x l = true <-> In x l.
Proof.
  unfold mem. rewrite existsb_exists. split.
  - intros [y [Hy E]]. apply String.eqb_eq in E. now subst.
  - intros H. exists x. split; [assumption | apply String.eqb_refl].
Qed.

Lemma mem_false (x : string) (l : list string) :
  mem x l = false <-> ~ In x l.
Proof.
  rewrite <- mem_In. destruct (mem x l); split; intros; congruence.
Qed.

Lemma mem_app (x : string) (l1 l2 : list string) :
  mem x (l1 ++ l2) = mem x l1 || mem x l2.
Proof. unfold mem. apply existsb_app. Qed.

Section Keyed.
Context {A : Type} (key : A -> string).

Lemma lookup_some id rows x :
  lookup key id rows = Some x -> In x rows /\ key x = id.
Proof.
  unfold lookup. intros H. apply find_some in H.
  destruct H as [H1 H2]. apply String.eqb_eq in H2. auto.
Qed.

Lemma lookup_none id rows :
  lookup key id rows = None <-> mem id (map key rows) = false.
Proof.
  unfold lookup. induction rows as [|x rows IH]; simpl.
  - tauto.
  - destruct (key x == id); simpl; [split; discriminate | exact IH].
Qed.

Lemma lookup_app id l1 l2 :
  lookup key id (l1 ++ l2) =
  match lookup key id l1 with Some x => Some x | None => lookup key id l2 end.
Proof.
  unfold lookup. induction l1 as [|x l1 IH]; simpl; [reflexivity|].
  destruct (key x == id); [reflexivity | exact IH].
Qed.

(** A rewrite that keeps the keys commutes with a lookup. *)
Lemma lookup_map (g : A -> A) id rows :
  (forall x, key (g x) = key x) ->
  lookup key id (map g rows) = option_map g (lookup key id rows).
Proof.
  intros Hg. unfold lookup. induction rows as [|x rows IH]; simpl.
  - reflexivity.
  - rewrite Hg. destruct (key x == id); [reflexivity | exact IH].
Qed.

Lemma keys_update_where id (f : A -> A) rows :
  (forall x, key (f x) = key x) ->
  map key (update_where key id f rows) = map key rows.
Proof.
  intros Hf. unfold update_where. rewrite map_map.
  apply map_ext. intros x. destruct (key x == id); [apply Hf | reflexivity].
Qed.

Lemma lookup_update_where id id' (f : A -> A) rows :
  (forall x, key (f x) = key x) ->
  lookup key id' (update_where key id f rows) =
  option_map (fun x => if key x == id then f x else x) (lookup key id' rows).
Proof.
  intros Hf. unfold update_where. apply lookup_map.
  intros x. destruct (key x == id); [apply Hf | reflexivity].
Qed.

Lemma update_where_absent id (f : A -> A) rows :
  mem id (map key rows) = false -> update_where key id f rows = rows.
Proof.
  unfold update_where. induction rows as [|x rows IH]; simpl; intros H.
  - reflexivity.
  - apply orb_false_iff in H. destruct H as [H1 H2].
    rewrite H1, (IH H2). reflexivity.
Qed.

(** With unique keys, the row found by a lookup is the only one that
    [filter] keeps. *)
Lemma filter_key_unique id rows :
  NoDup (map key rows) ->
  filter (fun x => key x == id) rows =
  match lookup key id rows with Some x => [x] | None => [] end.
Proof.
  unfold lookup. induction rows as [|x rows IH]; simpl; intros ND.
  - reflexivity.
  - inversion ND as [|? ? Hx ND']; subst.
    destruct (key x == id) eqn:E.
    + apply String.eqb_eq in E. subst id. f_equal.
      assert (Hn : lookup key (key x) rows = None)
        by (apply lookup_none, mem_false; exact Hx).
      rewrite (IH ND'). unfold lookup in Hn. now rewrite Hn.
    + apply IH; assumption.
Qed.
End Keyed.

(** ** Effects of the statements *)

Lemma insert_message_some db m db' :
  insert_message db m = Some db' ->
  db' = with_messages db (ride_messages db ++ [m]).
Proof.
  unfold insert_message. destruct (_ && _); congruence.
Qed.

Lemma insert_booking_some db b db' :
  insert_booking db b = Some db' ->
  db' = with_bookings db (ride_bookings db ++ [b]).
Proof.
  unfold insert_booking. destruct (_ && _); congruence.
Qed.

Lemma insert_ride_some db r db' :
  insert_ride db r = Some db' ->
  db' = with_rides db (rides db ++ [r]).
Proof.
  unfold insert_ride. destruct (_ && _); congruence.
Qed.

Lemma same_ledger_refl db : same_ledger db db.
Proof. repeat split. Qed.

Lemma insert_message_ledger db m db' :
  insert_message db m = Some db' -> same_ledger db db'.
Proof.
  intros H. apply insert_message_some in H. subst. repeat split.
Qed.

Lemma notify_cancelled_ledger db user b mid :
  same_ledger db (Sqlite.notify_cancelled db user b mid).
Proof.
  unfold Sqlite.notify_cancelled.
  destruct (get_ride db (ride_id b)); [|apply same_ledger_refl].
  destruct (insert_message _ _) eqn:E; [|apply same_ledger_refl].
  eapply insert_message_ledger; eassumption.
Qed.

Lemma notify_booked_ledger db user ride rid seats price mid :
  same_ledger db (Sqlite.notify_booked db user ride rid seats price mid).
Proof.
  unfold Sqlite.notify_booked.
  destruct (insert_message _ _) eqn:E; [|apply same_ledger_refl].
  eapply insert_message_ledger; eassumption.
Qed.

Lemma insert_message_quiet_ledger db m :
  same_ledger db (Supabase.insert_message_quiet db m).
Proof.
  unfold Supabase.insert_message_quiet.
  destruct (insert_message _ _) eqn:E; [|apply same_ledger_refl].
  eapply insert_message_ledger; eassumption.
Qed.

(** The row a keyed update leaves under a key. *)
Lemma lookup_update_same {A : Type} (key : A -> string) id f rows x :
  (forall y, key (f y) = key y) ->
  lookup key id rows = Some x ->
  lookup key id (update_where key id f rows) = Some (f x).
Proof.
  intros Hf Hx. rewrite lookup_update_where by assumption.
  rewrite Hx. simpl. apply lookup_some in Hx. destruct Hx as [_ Hk].
  rewrite Hk, String.eqb_refl. reflexivity.
Qed.

Lemma lookup_update_other {A : Type} (key : A -> string) id id' f rows :
  (forall y, key (f y) = key y) ->
  id' <> id ->
  lookup key id' (update_where key id f rows) = lookup key id' rows.
Proof.
  intros Hf Hne. rewrite lookup_update_where by assumption.
  destruct (lookup key id' rows) as [x|] eqn:Hx; [|reflexivity].
  simpl. apply lookup_some in Hx. destruct Hx as [_ Hk].
  rewrite Hk. apply String.eqb_neq in Hne. now rewrite Hne.
Qed.

(** ** Cancel booking *)

Lemma cancel_booking_ledger db user id uuid booking :
  get_booking db id = Some booking ->
  passenger_id booking = user ->
  booking_status booking <> "cancelled" ->
  let db' := fst (Sqlite.cancel_booking db user id uuid) in
  users db' = users db
  /\ rides db' =
     update_where r_id (ride_id booking)
       (fun r => set_available_seats (available_seats r + seats_booked booking) r)
       (rides db)
  /\ ride_bookings db' =
     update_where b_id id (set_booking_status "cancelled") (ride_bookings db).
Proof.
  intros Hb Hu Hs. unfold Sqlite.cancel_booking. rewrite Hb.
  apply String.eqb_eq in Hu. rewrite Hu. simpl negb. cbv iota.
  apply String.eqb_neq in Hs. rewrite Hs. cbv zeta. simpl fst.
  match goal with |- context [Sqlite.notify_cancelled ?d ?u ?b ?m] =>
    destruct (notify_cancelled_ledger d u b m) as (H1 & H2 & H3) end.
  rewrite H1, H2, H3. repeat split.
Qed.



(** ** Update ride status *)

Lemma sqlite_cancel_each_keeps db ride dn reason bs uuid i :
  users (Sqlite.cancel_each db ride dn reason bs uuid i) = users db
  /\ rides (Sqlite.cancel_each db ride dn reason bs uuid i) = rides db.
Proof.
  revert db i. induction bs as [|b bs IH]; intros db i; simpl.
  - split; reflexivity.
  - destruct (insert_message _ _) as [db1|] eqn:E; [|split; reflexivity].
    apply insert_message_some in E.
    destruct (IH (update_booking_status db1 "cancelled" (b_id b)) (S i))
      as [H1 H2].
    rewrite H1, H2. subst db1. split; reflexivity.
Qed.

Lemma supabase_cancel_each_keeps db ride dn reason bs uuid i :
  users (Supabase.cancel_each db ride dn reason bs uuid i) = users db
  /\ rides (Supabase.cancel_each db ride dn reason bs uuid i) = rides db.
Proof.
  revert db i. induction bs as [|b bs IH]; intros db i; simpl.
  - split; reflexivity.
  - match goal with |- context [Supabase.insert_message_quiet ?d ?m] =>
      destruct (insert_message_quiet_ledger d m) as (Hu & Hr & _);
      destruct (IH (update_booking_status
                      (Supabase.insert_message_quiet d m) "cancelled"
                      (b_id b)) (S i)) as [H1 H2]
    end.
    rewrite H1, H2. simpl. split; assumption.
Qed.

Lemma update_status_where_some db st id db' :
  update_status_where db st id = Some db' ->
  db' = with_rides db (update_where r_id id (set_status st) (rides db)).
Proof.
  unfold update_status_where. destruct (_ || _); congruence.
Qed.

Lemma seat_counters_set_status db st id :
  seat_counters
    (with_rides db (update_where r_id id (set_status st) (rides db)))
  = seat_counters db.
Proof.
  unfold seat_counters, update_where. simpl. rewrite map_map.
  apply map_ext. intros r. destruct (r_id r == id); reflexivity.
Qed.

Lemma seat_counters_rides db db' :
  rides db' = rides db -> seat_counters db' = seat_counters db.
Proof. unfold seat_counters. now intros ->. Qed.

Lemma sqlite_status_seat_counters db user id req uuid :
  seat_counters (fst (Sqlite.update_ride_status db user id req uuid))
  = seat_counters db.
Proof.
  unfold Sqlite.update_ride_status.
  destruct (get_ride db id) as [ride|]; [|reflexivity].
  destruct (negb _); [reflexivity|].
  set (db1 := if rq_status req == "cancelled" then _ else db).
  assert (H1 : rides db1 = rides db).
  { unfold db1. destruct (rq_status req == "cancelled"); [|reflexivity].
    apply sqlite_cancel_each_keeps. }
  destruct (update_status_where db1 _ id) as [db2|] eqn:E; simpl.
  - apply update_status_where_some in E. subst db2.
    rewrite seat_counters_set_status. now apply seat_counters_rides.
  - now apply seat_counters_rides.
Qed.




(** ** The two servers on a cancellation *)

Lemma unique_row {A : Type} (key : A -> string) id rows x y :
  NoDup (map key rows) ->
  lookup key id rows = Some x -> In y rows -> key y = id -> y = x.
Proof.
  intros ND Hx Hy Hk.
  assert (Hf : In y (filter (fun z => key z == id) rows)).
  { apply filter_In. split; [assumption|]. now apply String.eqb_eq. }
  rewrite (filter_key_unique key id rows ND), Hx in Hf.
  destruct Hf as [Hf|[]]. now symmetry.
Qed.

Lemma single_lookup {A : Type} (key : A -> string) id rows :
  NoDup (map key rows) ->
  Supabase.single (filter (fun x => key x == id) rows) = lookup key id rows.
Proof.
  intros ND. rewrite (filter_key_unique key id rows ND).
  destruct (lookup key id rows); reflexivity.
Qed.

(** On a table with unique ids, adding to the counter of the rows with an
    id and writing the sum computed from the row read before coincide. *)
Lemma relative_is_absolute rides0 rid ride n :
  NoDup (map r_id rides0) ->
  lookup r_id rid rides0 = Some ride ->
  update_where r_id rid
    (fun r => set_available_seats (available_seats r + n) r) rides0
  = update_where r_id rid (set_available_seats (available_seats ride + n))
      rides0.
Proof.
  intros ND Hr. unfold update_where. apply map_ext_in. intros r Hin.
  destruct (r_id r == rid) eqn:E; [|reflexivity].
  apply String.eqb_eq in E.
  now rewrite (unique_row r_id rid rides0 ride r ND Hr Hin E).
Qed.

Lemma supabase_cancel_booking_ledger db user id uuid booking :
  Supabase.select_booking db id = Some booking ->
  passenger_id booking = user ->
  booking_status booking <> "cancelled" ->
  let db' := fst (Supabase.cancel_booking db user id uuid) in
  users db' = users db
  /\ rides db' =
     match get_ride db (ride_id booking) with
     | Some ride =>
         update_where r_id (ride_id booking)
           (set_available_seats (available_seats ride + seats_booked booking))
           (rides db)
     | None => rides db
     end
  /\ ride_bookings db' =
     update_where b_id id (set_booking_status "cancelled") (ride_bookings db).
Proof.
  intros Hb Hu Hs. unfold Supabase.cancel_booking. rewrite Hb.
  apply String.eqb_eq in Hu. rewrite Hu. simpl negb. cbv iota.
  apply String.eqb_neq in Hs. rewrite Hs. cbv zeta.
  destruct (get_ride db (ride_id booking)) as [ride|]; simpl fst.
  - match goal with |- context [Supabase.insert_message_quiet ?d ?m] =>
      destruct (insert_message_quiet_ledger d m) as (H1 & H2 & H3) end.
    rewrite H1, H2, H3. repeat split.
  - repeat split.
Qed.

(** C10. Run on the same database (ids unique in [rides] and in
    [ride_bookings], as their primary keys make them) for the same
    requester and booking id, the better-sqlite3 route, which adds
    [seats_booked] to the stored counter, and the Supabase route, which
    writes the counter it read plus [seats_booked], leave the same bookings
    and the same rides. *)
Theorem cancel_booking_routes_agree
    (db : DB) (user id : string) (uuid uuid' : Ids) :
  NoDup (map r_id (rides db)) ->
  NoDup (map b_id (ride_bookings db)) ->
  ride_bookings (fst (Sqlite.cancel_booking db user id uuid))
    = ride_bookings (fst (Supabase.cancel_booking db user id uuid'))
  /\ rides (fst (Sqlite.cancel_booking db user id uuid))
    = rides (fst (Supabase.cancel_booking db user id uuid')).
Proof.
  intros NDr NDb.
  assert (Hsel : Supabase.select_booking db id = get_booking db id)
    by (apply single_lookup; assumption).
  destruct (get_booking db id) as [booking|] eqn:Hb.
  - destruct (String.eqb_spec (passenger_id booking) user) as [Hu|Hu].
    + destruct (String.eqb_spec (booking_status booking) "cancelled")
        as [Hs|Hs].
      * unfold Sqlite.cancel_booking, Supabase.cancel_booking.
        rewrite Hsel, Hb. apply String.eqb_eq in Hu, Hs.
        rewrite Hu, Hs. split; reflexivity.
      * destruct (cancel_booking_ledger db user id uuid booking Hb Hu Hs)
          as (_ & R1 & B1).
        destruct (supabase_cancel_booking_ledger db user id uuid' booking
                    Hsel Hu Hs) as (_ & R2 & B2).
        simpl in R1, B1, R2, B2. rewrite R1, B1, R2, B2.
        split; [reflexivity|].
        destruct (get_ride db (ride_id booking)) as [ride|] eqn:Hr.
        -- apply relative_is_absolute; assumption.
        -- apply update_where_absent. now apply lookup_none.
    + unfold Sqlite.cancel_booking, Supabase.cancel_booking.
      rewrite Hsel, Hb. apply String.eqb_neq in Hu. rewrite Hu.
      split; reflexivity.
  - unfold Sqlite.cancel_booking, Supabase.cancel_booking.
    rewrite Hsel, Hb. split; reflexivity.
Qed.

Lemma cancel_booking_routes_agree_witness :
  ride_bookings
    (fst (Sqlite.cancel_booking Scenario.booked "ann" "bk-ann"
            (Scenario.ids "m")))
    = ride_bookings
        (fst (Supabase.cancel_booking Scenario.booked "ann" "bk-ann"
                (Scenario.ids "n")))
  /\ rides
       (fst (Sqlite.cancel_booking Scenario.booked "ann" "bk-ann"
               (Scenario.ids "m")))
    = rides
        (fst (Supabase.cancel_booking Scenario.booked "ann" "bk-ann"
                (Scenario.ids "n"))).
Proof.
  apply (cancel_booking_routes_agree Scenario.booked "ann" "bk-ann"
           (Scenario.ids "m") (Scenario.ids "n")).
  - simpl. constructor; [intros [] | constructor].
  - simpl. constructor; [intros [] | constructor].
Defined.

(** ** Create booking and the status of the ride *)

Section Restatus.
Variable g : string -> string.

Lemma restatus_ids db : map r_id (rides (restatus g db)) = map r_id (rides db).
Proof. simpl. rewrite map_map. reflexivity. Qed.

Lemma restatus_get_ride db id :
  get_ride (restatus g db) id
  = option_map (set_status (g id)) (get_ride db id).
Proof.
  unfold get_ride. simpl.
  rewrite (lookup_map r_id (fun r => set_status (g (r_id r)) r))
    by reflexivity.
  destruct (lookup r_id id (rides db)) as [r|] eqn:E; [|reflexivity].
  apply lookup_some in E. destruct E as [_ <-]. reflexivity.
Qed.

Lemma restatus_insert_booking db b :
  insert_booking (restatus g db) b
  = option_map (restatus g) (insert_booking db b).
Proof.
  unfold insert_booking. rewrite restatus_ids. simpl.
  destruct (_ && _); reflexivity.
Qed.

Lemma restatus_insert_message db m :
  insert_message (restatus g db) m
  = option_map (restatus g) (insert_message db m).
Proof.
  unfold insert_message. rewrite restatus_ids. simpl.
  destruct (_ && _); reflexivity.
Qed.

Lemma restatus_sub_available_seats db n id :
  sub_available_seats (restatus g db) n id
  = restatus g (sub_available_seats db n id).
Proof.
  unfold sub_available_seats, restatus, with_rides, update_where. simpl.
  f_equal. rewrite !map_map. apply map_ext. intros r. simpl.
  destruct (r_id r == id); reflexivity.
Qed.

Lemma restatus_write_available_seats db n id :
  write_available_seats (restatus g db) n id
  = restatus g (write_available_seats db n id).
Proof.
  unfold write_available_seats, restatus, with_rides, update_where. simpl.
  f_equal. rewrite !map_map. apply map_ext. intros r. simpl.
  destruct (r_id r == id); reflexivity.
Qed.

Lemma restatus_notify_booked db user ride st rid seats price mid :
  Sqlite.notify_booked (restatus g db) user (set_status st ride) rid seats
    price mid
  = restatus g (Sqlite.notify_booked db user ride rid seats price mid).
Proof.
  unfold Sqlite.notify_booked. simpl.
  rewrite restatus_insert_message.
  change (get_user (restatus g db) user) with (get_user db user).
  destruct (insert_message db _); reflexivity.
Qed.

Lemma restatus_insert_message_quiet db m :
  Supabase.insert_message_quiet (restatus g db) m
  = restatus g (Supabase.insert_message_quiet db m).
Proof.
  unfold Supabase.insert_message_quiet. rewrite restatus_insert_message.
  destruct (insert_message db m); reflexivity.
Qed.

Lemma restatus_select_ride db id :
  Supabase.select_ride (restatus g db) id
  = option_map (set_status (g id)) (Supabase.select_ride db id).
Proof.
  unfold Supabase.select_ride. simpl.
  assert (H : forall rs,
             filter (fun r => r_id r == id)
               (map (fun r => set_status (g (r_id r)) r) rs)
             = map (set_status (g id)) (filter (fun r => r_id r == id) rs)).
  { induction rs as [|r rs IH]; simpl; [reflexivity|].
    destruct (r_id r == id) eqn:E; [|exact IH].
    apply String.eqb_eq in E. simpl. rewrite IH. now subst id. }
  rewrite H. destruct (filter _ (rides db)) as [|x [|y l]]; reflexivity.
Qed.

Lemma sqlite_create_booking_restatus db user req uuid :
  Sqlite.create_booking (restatus g db) user req uuid
  = (restatus g (fst (Sqlite.create_booking db user req uuid)),
     snd (Sqlite.create_booking db user req uuid)).
Proof.
  unfold Sqlite.create_booking. cbv zeta.
  destruct (falsy_str _ || falsy_num _); [reflexivity|].
  rewrite restatus_get_ride.
  destruct (get_ride db (rq_ride_id req)) as [ride|]; [|reflexivity].
  simpl option_map. cbv iota.
  change (driver_id (set_status _ ride)) with (driver_id ride).
  change (available_seats (set_status _ ride)) with (available_seats ride).
  change (price_per_seat (set_status _ ride)) with (price_per_seat ride).
  destruct (driver_id ride == user); [reflexivity|].
  destruct (available_seats ride <? _); [reflexivity|].
  change (get_booking_of (restatus g db)) with (get_booking_of db).
  destruct (get_booking_of db _ _ _); [reflexivity|].
  rewrite restatus_insert_booking.
  destruct (insert_booking db _) as [db1|]; [|reflexivity].
  simpl option_map. cbv iota.
  rewrite restatus_sub_available_seats, restatus_notify_booked.
  reflexivity.
Qed.

Lemma supabase_create_booking_restatus db user req uuid :
  Supabase.create_booking (restatus g db) user req uuid
  = (restatus g (fst (Supabase.create_booking db user req uuid)),
     snd (Supabase.create_booking db user req uuid)).
Proof.
  unfold Supabase.create_booking, Supabase.create_booking_checks,
    Supabase.create_booking_writes. cbv zeta.
  destruct (falsy_str _ || falsy_num _); [reflexivity|].
  rewrite restatus_select_ride.
  destruct (Supabase.select_ride db (rq_ride_id req)) as [ride|];
    [|reflexivity].
  simpl option_map. cbv iota.
  change (driver_id (set_status _ ride)) with (driver_id ride).
  change (available_seats (set_status _ ride)) with (available_seats ride).
  change (price_per_seat (set_status _ ride)) with (price_per_seat ride).
  destruct (driver_id ride == user); [reflexivity|].
  destruct (available_seats ride <? _); [reflexivity|].
  change (ride_bookings (restatus g db)) with (ride_bookings db).
  destruct (Supabase.maybeSingle _); [reflexivity|].
  rewrite restatus_insert_booking.
  destruct (insert_booking db _) as [db1|]; [|reflexivity].
  simpl option_map. cbv iota.
  rewrite restatus_write_available_seats.
  change (pickup_address (set_status _ ride)) with (pickup_address ride).
  change (drop_address (set_status _ ride)) with (drop_address ride).
  change (pickup_time (set_status _ ride)) with (pickup_time ride).
  rewrite restatus_insert_message_quiet.
  reflexivity.
Qed.

End Restatus.

(** C3, as the code has it. Create booking never reads the status of the
    ride: on the database in which the rides carry any other statuses
    (active, completed, cancelled, ...) both servers give the same response
    and make the same changes as on the original one. *)
Theorem create_booking_ignores_ride_status
    (g : string -> string) (db : DB) (user : string) (req : BookingReq)
    (uuid : Ids) :
  Sqlite.create_booking (restatus g db) user req uuid
    = (restatus g (fst (Sqlite.create_booking db user req uuid)),
       snd (Sqlite.create_booking db user req uuid))
  /\ Supabase.create_booking (restatus g db) user req uuid
    = (restatus g (fst (Supabase.create_booking db user req uuid)),
       snd (Supabase.create_booking db user req uuid)).
Proof.
  split.
  - apply sqlite_create_booking_restatus.
  - apply supabase_create_booking_restatus.
Qed.

(** C3, as stated, fails: Bob books a seat on the ride the driver has
    cancelled; the answer is 201 and the booking is inserted. *)
Lemma booking_on_cancelled_ride_accepted :
  ~ refuses_unavailable_ride Scenario.called_off "bob"
      (mkBookingReq "ride-0" 1) (Scenario.ids "bk").
Proof.
  intros H.
  destruct (H (Scenario.ride "cancelled" 2) eq_refl) as [_ Hb].
  - simpl. discriminate.
  - vm_compute in Hb. discriminate Hb.
Qed.

(** ** The status of a ride *)

Lemma status_column_rides db db' :
  rides db' = rides db -> status_column db' = status_column db.
Proof. unfold status_column. now intros ->. Qed.

Lemma status_column_seats db id (f : Ride -> Z) :
  status_column
    (with_rides db
       (update_where r_id id (fun r => set_available_seats (f r) r)
          (rides db)))
  = status_column db.
Proof.
  unfold status_column, update_where. simpl. rewrite map_map.
  apply map_ext. intros r. destruct (r_id r == id); reflexivity.
Qed.

Lemma sqlite_create_booking_status_column db user req uuid :
  status_column (fst (Sqlite.create_booking db user req uuid))
  = status_column db.
Proof.
  unfold Sqlite.create_booking. cbv zeta.
  destruct (_ || _); [reflexivity|].
  destruct (get_ride db _) as [ride|]; [|reflexivity].
  destruct (driver_id ride == user); [reflexivity|].
  destruct (_ <? _); [reflexivity|].
  destruct (get_booking_of _ _ _ _); [reflexivity|].
  destruct (insert_booking db _) as [db1|] eqn:E; [|reflexivity].
  apply insert_booking_some in E. simpl fst.
  match goal with |- context [Sqlite.notify_booked ?d ?u ?r ?i ?s ?p ?m] =>
    destruct (notify_booked_ledger d u r i s p m) as (_ & H & _) end.
  rewrite (status_column_rides _ _ H). unfold sub_available_seats.
  rewrite (status_column_seats db1 _ (fun r => available_seats r - _)).
  subst db1. reflexivity.
Qed.

Lemma sqlite_cancel_booking_status_column db user id uuid :
  status_column (fst (Sqlite.cancel_booking db user id uuid))
  = status_column db.
Proof.
  destruct (get_booking db id) as [booking|] eqn:Hb.
  - destruct (String.eqb_spec (passenger_id booking) user) as [Hu|Hu].
    + destruct (String.eqb_spec (booking_status booking) "cancelled")
        as [Hs|Hs].
      * unfold Sqlite.cancel_booking. rewrite Hb.
        apply String.eqb_eq in Hu, Hs. now rewrite Hu, Hs.
      * destruct (cancel_booking_ledger db user id uuid booking Hb Hu Hs)
          as (_ & R & _).
        simpl in R. unfold status_column at 1. rewrite R.
        apply (status_column_seats db _
                 (fun r => available_seats r + seats_booked booking)).
    + unfold Sqlite.cancel_booking. rewrite Hb.
      apply String.eqb_neq in Hu. now rewrite Hu.
  - unfold Sqlite.cancel_booking. now rewrite Hb.
Qed.

Lemma sqlite_owner_sets_status db user id req uuid ride :
  get_ride db id = Some ride ->
  driver_id ride = user ->
  mem (rq_status req) ride_statuses = true ->
  get_ride (fst (Sqlite.update_ride_status db user id req uuid)) id
  = Some (set_status (rq_status req) ride).
Proof.
  intros Hr Hu Hst. unfold Sqlite.update_ride_status. rewrite Hr.
  apply String.eqb_eq in Hu. rewrite Hu. simpl negb. cbv iota.
  set (db1 := if rq_status req == "cancelled" then _ else db).
  assert (H1 : rides db1 = rides db).
  { unfold db1. destruct (rq_status req == "cancelled"); [|reflexivity].
    apply sqlite_cancel_each_keeps. }
  unfold update_status_where. rewrite Hst. simpl.
  unfold get_ride. simpl. rewrite H1.
  apply lookup_update_same; [reflexivity | exact Hr].
Qed.

Lemma filter_update_where {A : Type} (key : A -> string) id (f : A -> A)
    rows :
  (forall x, key (f x) = key x) ->
  filter (fun x => key x == id) (update_where key id f rows)
  = map f (filter (fun x => key x == id) rows).
Proof.
  intros Hf. unfold update_where.
  induction rows as [|x rows IH]; simpl; [reflexivity|].
  destruct (key x == id) eqn:E; simpl.
  - rewrite Hf, E, IH. reflexivity.
  - rewrite E. exact IH.
Qed.

(** X24. The same on the Supabase server: the driver of a ride sets it to
    any of the statuses available, active, completed and cancelled,
    whatever its status was; the answer is 200 with the ride in the new
    status, and that is the ride found under the id afterwards. *)
Lemma supabase_owner_sets_status db user id req uuid ride :
  Supabase.select_ride db id = Some ride ->
  driver_id ride = user ->
  mem (rq_status req) ride_statuses = true ->
  Supabase.select_ride
    (fst (Supabase.update_ride_status db user id req uuid)) id
  = Some (set_status (rq_status req) ride)
  /\ snd (Supabase.update_ride_status db user id req uuid)
     = (200, RideRow (Some (set_status (rq_status req) ride))).
Proof.
  intros Hr Hu Hst. unfold Supabase.update_ride_status. rewrite Hr.
  apply String.eqb_eq in Hu. rewrite Hu. simpl negb. cbv iota.
  set (db1 := if rq_status req == "cancelled" then _ else db).
  assert (H1 : rides db1 = rides db).
  { unfold db1. destruct (rq_status req == "cancelled"); [|reflexivity].
    apply supabase_cancel_each_keeps. }
  unfold update_status_where. rewrite Hst. simpl orb. cbv iota.
  assert (G : Supabase.select_ride
                (with_rides db1
                   (update_where r_id id (set_status (rq_status req))
                      (rides db1))) id
              = Some (set_status (rq_status req) ride)).
  { unfold Supabase.select_ride in *. simpl rides.
    rewrite filter_update_where by reflexivity. rewrite H1.
    destruct (filter _ (rides db)) as [|x [|y l]]; try discriminate.
    simpl in *. congruence. }
  rewrite G. split; [exact G | reflexivity].
Qed.

(** C8, as the code has it. Cancelled is not terminal: a status update by
    the owner of the ride that names available, active, completed or
    cancelled puts the ride in that status whatever its status was; the
    update of anybody else changes nothing, and neither create booking nor
    cancel booking changes the status of a ride. *)
Theorem ride_status_follows_owner
    (db : DB) (user id : string) (req : StatusReq) (uuid : Ids) :
  (forall ride,
     get_ride db id = Some ride ->
     driver_id ride = user ->
     mem (rq_status req) ride_statuses = true ->
     get_ride (fst (Sqlite.update_ride_status db user id req uuid)) id
     = Some (set_status (rq_status req) ride))
  /\ (forall ride,
        get_ride db id = Some ride ->
        driver_id ride <> user ->
        fst (Sqlite.update_ride_status db user id req uuid) = db)
  /\ (forall breq,
        status_column (fst (Sqlite.create_booking db user breq uuid))
        = status_column db)
  /\ (forall bid,
        status_column (fst (Sqlite.cancel_booking db user bid uuid))
        = status_column db).
Proof.
  split; [|split; [|split]].
  - intros ride. apply sqlite_owner_sets_status.
  - intros ride Hr Hu. unfold Sqlite.update_ride_status. rewrite Hr.
    apply String.eqb_neq in Hu. now rewrite Hu.
  - intros breq. apply sqlite_create_booking_status_column.
  - intros bid. apply sqlite_cancel_booking_status_column.
Qed.

Lemma ride_status_follows_owner_witness :
  get_ride
    (fst (Sqlite.update_ride_status Scenario.called_off "driver" "ride-0"
            (mkStatusReq "available" None) (Scenario.ids "m"))) "ride-0"
  = Some (Scenario.ride "available" 2)
  /\ fst (Sqlite.update_ride_status Scenario.called_off "ann" "ride-0"
            (mkStatusReq "available" None) (Scenario.ids "m"))
     = Scenario.called_off.
Proof.
  split.
  - apply (proj1 (ride_status_follows_owner Scenario.called_off "driver"
                    "ride-0" (mkStatusReq "available" None)
                    (Scenario.ids "m"))
             (Scenario.ride "cancelled" 2)); reflexivity.
  - apply (proj1 (proj2 (ride_status_follows_owner Scenario.called_off "ann"
                           "ride-0" (mkStatusReq "available" None)
                           (Scenario.ids "m")))
             (Scenario.ride "cancelled" 2)).
    + reflexivity.
    + simpl. discriminate.
Defined.

(** C8, as stated, fails: the driver sets the ride they cancelled back to
    available. *)
Lemma cancelled_ride_reopened :
  ~ cancelled_is_terminal Scenario.called_off "driver" "ride-0"
      (mkStatusReq "available" None) (Scenario.ids "m").
Proof.
  intros H. specialize (H (Scenario.ride "cancelled" 2) eq_refl eq_refl).
  vm_compute in H. discriminate H.
Qed.

(** ** Create booking: the order of the checks *)

Lemma find_existsb {A : Type} (f : A -> bool) (l : list A) :
  existsb f l = match find f l with Some _ => true | None => false end.
Proof.
  induction l as [|x l IH]; simpl; [reflexivity|].
  destruct (f x); [reflexivity | exact IH].
Qed.

Lemma falsy_fields_false (req : BookingReq) :
  rq_ride_id req <> EmptyString -> rq_seats_booked req <> 0 ->
  falsy_str (rq_ride_id req) || falsy_num (rq_seats_booked req) = false.
Proof.
  intros H1 H2. unfold falsy_str, falsy_num.
  apply String.eqb_neq in H1. apply Z.eqb_neq in H2. now rewrite H1, H2.
Qed.

(** C4. For a request that carries a ride id and a seat count, create
    booking tests that the ride exists (NotFound), that the requester is
    not its driver (InvalidOperation), that the ride has the seats asked for
    (InvalidOperation) and that the requester has no booking on it that is
    not cancelled (Conflict), in this order: the response is the one of the
    earliest precondition the request violates and the database is left as
    it was; when none is violated the response is none of these errors. *)
Theorem create_booking_first_failure_wins
    (db : DB) (user : string) (req : BookingReq) (uuid : Ids) :
  rq_ride_id req <> EmptyString ->
  rq_seats_booked req <> 0 ->
  match earliest_violation db user req with
  | Some p =>
      Sqlite.create_booking db user req uuid = (db, rejection p)
      /\ error_kind (rejection p) = Some (error_of p)
  | None =>
      error_kind (snd (Sqlite.create_booking db user req uuid)) = None
      \/ error_kind (snd (Sqlite.create_booking db user req uuid))
         = Some Internal
  end.
Proof.
  intros H1 H2. unfold earliest_violation, Sqlite.create_booking. cbv zeta.
  rewrite (falsy_fields_false req H1 H2). simpl find.
  destruct (get_ride db (rq_ride_id req)) as [ride|] eqn:Hr.
  - assert (Hm : mem (rq_ride_id req) (map r_id (rides db)) = true).
    { destruct (mem _ _) eqn:E; [reflexivity|].
      apply lookup_none in E. unfold get_ride in Hr. congruence. }
    rewrite Hm. simpl negb. cbv iota.
    destruct (driver_id ride == user); [split; reflexivity|].
    destruct (available_seats ride <? rq_seats_booked req);
      [split; reflexivity|].
    rewrite find_existsb. unfold get_booking_of.
    destruct (find _ (ride_bookings db)); [split; reflexivity|].
    destruct (insert_booking db _); [left|right]; reflexivity.
  - assert (Hm : mem (rq_ride_id req) (map r_id (rides db)) = false)
      by (now apply lookup_none).
    rewrite Hm. split; reflexivity.
Qed.

Lemma create_booking_first_failure_wins_witness :
  Sqlite.create_booking Scenario.booked "driver" (mkBookingReq "ride-0" 3)
    (Scenario.ids "bk")
  = (Scenario.booked, (400, Msg "Cannot book your own ride"))
  /\ error_kind (400, Msg "Cannot book your own ride")
     = Some InvalidOperation.
Proof.
  apply (create_booking_first_failure_wins Scenario.booked "driver"
           (mkBookingReq "ride-0" 3) (Scenario.ids "bk")).
  - simpl. discriminate.
  - simpl. discriminate.
Defined.

(** The same order on the Supabase server, on a database in which ride
    ids are unique and the requester has at most one booking on the ride
    that is not cancelled. *)
Lemma supabase_create_booking_first_failure_wins
    (db : DB) (user : string) (req : BookingReq) (uuid : Ids) :
  rq_ride_id req <> EmptyString ->
  rq_seats_booked req <> 0 ->
  NoDup (map r_id (rides db)) ->
  (List.length (filter (is_booking_of (rq_ride_id req) user "cancelled")
             (ride_bookings db)) <= 1)%nat ->
  match earliest_violation db user req with
  | Some p =>
      Supabase.create_booking db user req uuid = (db, rejection p)
      /\ error_kind (rejection p) = Some (error_of p)
  | None =>
      error_kind (snd (Supabase.create_booking db user req uuid)) = None
      \/ error_kind (snd (Supabase.create_booking db user req uuid))
         = Some Internal
  end.
Proof.
  intros H1 H2 ND Hone.
  unfold earliest_violation, Supabase.create_booking,
    Supabase.create_booking_checks, Supabase.create_booking_writes.
  cbv zeta.
  rewrite (falsy_fields_false req H1 H2). simpl find.
  unfold Supabase.select_ride. rewrite (single_lookup r_id _ _ ND).
  fold (get_ride db (rq_ride_id req)).
  destruct (get_ride db (rq_ride_id req)) as [ride|] eqn:Hr.
  - assert (Hm : mem (rq_ride_id req) (map r_id (rides db)) = true).
    { destruct (mem _ _) eqn:E; [reflexivity|].
      apply lookup_none in E. unfold get_ride in Hr. congruence. }
    rewrite Hm. simpl negb. cbv iota.
    destruct (driver_id ride == user); [split; reflexivity|].
    destruct (available_seats ride <? rq_seats_booked req);
      [split; reflexivity|].
    assert (Hex : existsb (is_booking_of (rq_ride_id req) user "cancelled")
                    (ride_bookings db)
                  = match Supabase.maybeSingle
                            (filter (is_booking_of (rq_ride_id req) user
                                       "cancelled") (ride_bookings db))
                    with Some _ => true | None => false end).
    { revert Hone. generalize (ride_bookings db) as bs.
      induction bs as [|b bs IH]; simpl; [reflexivity|].
      destruct (is_booking_of _ _ _ b) eqn:E; simpl; [|exact IH].
      intros Hl.
      destruct (filter _ bs) as [|c l]; [reflexivity|]. simpl in Hl. lia. }
    rewrite Hex.
    destruct (Supabase.maybeSingle _); [split; reflexivity|].
    destruct (insert_booking db _); [left|right]; reflexivity.
  - assert (Hm : mem (rq_ride_id req) (map r_id (rides db)) = false)
      by (now apply lookup_none).
    rewrite Hm. split; reflexivity.
Qed.

(** ** Create booking: the effect *)

Lemma insert_booking_accepts db b :
  mem (b_id b) (map b_id (ride_bookings db)) = false ->
  mem (ride_id b) (map r_id (rides db)) = true ->
  mem (passenger_id b) (map u_id (users db)) = true ->
  mem (booking_status b) booking_statuses = true ->
  insert_booking db b = Some (with_bookings db (ride_bookings db ++ [b])).
Proof.
  intros H1 H2 H3 H4. unfold insert_booking. now rewrite H1, H2, H3, H4.
Qed.

Lemma get_ride_mem db id ride :
  get_ride db id = Some ride -> mem id (map r_id (rides db)) = true.
Proof.
  intros H. destruct (mem _ _) eqn:E; [reflexivity|].
  apply lookup_none in E. unfold get_ride in H. congruence.
Qed.

(** What an accepted booking leaves behind. *)
Lemma sqlite_create_booking_accepted db user req uuid ride :
  rq_ride_id req <> EmptyString ->
  rq_seats_booked req <> 0 ->
  get_ride db (rq_ride_id req) = Some ride ->
  driver_id ride <> user ->
  available_seats ride >= rq_seats_booked req ->
  get_booking_of db (rq_ride_id req) user "cancelled" = None ->
  mem user (map u_id (users db)) = true ->
  mem (uuid 0%nat) (map b_id (ride_bookings db)) = false ->
  let booking :=
    mkBooking (uuid 0%nat) (rq_ride_id req) user (rq_seats_booked req)
      "confirmed" (price_per_seat ride * rq_seats_booked req) in
  let out := Sqlite.create_booking db user req uuid in
  snd out = (201, BookingRow (Some booking))
  /\ users (fst out) = users db
  /\ ride_bookings (fst out) = (ride_bookings db ++ [booking])%list
  /\ rides (fst out)
     = update_where r_id (rq_ride_id req)
         (fun r => set_available_seats
                     (available_seats r - rq_seats_booked req) r)
         (rides db).
Proof.
  intros H1 H2 Hr Hd Hs Hb Hu Hf booking out.
  unfold out, Sqlite.create_booking. cbv zeta.
  rewrite (falsy_fields_false req H1 H2), Hr.
  apply String.eqb_neq in Hd. rewrite Hd.
  assert (Hlt : (available_seats ride <? rq_seats_booked req) = false)
    by (apply Z.ltb_ge; lia).
  rewrite Hlt, Hb.
  pose proof (insert_booking_accepts db booking Hf (get_ride_mem _ _ _ Hr)
                Hu eq_refl) as Hi.
  unfold booking in Hi. rewrite Hi.
  simpl fst. simpl snd.
  match goal with |- context [Sqlite.notify_booked ?d ?u ?r ?i ?s ?p ?m] =>
    destruct (notify_booked_ledger d u r i s p m) as (G1 & G2 & G3) end.
  rewrite G1, G2, G3. simpl.
  repeat split. do 2 f_equal.
  unfold get_booking. simpl. rewrite lookup_app.
  assert (Hn : lookup b_id (uuid 0%nat) (ride_bookings db) = None)
    by (now apply lookup_none).
  rewrite Hn. unfold lookup. simpl. now rewrite String.eqb_refl.
Qed.

(** ** The cascade of a cancelled ride *)

Lemma cancel_all_nil rows : cancel_all [] rows = rows.
Proof. unfold cancel_all. simpl. apply map_id. Qed.

Lemma cancel_all_cons b bs rows :
  cancel_all bs (update_where b_id (b_id b) (set_booking_status "cancelled")
                   rows)
  = cancel_all (b :: bs) rows.
Proof.
  unfold cancel_all, update_where. rewrite map_map. apply map_ext.
  intros x. simpl. rewrite (String.eqb_sym (b_id b)).
  destruct (b_id x == b_id b); simpl; [|reflexivity].
  destruct (mem _ _); reflexivity.
Qed.



Lemma supabase_cancel_each_bookings ride dn reason uuid bs :
  forall db i,
    ride_bookings (Supabase.cancel_each db ride dn reason bs uuid i)
    = cancel_all bs (ride_bookings db).
Proof.
  induction bs as [|b bs IH]; intros db i; simpl.
  - now rewrite cancel_all_nil.
  - rewrite IH. simpl.
    match goal with |- context [Supabase.insert_message_quiet ?d ?m] =>
      destruct (insert_message_quiet_ledger d m) as (_ & _ & H) end.
    rewrite H. apply cancel_all_cons.
Qed.

(** Once the confirmed bookings of a ride were cancelled by id, no booking
    of the ride is confirmed and each of them is cancelled. *)
Lemma cancel_all_none_confirmed id sel rows b :
  (forall c, In c rows -> is_confirmed_on id c = true -> In c sel) ->
  In b (cancel_all sel rows) ->
  ride_id b = id -> booking_status b <> "confirmed".
Proof.
  intros Hsel Hin Hid. unfold cancel_all in Hin. apply in_map_iff in Hin.
  destruct Hin as [c [Hc Hin]].
  destruct (mem (b_id c) (map b_id sel)) eqn:E.
  - subst b. simpl. discriminate.
  - subst b. intros Hst.
    assert (Hconf : is_confirmed_on id c = true).
    { unfold is_confirmed_on. rewrite Hid, Hst, !String.eqb_refl.
      reflexivity. }
    apply (Hsel c Hin) in Hconf.
    apply mem_false in E. apply E. now apply in_map.
Qed.

Lemma cancel_all_cancels sel rows b :
  In b rows -> In b sel ->
  In (set_booking_status "cancelled" b) (cancel_all sel rows).
Proof.
  intros Hin Hsel. unfold cancel_all. apply in_map_iff. exists b.
  split; [|assumption].
  assert (E : mem (b_id b) (map b_id sel) = true)
    by (apply mem_In; now apply in_map).
  now rewrite E.
Qed.





(** X25. The Supabase route cancels the confirmed bookings whatever
    becomes of the notices: after the driver's cancellation the ride is
    cancelled, every booking of the ride that was confirmed is in the table
    as cancelled, and no booking of the ride is confirmed. *)
Lemma supabase_cancel_ride_cascade
    (db : DB) (user id : string) (req : StatusReq) (uuid : Ids) (ride : Ride) :
  Supabase.select_ride db id = Some ride ->
  driver_id ride = user ->
  rq_status req = "cancelled" ->
  let out := Supabase.update_ride_status db user id req uuid in
  status_column (fst out)
    = status_column
        (with_rides db
           (update_where r_id id (set_status "cancelled") (rides db)))
  /\ (forall b, In b (ride_bookings db) -> is_confirmed_on id b = true ->
        In (set_booking_status "cancelled" b) (ride_bookings (fst out)))
  /\ (forall b, In b (ride_bookings (fst out)) -> ride_id b = id ->
        booking_status b <> "confirmed").
Proof.
  intros Hr Hu Hst out.
  set (dn := name_or (Supabase.getUser db user) "The driver").
  set (db1 := Supabase.cancel_each db ride dn (rq_cancellation_reason req)
                (confirmed_on db id) uuid 0).
  pose proof (supabase_cancel_each_bookings ride dn
                (rq_cancellation_reason req) uuid (confirmed_on db id) db
                0%nat) as B.
  destruct (supabase_cancel_each_keeps db ride dn (rq_cancellation_reason req)
              (confirmed_on db id) uuid 0%nat) as [_ R].
  fold db1 in B, R.
  assert (Hout : fst out = with_rides db1
                             (update_where r_id id (set_status "cancelled")
                                (rides db1))).
  { unfold out, Supabase.update_ride_status. rewrite Hr.
    apply String.eqb_eq in Hu. rewrite Hu. simpl negb. cbv iota.
    rewrite Hst. simpl (_ == _). cbv iota. fold dn. fold db1.
    unfold update_status_where. simpl (mem _ _ || _). cbv iota.
    match goal with |- fst (match ?x with _ => _ end) = _ =>
      destruct x end; reflexivity. }
  rewrite Hout. simpl ride_bookings. rewrite B. split.
  { unfold status_column. simpl. now rewrite R. }
  split.
  { intros b Hb E. apply cancel_all_cancels; [exact Hb|].
    unfold confirmed_on. apply filter_In. now split. }
  { intros b Hb.
    apply (cancel_all_none_confirmed id (confirmed_on db id)
             (ride_bookings db) b); [|exact Hb].
    intros c Hc E. unfold confirmed_on. apply filter_In. now split. }
Qed.

(** ** The seats held on a ride *)

Lemma held_app id l1 l2 : held id (l1 ++ l2) = held id l1 + held id l2.
Proof. induction l1 as [|b l1 IH]; simpl; [reflexivity | lia]. Qed.

Lemma some_cancelled_refl bs : some_cancelled bs bs.
Proof.
  unfold some_cancelled. induction bs; constructor; auto.
Qed.

Lemma some_cancelled_trans bs1 bs2 bs3 :
  some_cancelled bs1 bs2 -> some_cancelled bs2 bs3 -> some_cancelled bs1 bs3.
Proof.
  unfold some_cancelled. intros H. revert bs3.
  induction H as [|b b' l l' Hb _ IH]; intros bs3 H3;
    inversion H3 as [|? c ? l3 Hc H3']; subst; constructor.
  - destruct Hb as [->| ->]; destruct Hc as [->| ->]; auto.
  - now apply IH.
Qed.

Lemma some_cancelled_update id bs :
  some_cancelled bs
    (update_where b_id id (set_booking_status "cancelled") bs).
Proof.
  unfold some_cancelled, update_where.
  induction bs as [|b bs IH]; simpl; constructor; [|exact IH].
  destruct (b_id b == id); auto.
Qed.

Lemma sqlite_cancel_each_some_cancelled ride dn reason uuid bs :
  forall db i,
    some_cancelled (ride_bookings db)
      (ride_bookings (Sqlite.cancel_each db ride dn reason bs uuid i)).
Proof.
  induction bs as [|b bs IH]; intros db i; simpl.
  - apply some_cancelled_refl.
  - destruct (insert_message db _) as [db1|] eqn:E;
      [|apply some_cancelled_refl].
    apply insert_message_some in E.
    eapply some_cancelled_trans; [|apply IH].
    subst db1. simpl. apply some_cancelled_update.
Qed.

(** ** Seat counters and runs *)

Lemma seat_counters_ids db db' :
  seat_counters db' = seat_counters db ->
  map r_id (rides db') = map r_id (rides db).
Proof.
  intros H. apply (f_equal (map (fun c => fst (fst c)))) in H.
  unfold seat_counters in H. rewrite !map_map in H. exact H.
Qed.

Lemma sqlite_status_some_cancelled db user id req uuid :
  some_cancelled (ride_bookings db)
    (ride_bookings (fst (Sqlite.update_ride_status db user id req uuid))).
Proof.
  unfold Sqlite.update_ride_status.
  destruct (get_ride db id) as [ride|]; [|apply some_cancelled_refl].
  destruct (negb _); [apply some_cancelled_refl|].
  set (db1 := if rq_status req == "cancelled" then _ else db).
  assert (H1 : some_cancelled (ride_bookings db) (ride_bookings db1)).
  { unfold db1. destruct (rq_status req == "cancelled");
      [|apply some_cancelled_refl].
    apply sqlite_cancel_each_some_cancelled. }
  destruct (update_status_where db1 _ id) as [db2|] eqn:E; simpl.
  - apply update_status_where_some in E. now subst db2.
  - exact H1.
Qed.

Lemma serve_cons db rq rest :
  serve db (rq :: rest)
  = (fst (serve (fst (handle db rq)) rest),
     snd (handle db rq) :: snd (serve (fst (handle db rq)) rest)).
Proof.
  simpl. destruct (handle db rq) as [db1 resp]. simpl.
  destruct (serve db1 rest). reflexivity.
Qed.

(** C1, as stated, fails: a ride is published with nine available seats
    out of four; and a booking of minus three seats on a ride of four
    leaves seven available. *)
Lemma seats_out_of_range :
  ~ seats_always_in_range Scenario.people [Scenario.publish (Some 9)]
  /\ ~ seats_always_in_range Scenario.people
         [Scenario.publish None;
          CreateBooking "ann" (mkBookingReq "ride-0" (-3))
            (Scenario.ids "bk-ann")].
Proof.
  split; intros H.
  - specialize (H (Scenario.ride "available" 9)). vm_compute in H.
    destruct (H (or_introl eq_refl)) as [_ H9]. apply H9. reflexivity.
  - specialize (H (Scenario.ride "available" 7)). vm_compute in H.
    destruct (H (or_introl eq_refl)) as [_ H7]. apply H7. reflexivity.
Qed.

(** ** Simultaneous bookings of the last seats *)

Lemma sqlite_create_booking_sold_out db user req uuid ride :
  rq_ride_id req <> EmptyString ->
  rq_seats_booked req <> 0 ->
  get_ride db (rq_ride_id req) = Some ride ->
  driver_id ride <> user ->
  available_seats ride < rq_seats_booked req ->
  Sqlite.create_booking db user req uuid
  = (db, (400, Msg "Not enough seats available")).
Proof.
  intros H1 H2 Hr Hd Hlt. unfold Sqlite.create_booking. cbv zeta.
  rewrite (falsy_fields_false req H1 H2), Hr.
  apply String.eqb_neq in Hd. rewrite Hd.
  apply Z.ltb_lt in Hlt. now rewrite Hlt.
Qed.

Lemma find_app_none {A : Type} (f : A -> bool) l x :
  find f l = None -> f x = false -> find f (l ++ [x]) = None.
Proof.
  intros Hl Hx. induction l as [|y l IH]; simpl in *.
  - now rewrite Hx.
  - destruct (f y); [discriminate | now apply IH].
Qed.

Lemma serve_one_seat rid :
  rid <> EmptyString ->
  forall (order : list Caller) db ride k,
    get_ride db rid = Some ride ->
    available_seats ride = Z.of_nat k ->
    NoDup (map fst order) ->
    NoDup (map (fun c : Caller => snd c 0%nat) order) ->
    Forall (may_book db rid ride) order ->
    let out := serve db (map (one_seat rid) order) in
    List.length (filter accepted (snd out)) = Nat.min k (List.length order)
    /\ List.length (filter rejected_invalid (snd out))
       = (List.length order - k)%nat
    /\ option_map available_seats (get_ride (fst out) rid)
       = Some (Z.of_nat (k - List.length order))
    /\ held rid (ride_bookings (fst out))
       = held rid (ride_bookings db)
         + Z.of_nat (Nat.min k (List.length order)).
Proof.
  intros Hrid.
  induction order as [|c rest IH]; intros db ride k Hr Hk ND1 ND2 Hall.
  - simpl. rewrite Hr. simpl. rewrite Hk, Nat.min_0_r, Nat.sub_0_r.
    repeat split. lia.
  - cbv zeta. simpl map. rewrite serve_cons. simpl fst. simpl snd.
    inversion Hall as [|? ? Hc Hrest]; subst.
    destruct Hc as (Hd & Hu & Hb & Hf).
    simpl in ND1, ND2.
    inversion ND1 as [|? ? Hn1 ND1']; subst.
    inversion ND2 as [|? ? Hn2 ND2']; subst.
    assert (Hd' : driver_id ride <> fst c) by (intros E; now apply Hd).
    assert (Hone : rq_seats_booked (mkBookingReq rid 1) <> 0)
      by (simpl; lia).
    destruct k as [|k'].
    + change (handle db (one_seat rid c))
        with (Sqlite.create_booking db (fst c) (mkBookingReq rid 1) (snd c)).
      rewrite (sqlite_create_booking_sold_out db (fst c)
                 (mkBookingReq rid 1) (snd c) ride Hrid Hone Hr Hd')
        by (simpl; lia).
      simpl fst. simpl snd.
      destruct (IH db ride 0%nat Hr Hk ND1' ND2' Hrest) as (A & R & S & H).
      simpl filter. simpl List.length. rewrite A, R, S, H.
      repeat split. simpl. lia.
    + destruct (sqlite_create_booking_accepted db (fst c)
                  (mkBookingReq rid 1) (snd c) ride Hrid Hone Hr Hd'
                  ltac:(simpl; lia) Hb Hu Hf) as (Rsp & U & B & Rd).
      change (handle db (one_seat rid c))
        with (Sqlite.create_booking db (fst c) (mkBookingReq rid 1) (snd c)).
      set (db' := fst (Sqlite.create_booking db (fst c) (mkBookingReq rid 1)
                         (snd c))) in *.
      simpl in Rsp, B, Rd. rewrite Rsp.
      set (ride' := set_available_seats (available_seats ride - 1) ride).
      assert (Hr' : get_ride db' rid = Some ride').
      { unfold get_ride. rewrite Rd.
        exact (lookup_update_same r_id rid
                 (fun r => set_available_seats (available_seats r - 1) r)
                 _ _ (fun _ => eq_refl) Hr). }
      assert (Hk' : available_seats ride' = Z.of_nat k')
        by (simpl; lia).
      assert (Hrest' : Forall (may_book db' rid ride') rest).
      { apply Forall_forall. intros c' Hin.
        rewrite Forall_forall in Hrest.
        destruct (Hrest c' Hin) as (Hd1 & Hu1 & Hb1 & Hf1).
        assert (Hne : fst c <> fst c').
        { intros E. apply Hn1. rewrite E. now apply in_map. }
        assert (Hni : snd c 0%nat <> snd c' 0%nat).
        { intros E. apply Hn2. rewrite E.
          now apply (in_map (fun c : Caller => snd c 0%nat)). }
        repeat split.
        - exact Hd1.
        - now rewrite U.
        - unfold get_booking_of. rewrite B. apply find_app_none.
          + exact Hb1.
          + unfold is_booking_of. simpl.
            apply String.eqb_neq in Hne. now rewrite Hne, andb_false_r.
        - rewrite B, map_app, mem_app, Hf1. simpl.
          apply String.eqb_neq in Hni. now rewrite Hni. }
      destruct (IH db' ride' k' Hr' Hk' ND1' ND2' Hrest')
        as (A & R & S & H).
      simpl filter. simpl List.length. rewrite A, R, S, H.
      repeat split. rewrite B, held_app. simpl held. unfold holds_on.
      simpl. rewrite String.eqb_refl. simpl. lia.
Qed.

(** C9. The better-sqlite3 handlers are synchronous, so simultaneous
    calls are served one after the other, in some order.  When [N] callers
    who could each book (distinct registered passengers, none the driver,
    none with a booking on the ride, unused booking ids) ask for one seat of
    a ride with [K < N] available seats, then whatever the order exactly
    [K] calls are accepted, the [N - K] others are rejected with
    InvalidOperation, the ride ends with no available seat and with exactly
    [K] more seats held on it: the [K] seats are not oversold. *)
Theorem simultaneous_bookings_never_oversell
    (db : DB) (rid : string) (ride : Ride) (K : nat)
    (calls order : list Caller) :
  rid <> EmptyString ->
  get_ride db rid = Some ride ->
  available_seats ride = Z.of_nat K ->
  (K < List.length calls)%nat ->
  NoDup (map fst calls) ->
  NoDup (map (fun c : Caller => snd c 0%nat) calls) ->
  Forall (may_book db rid ride) calls ->
  Permutation calls order ->
  let out := serve db (map (one_seat rid) order) in
  List.length (filter accepted (snd out)) = K
  /\ List.length (filter rejected_invalid (snd out))
     = (List.length calls - K)%nat
  /\ option_map available_seats (get_ride (fst out) rid) = Some 0
  /\ held rid (ride_bookings (fst out))
     = held rid (ride_bookings db) + Z.of_nat K.
Proof.
  intros Hrid Hr Hk HN ND1 ND2 Hall Hperm out.
  assert (Hlen : List.length order = List.length calls)
    by (symmetry; now apply Permutation_length).
  destruct (serve_one_seat rid Hrid order db ride K Hr Hk)
    as (A & R & S & H).
  - apply (Permutation_NoDup (l := map fst calls)); [|exact ND1].
    now apply Permutation_map.
  - apply (Permutation_NoDup
             (l := map (fun c : Caller => snd c 0%nat) calls)); [|exact ND2].
    now apply Permutation_map.
  - apply (Permutation_Forall Hperm). exact Hall.
  - unfold out. rewrite A, R, S, H, Hlen. repeat split.
    + lia.
    + do 2 f_equal. lia.
    + do 2 f_equal. lia.
Qed.

Lemma simultaneous_bookings_never_oversell_witness :
  List.length
    (filter accepted
       (snd (serve Scenario.booked
               (map (one_seat "ride-0") Scenario.rush_served)))) = 2%nat
  /\ List.length
       (filter rejected_invalid
          (snd (serve Scenario.booked
                  (map (one_seat "ride-0") Scenario.rush_served)))) = 1%nat
  /\ option_map available_seats
       (get_ride
          (fst (serve Scenario.booked
                  (map (one_seat "ride-0") Scenario.rush_served)))
          "ride-0") = Some 0
  /\ held "ride-0"
       (ride_bookings
          (fst (serve Scenario.booked
                  (map (one_seat "ride-0") Scenario.rush_served)))) = 4.
Proof.
  apply (simultaneous_bookings_never_oversell Scenario.booked "ride-0"
           (Scenario.ride "available" 2) 2%nat Scenario.rush
           Scenario.rush_served).
  - discriminate.
  - reflexivity.
  - reflexivity.
  - simpl. lia.
  - simpl. repeat constructor; simpl; intuition discriminate.
  - vm_compute. repeat constructor; simpl; intuition discriminate.
  - unfold Scenario.rush.
    repeat (apply Forall_cons;
            [repeat split; try reflexivity; simpl; discriminate|]).
    apply Forall_nil.
  - apply perm_swap.
Defined.

(** ** Where the assumptions are needed *)

(** The better-sqlite3 cascade inserts the notice before it cancels the
    booking, inside one [try]: when the INSERT of a notice is refused (here
    its id is taken), the loop is left, the booking stays confirmed and the
    ride is cancelled all the same. *)
Remark cascade_stops_at_refused_notice :
  let out :=
    Sqlite.update_ride_status Scenario.noted "driver" "ride-0"
      (mkStatusReq "cancelled" None) (Scenario.ids "bye") in
  snd out = (200, RideRow (Some (Scenario.ride "cancelled" 2)))
  /\ ride_bookings (fst out)
     = [Scenario.booking "bk-ann" "ann" 2 "confirmed"].
Proof. split; reflexivity. Qed.

(** The Supabase handler awaits between its checks and its writes.  When
    Bob's and Cy's calls for the two seats that are left are both checked
    before either writes, both are accepted: six seats are held on a ride
    of four, and the counter, written twice from the same reading, is 0. *)
Remark supabase_interleaved_calls_oversell :
  let req := mkBookingReq "ride-0" 2 in
  let seen := Scenario.ride "available" 2 in
  Supabase.create_booking_checks Scenario.booked "bob" req = inr seen
  /\ Supabase.create_booking_checks Scenario.booked "cy" req = inr seen
  /\ let bob :=
       Supabase.create_booking_writes Scenario.booked "bob" req
         (Scenario.ids "bk-bob") seen in
     let cy :=
       Supabase.create_booking_writes (fst bob) "cy" req
         (Scenario.ids "bk-cy") seen in
     fst (snd bob) = 201 /\ fst (snd cy) = 201
     /\ held "ride-0" (ride_bookings (fst cy)) = 6
     /\ seat_counters (fst cy) = [("ride-0", 4, 0)].
Proof. repeat split; reflexivity. Qed.

(** ** The example of the specification *)

(** Ann's booking costs 200 and leaves two seats, Bob's call for three is
    refused, Ann's cancellation gives the two seats back, and the driver's
    cancellation leaves the ride cancelled with all four seats and without
    a confirmed booking. *)
Example story_of_the_specification :
  map fst (snd (serve (opening Scenario.people) Scenario.story))
    = [201; 201; 400; 200; 200]
  /\ seat_counters
       (fst (serve (opening Scenario.people)
               (firstn 2 Scenario.story))) = [("ride-0", 4, 2)]
  /\ map total_price
       (ride_bookings
          (fst (serve (opening Scenario.people)
                  (firstn 2 Scenario.story)))) = [200]
  /\ seat_counters
       (fst (serve (opening Scenario.people)
               (firstn 4 Scenario.story))) = [("ride-0", 4, 4)]
  /\ status_column (fst (serve (opening Scenario.people) Scenario.story))
     = [("ride-0", "cancelled")]
  /\ map booking_status
       (ride_bookings (fst (serve (opening Scenario.people) Scenario.story)))
     = ["cancelled"].
Proof. repeat split; reflexivity. Qed.

(** ** Ordered selections *)

Section OrderBy.
Context {A : Type} (key : A -> string).

Lemma insert_asc_perm x rows : Permutation (insert_asc key x rows) (x :: rows).
Proof.
  induction rows as [|y rows IH]; simpl; [reflexivity|].
  destruct (String.leb (key x) (key y)); [reflexivity|].
  rewrite IH. apply perm_swap.
Qed.

Lemma order_by_perm rows : Permutation (order_by key rows) rows.
Proof.
  induction rows as [|x rows IH]; simpl; [constructor|].
  rewrite insert_asc_perm. now constructor.
Qed.

Lemma insert_asc_ascending x rows :
  ascending key rows -> ascending key (insert_asc key x rows).
Proof.
  unfold ascending. induction rows as [|y rows IH]; simpl; intros HS.
  - repeat constructor.
  - destruct (String.leb (key x) (key y)) eqn:E.
    + constructor; [exact HS | constructor; exact E].
    + inversion HS as [|? ? HS' Hd]; subst.
      constructor; [now apply IH|].
      assert (Hyx : String.leb (key y) (key x) = true).
      { destruct (String.leb_total (key x) (key y)); congruence. }
      destruct rows as [|z rows]; simpl.
      * constructor. exact Hyx.
      * inversion Hd; subst.
        destruct (String.leb (key x) (key z)); constructor; assumption.
Qed.

Lemma order_by_ascending rows : ascending key (order_by key rows).
Proof.
  induction rows as [|x rows IH]; simpl.
  - constructor.
  - now apply insert_asc_ascending.
Qed.

Lemma insert_desc_perm x rows :
  Permutation (insert_desc key x rows) (x :: rows).
Proof.
  induction rows as [|y rows IH]; simpl; [reflexivity|].
  destruct (String.leb (key y) (key x)); [reflexivity|].
  rewrite IH. apply perm_swap.
Qed.

Lemma order_by_desc_perm rows : Permutation (order_by_desc key rows) rows.
Proof.
  induction rows as [|x rows IH]; simpl; [constructor|].
  rewrite insert_desc_perm. now constructor.
Qed.

Lemma insert_desc_descending x rows :
  descending key rows -> descending key (insert_desc key x rows).
Proof.
  unfold descending. induction rows as [|y rows IH]; simpl; intros HS.
  - repeat constructor.
  - destruct (String.leb (key y) (key x)) eqn:E.
    + constructor; [exact HS | constructor; exact E].
    + inversion HS as [|? ? HS' Hd]; subst.
      constructor; [now apply IH|].
      assert (Hxy : String.leb (key x) (key y) = true).
      { destruct (String.leb_total (key x) (key y)); congruence. }
      destruct rows as [|z rows]; simpl.
      * constructor. exact Hxy.
      * inversion Hd; subst.
        destruct (String.leb (key z) (key x)); constructor; assumption.
Qed.

Lemma order_by_desc_descending rows : descending key (order_by_desc key rows).
Proof.
  induction rows as [|x rows IH]; simpl.
  - constructor.
  - now apply insert_desc_descending.
Qed.

Lemma in_order_by x rows : In x (order_by key rows) <-> In x rows.
Proof.
  split; apply Permutation_in;
    [apply order_by_perm | symmetry; apply order_by_perm].
Qed.

Lemma in_order_by_desc x rows : In x (order_by_desc key rows) <-> In x rows.
Proof.
  split; apply Permutation_in;
    [apply order_by_desc_perm | symmetry; apply order_by_desc_perm].
Qed.
End OrderBy.

Lemma in_join_user {A : Type} db (column : A -> string) rows x u :
  In (x, u) (flat_map (join_user db column) rows)
  <-> In x rows /\ get_user db (column x) = Some u.
Proof.
  rewrite in_flat_map. unfold join_user. split.
  - intros [y [Hy Hin]].
    destruct (get_user db (column y)) as [v|] eqn:E; [|destruct Hin].
    destruct Hin as [Heq|[]]. inversion Heq; subst. auto.
  - intros [Hx Hu]. exists x. split; [exact Hx|]. rewrite Hu. now left.
Qed.

Lemma in_join_ride db rows b r :
  In (b, r) (flat_map (join_ride db) rows)
  <-> In b rows /\ get_ride db (ride_id b) = Some r.
Proof.
  rewrite in_flat_map. unfold join_ride. split.
  - intros [y [Hy Hin]].
    destruct (get_ride db (ride_id y)) as [v|] eqn:E; [|destruct Hin].
    destruct Hin as [Heq|[]]. inversion Heq; subst. auto.
  - intros [Hx Hu]. exists b. split; [exact Hx|]. rewrite Hu. now left.
Qed.

(** X1. The list of available rides holds exactly the rides of the table
    that have status available, at least one available seat, a pickup time
    after [now] (as text) and a registered driver, each with its driver, in
    the order of their pickup times. *)
Theorem available_lists_open_rides (db : DB) (now : string) :
  ascending (fun ru => pickup_time (fst ru)) (SqliteRoutes.available db now)
  /\ forall r u,
       In (r, u) (SqliteRoutes.available db now)
       <-> In r (rides db) /\ status r = "available"
           /\ 0 < available_seats r
           /\ String.ltb now (pickup_time r) = true
           /\ get_user db (driver_id r) = Some u.
Proof.
  split; [apply order_by_ascending|].
  intros r u. unfold SqliteRoutes.available.
  rewrite in_order_by, in_join_user, filter_In.
  unfold SqliteRoutes.is_open. rewrite !andb_true_iff, String.eqb_eq.
  rewrite Z.ltb_lt. tauto.
Qed.

(** X2. Only the driver of a ride gets its bookings: a missing ride gives
    NotFound, anybody else Forbidden; the driver gets exactly the bookings
    of the ride whose passenger is registered, cancelled ones included,
    each with its passenger, latest first. *)
Theorem bookings_for_ride_only_to_driver
    (booked_at : Booking -> string) (db : DB) (user rideId : string) :
  (get_ride db rideId = None ->
     SqliteRoutes.bookings_for_ride booked_at db user rideId
     = inl (404, Msg "Ride not found"))
  /\ (forall ride, get_ride db rideId = Some ride -> driver_id ride <> user ->
        SqliteRoutes.bookings_for_ride booked_at db user rideId
        = inl (403, Msg "Not authorized"))
  /\ (forall ride, get_ride db rideId = Some ride -> driver_id ride = user ->
        exists rows,
          SqliteRoutes.bookings_for_ride booked_at db user rideId = inr rows
          /\ descending (fun bu => booked_at (fst bu)) rows
          /\ forall b u,
               In (b, u) rows
               <-> In b (ride_bookings db) /\ ride_id b = rideId
                   /\ get_user db (passenger_id b) = Some u).
Proof.
  unfold SqliteRoutes.bookings_for_ride. split; [|split].
  - intros H. now rewrite H.
  - intros ride H Hu. rewrite H. apply String.eqb_neq in Hu. now rewrite Hu.
  - intros ride H Hu. rewrite H. apply String.eqb_eq in Hu. rewrite Hu.
    simpl. eexists. split; [reflexivity|].
    split; [apply order_by_desc_descending|].
    intros b u. rewrite in_order_by_desc, in_join_user, filter_In.
    rewrite String.eqb_eq. tauto.
Qed.

Lemma bookings_for_ride_only_to_driver_witness :
  SqliteRoutes.bookings_for_ride (fun b => b_id b) Scenario.booked "ann"
    "ride-0" = inl (403, Msg "Not authorized")
  /\ exists rows,
       SqliteRoutes.bookings_for_ride (fun b => b_id b) Scenario.booked
         "driver" "ride-0" = inr rows
       /\ descending (fun bu => b_id (fst bu)) rows
       /\ forall b u,
            In (b, u) rows
            <-> In b (ride_bookings Scenario.booked) /\ ride_id b = "ride-0"
                /\ get_user Scenario.booked (passenger_id b) = Some u.
Proof.
  split.
  - apply (proj1 (proj2 (bookings_for_ride_only_to_driver (fun b => b_id b)
                           Scenario.booked "ann" "ride-0"))
             (Scenario.ride "available" 2)).
    + reflexivity.
    + simpl. discriminate.
  - apply (proj2 (proj2 (bookings_for_ride_only_to_driver (fun b => b_id b)
                           Scenario.booked "driver" "ride-0"))
             (Scenario.ride "available" 2)); reflexivity.
Defined.

(** X3. A passenger's own bookings: exactly their bookings whose ride is
    in the table, whatever their status, each with its ride, latest
    first. *)
Theorem my_bookings_lists_own_bookings
    (booked_at : Booking -> string) (db : DB) (user : string) :
  descending (fun br => booked_at (fst br))
    (SqliteRoutes.my_bookings booked_at db user)
  /\ forall b r,
       In (b, r) (SqliteRoutes.my_bookings booked_at db user)
       <-> In b (ride_bookings db) /\ passenger_id b = user
           /\ get_ride db (ride_id b) = Some r.
Proof.
  split; [apply order_by_desc_descending|].
  intros b r. unfold SqliteRoutes.my_bookings.
  rewrite in_order_by_desc, in_join_ride, filter_In, String.eqb_eq. tauto.
Qed.

(** ** What a request does to the bookings *)

Lemma some_cancelled_app bs1 bs2 kept :
  some_cancelled (bs1 ++ bs2) kept ->
  exists k1 k2, kept = (k1 ++ k2)%list /\ some_cancelled bs1 k1
                /\ some_cancelled bs2 k2.
Proof.
  unfold some_cancelled. intros H. apply Forall2_app_inv_l in H.
  destruct H as (k1 & k2 & H1 & H2 & E). eauto.
Qed.

Lemma bookings_grow_refl bs : bookings_grow bs bs.
Proof.
  exists bs, []. rewrite app_nil_r. split; [reflexivity|].
  apply some_cancelled_refl.
Qed.

Lemma bookings_grow_trans bs1 bs2 bs3 :
  bookings_grow bs1 bs2 -> bookings_grow bs2 bs3 -> bookings_grow bs1 bs3.
Proof.
  intros (k1 & a1 & E1 & S1) (k2 & a2 & E2 & S2). subst bs2.
  destruct (some_cancelled_app k1 a1 k2 S2) as (k & a & E & Sk & Sa).
  exists k, (a ++ a2)%list. subst. rewrite app_assoc.
  split; [reflexivity|]. eapply some_cancelled_trans; eassumption.
Qed.

(** One request: the old rows, some cancelled, and at most one new row,
    confirmed, of a passenger who had no booking on the ride that was not
    cancelled. *)
Lemma answer_bookings db c :
  exists kept added,
    ride_bookings (answer db c) = (kept ++ added)%list
    /\ some_cancelled (ride_bookings db) kept
    /\ (added = []
        \/ exists b, added = [b] /\ booking_status b = "confirmed"
                     /\ get_booking_of db (ride_id b) (passenger_id b)
                          "cancelled" = None).
Proof.
  assert (Hsame : forall db', ride_bookings db' = ride_bookings db ->
            exists kept added,
              ride_bookings db' = (kept ++ added)%list
              /\ some_cancelled (ride_bookings db) kept
              /\ (added = []
                  \/ exists b, added = [b] /\ booking_status b = "confirmed"
                               /\ get_booking_of db (ride_id b)
                                    (passenger_id b) "cancelled" = None)).
  { intros db' E. exists (ride_bookings db), []. rewrite app_nil_r.
    repeat split; [exact E | apply some_cancelled_refl | now left]. }
  assert (Hcanc : forall db',
            some_cancelled (ride_bookings db) (ride_bookings db') ->
            exists kept added,
              ride_bookings db' = (kept ++ added)%list
              /\ some_cancelled (ride_bookings db) kept
              /\ (added = []
                  \/ exists b, added = [b] /\ booking_status b = "confirmed"
                               /\ get_booking_of db (ride_id b)
                                    (passenger_id b) "cancelled" = None)).
  { intros db' S. exists (ride_bookings db'), []. rewrite app_nil_r.
    repeat split; [exact S | now left]. }
  destruct c as [[user req uuid|user req uuid|user id uuid|user id req uuid]
                |user id]; simpl.
  - apply Hsame. unfold Sqlite.create_ride.
    destruct (_ || _); [reflexivity|]. cbv zeta.
    destruct (insert_ride db _) as [db'|] eqn:E; [|reflexivity].
    apply insert_ride_some in E. now subst db'.
  - unfold Sqlite.create_booking. cbv zeta.
    destruct (_ || _); [now apply Hsame|].
    destruct (get_ride db _) as [ride|] eqn:Hr; [|now apply Hsame].
    destruct (driver_id ride == user); [now apply Hsame|].
    destruct (_ <? _); [now apply Hsame|].
    destruct (get_booking_of _ _ _ _) eqn:Hb; [now apply Hsame|].
    destruct (insert_booking db _) as [db1|] eqn:E; [|now apply Hsame].
    apply insert_booking_some in E. simpl fst.
    match goal with |- context [Sqlite.notify_booked ?d ?u ?r ?i ?s ?p ?m] =>
      destruct (notify_booked_ledger d u r i s p m) as (_ & _ & G) end.
    rewrite G. subst db1. simpl.
    eexists _, [_]. split; [reflexivity|].
    split; [apply some_cancelled_refl|]. right. eexists.
    split; [reflexivity|]. simpl. split; [reflexivity | exact Hb].
  - apply Hcanc.
    destruct (get_booking db id) as [booking|] eqn:Hb;
      [|unfold Sqlite.cancel_booking; rewrite Hb; apply some_cancelled_refl].
    destruct (String.eqb_spec (passenger_id booking) user) as [Hu|Hu];
      [|unfold Sqlite.cancel_booking; rewrite Hb;
        apply String.eqb_neq in Hu; rewrite Hu; apply some_cancelled_refl].
    destruct (String.eqb_spec (booking_status booking) "cancelled")
      as [Hs|Hs];
      [unfold Sqlite.cancel_booking; rewrite Hb;
       apply String.eqb_eq in Hu, Hs; rewrite Hu, Hs;
       apply some_cancelled_refl|].
    destruct (cancel_booking_ledger db user id uuid booking Hb Hu Hs)
      as (_ & _ & B).
    simpl in B. rewrite B. apply some_cancelled_update.
  - apply Hcanc. apply sqlite_status_some_cancelled.
  - apply Hsame. unfold SqliteRoutes.delete_ride.
    destruct (get_ride db id) as [ride|]; [|reflexivity].
    destruct (negb _); [reflexivity|].
    unfold delete_ride_where. destruct (_ && _); reflexivity.
Qed.

Lemma run_cons db c calls : run db (c :: calls) = run (answer db c) calls.
Proof. reflexivity. Qed.

Lemma run_bookings_grow calls :
  forall db, bookings_grow (ride_bookings db) (ride_bookings (run db calls)).
Proof.
  induction calls as [|c calls IH]; intros db.
  - apply bookings_grow_refl.
  - rewrite run_cons. eapply bookings_grow_trans; [|apply IH].
    destruct (answer_bookings db c) as (kept & added & E & S & _).
    exists kept, added. auto.
Qed.

Lemma some_cancelled_nth bs kept i b :
  some_cancelled bs kept -> nth_error bs i = Some b ->
  exists b', nth_error kept i = Some b'
             /\ (b' = b \/ b' = set_booking_status "cancelled" b).
Proof.
  intros H. revert i. induction H as [|x y l l' Hxy _ IH]; intros i Hi.
  - destruct i; discriminate.
  - destruct i as [|i]; simpl in *.
    + injection Hi as <-. eauto.
    + now apply IH.
Qed.

(** X4. Whatever requests follow (create ride, create booking, cancel
    booking, ride status update, delete ride), a booking keeps its place in
    the table and its id, ride, passenger, seats and price; the only change
    it ever sees is that its status becomes cancelled, and a cancelled
    booking stays cancelled. *)
Theorem bookings_are_only_ever_cancelled
    (db : DB) (calls : list Call) (i : nat) (b : Booking) :
  nth_error (ride_bookings db) i = Some b ->
  exists b',
    nth_error (ride_bookings (run db calls)) i = Some b'
    /\ b_id b' = b_id b /\ ride_id b' = ride_id b
    /\ passenger_id b' = passenger_id b
    /\ seats_booked b' = seats_booked b /\ total_price b' = total_price b
    /\ (booking_status b' = booking_status b
        \/ booking_status b' = "cancelled")
    /\ (booking_status b = "cancelled" -> booking_status b' = "cancelled").
Proof.
  intros Hi.
  destruct (run_bookings_grow calls db) as (kept & added & E & S).
  destruct (some_cancelled_nth _ _ i b S Hi) as (b' & Hk & Hb').
  exists b'. split.
  - rewrite E. rewrite nth_error_app1; [exact Hk|].
    apply nth_error_Some. congruence.
  - destruct Hb' as [->| ->]; simpl; repeat split; auto.
Qed.

Lemma bookings_are_only_ever_cancelled_witness :
  exists b',
    nth_error
      (ride_bookings
         (run Scenario.booked
            [Ledger (UpdateRideStatus "driver" "ride-0"
                       (mkStatusReq "cancelled" None) (Scenario.ids "bye"));
             Ledger (CreateBooking "ann" (mkBookingReq "ride-0" 1)
                       (Scenario.ids "again"))])) 0
    = Some b'
    /\ total_price b' = 200 /\ booking_status b' = "cancelled".
Proof.
  destruct (bookings_are_only_ever_cancelled Scenario.booked
              [Ledger (UpdateRideStatus "driver" "ride-0"
                         (mkStatusReq "cancelled" None) (Scenario.ids "bye"));
               Ledger (CreateBooking "ann" (mkBookingReq "ride-0" 1)
                         (Scenario.ids "again"))]
              0%nat (Scenario.booking "bk-ann" "ann" 2 "confirmed") eq_refl)
    as (b' & Hn & _ & _ & _ & _ & Hp & _ & _).
  exists b'. split; [exact Hn|]. split; [exact Hp|].
  vm_compute in Hn. injection Hn as <-. reflexivity.
Defined.

(** ** One booking per passenger and ride *)

Lemma some_cancelled_active bs kept rid pid :
  some_cancelled bs kept ->
  (List.length (filter (is_booking_of rid pid "cancelled") kept)
   <= List.length (filter (is_booking_of rid pid "cancelled") bs))%nat.
Proof.
  intros H. induction H as [|b b' l l' Hb _ IH]; simpl; [lia|].
  destruct Hb as [->| ->].
  - destruct (is_booking_of rid pid "cancelled" b); simpl; lia.
  - unfold is_booking_of at 1. simpl. rewrite andb_false_r.
    destruct (is_booking_of rid pid "cancelled" b); simpl; lia.
Qed.

Lemma find_none_filter {A : Type} (f : A -> bool) l :
  find f l = None -> filter f l = [].
Proof.
  induction l as [|x l IH]; simpl; [reflexivity|].
  destruct (f x); [discriminate | exact IH].
Qed.

Lemma one_booking_each_answer db c :
  one_booking_each db -> one_booking_each (answer db c).
Proof.
  intros H rid pid. unfold active_bookings.
  destruct (answer_bookings db c) as (kept & added & E & S & Hadd).
  rewrite E, filter_app, length_app.
  pose proof (some_cancelled_active _ _ rid pid S) as Hk.
  specialize (H rid pid). unfold active_bookings in H.
  destruct Hadd as [->|(b & -> & _ & Hnone)]; simpl; [lia|].
  destruct (is_booking_of rid pid "cancelled" b) eqn:Eb; simpl; [|lia].
  unfold is_booking_of in Eb. apply andb_true_iff in Eb.
  destruct Eb as [Eb _]. apply andb_true_iff in Eb. destruct Eb as [E1 E2].
  apply String.eqb_eq in E1, E2. subst rid pid.
  unfold get_booking_of in Hnone. apply find_none_filter in Hnone.
  rewrite Hnone in Hk. simpl in Hk. lia.
Qed.

(** X5. From a database without bookings, whatever requests the
    better-sqlite3 server serves, a passenger never has two bookings on
    the same ride that are not cancelled. *)
Theorem one_booking_per_passenger_and_ride
    (people : list User) (calls : list Call) :
  one_booking_each (run (opening people) calls).
Proof.
  assert (H : forall cs db, one_booking_each db -> one_booking_each (run db cs)).
  { induction cs as [|c cs IH]; intros db Hdb; [exact Hdb|].
    rewrite run_cons. apply IH. now apply one_booking_each_answer. }
  apply H. intros rid pid. simpl. lia.
Qed.

(** ** Delete ride *)

Lemma delete_ride_where_some db id db' :
  delete_ride_where db id = Some db' ->
  db' = with_rides db (filter (fun r => negb (r_id r == id)) (rides db))
  /\ (mem id (map r_id (rides db)) = true ->
        mem id (map ride_id (ride_bookings db)) = false
        /\ mem id (map m_ride_id (ride_messages db)) = false).
Proof.
  unfold delete_ride_where.
  destruct (mem id (map r_id (rides db))) eqn:E1; simpl.
  - destruct (mem id (map ride_id (ride_bookings db))) eqn:E2; simpl;
      [discriminate|].
    destruct (mem id (map m_ride_id (ride_messages db))) eqn:E3; simpl;
      [discriminate|].
    intros H. injection H as <-. auto.
  - intros H. injection H as <-. split; [reflexivity | discriminate].
Qed.

Lemma lookup_filter_out {A : Type} (key : A -> string) id id' rows :
  lookup key id' (filter (fun x => negb (key x == id)) rows)
  = if id' == id then None else lookup key id' rows.
Proof.
  unfold lookup. induction rows as [|x rows IH]; simpl.
  - now destruct (id' == id).
  - destruct (key x == id) eqn:E; simpl.
    + rewrite IH. apply String.eqb_eq in E. subst id.
      destruct (String.eqb_spec id' (key x)) as [->|Hne].
      * reflexivity.
      * apply not_eq_sym in Hne. apply String.eqb_neq in Hne.
        now rewrite Hne.
    + destruct (key x == id') eqn:E'; [|exact IH].
      apply String.eqb_eq in E'. subst id'. now rewrite E.
Qed.

(** X6. Delete ride on the better-sqlite3 server: NotFound for a missing
    ride, Forbidden for anybody but the driver, and a failure (500) while a
    booking or a message, of whatever status, refers to the ride; in these
    cases nothing changes.  Otherwise the answer is 204, the ride is gone
    and every other ride, the bookings and the messages are as before. *)
Theorem delete_ride_outcomes (db : DB) (user id : string) :
  let out := SqliteRoutes.delete_ride db user id in
  (get_ride db id = None -> out = (db, (404, Some (Msg "Ride not found"))))
  /\ (forall ride, get_ride db id = Some ride -> driver_id ride <> user ->
        out = (db, (403, Some (Msg "Not authorized"))))
  /\ (forall ride, get_ride db id = Some ride -> driver_id ride = user ->
        mem id (map ride_id (ride_bookings db)) = true
        \/ mem id (map m_ride_id (ride_messages db)) = true ->
        out = (db, (500, Some (Msg "Failed to delete ride"))))
  /\ (forall ride, get_ride db id = Some ride -> driver_id ride = user ->
        mem id (map ride_id (ride_bookings db)) = false ->
        mem id (map m_ride_id (ride_messages db)) = false ->
        snd out = (204, None)
        /\ get_ride (fst out) id = None
        /\ (forall id', id' <> id -> get_ride (fst out) id' = get_ride db id')
        /\ ride_bookings (fst out) = ride_bookings db
        /\ ride_messages (fst out) = ride_messages db
        /\ users (fst out) = users db).
Proof.
  intros out. unfold out, SqliteRoutes.delete_ride.
  split; [|split; [|split]].
  - intros H. now rewrite H.
  - intros ride H Hu. rewrite H. apply String.eqb_neq in Hu. now rewrite Hu.
  - intros ride H Hu Href. rewrite H. apply String.eqb_eq in Hu. rewrite Hu.
    simpl negb. cbv iota. unfold delete_ride_where.
    rewrite (get_ride_mem db id ride H).
    assert (E : mem id (map ride_id (ride_bookings db))
                || mem id (map m_ride_id (ride_messages db)) = true)
      by (apply orb_true_iff; exact Href).
    now rewrite E.
  - intros ride H Hu Hb Hm. rewrite H. apply String.eqb_eq in Hu. rewrite Hu.
    simpl negb. cbv iota. unfold delete_ride_where.
    rewrite (get_ride_mem db id ride H), Hb, Hm. simpl.
    repeat split.
    + unfold get_ride. simpl. rewrite lookup_filter_out.
      now rewrite String.eqb_refl.
    + intros id' Hne. unfold get_ride. simpl. rewrite lookup_filter_out.
      apply String.eqb_neq in Hne. now rewrite Hne.
Qed.

Lemma delete_ride_outcomes_witness :
  SqliteRoutes.delete_ride Scenario.called_off "driver" "ride-0"
    = (Scenario.called_off, (500, Some (Msg "Failed to delete ride")))
  /\ SqliteRoutes.delete_ride Scenario.fresh "ann" "ride-0"
     = (Scenario.fresh, (403, Some (Msg "Not authorized")))
  /\ get_ride (fst (SqliteRoutes.delete_ride Scenario.fresh "driver" "ride-0"))
       "ride-0" = None.
Proof.
  split; [|split].
  - apply (proj1 (proj2 (proj2 (delete_ride_outcomes Scenario.called_off
                                  "driver" "ride-0")))
             (Scenario.ride "cancelled" 2)).
    + reflexivity.
    + reflexivity.
    + left. reflexivity.
  - apply (proj1 (proj2 (delete_ride_outcomes Scenario.fresh "ann" "ride-0"))
             (Scenario.ride "available" 4)).
    + reflexivity.
    + simpl. discriminate.
  - destruct (proj2 (proj2 (proj2 (delete_ride_outcomes Scenario.fresh
                                     "driver" "ride-0")))
                (Scenario.ride "available" 4) eq_refl eq_refl eq_refl
                eq_refl) as (_ & G & _).
    exact G.
Defined.

Lemma status_column_ids db db' :
  status_column db' = status_column db ->
  map r_id (rides db') = map r_id (rides db).
Proof.
  intros H. apply (f_equal (map fst)) in H.
  unfold status_column in H. rewrite !map_map in H. exact H.
Qed.

Lemma handle_keeps_ride_ids db rq id :
  mem id (map r_id (rides db)) = true ->
  mem id (map r_id (rides (fst (handle db rq)))) = true.
Proof.
  intros H.
  destruct rq as [user req uuid|user req uuid|user bid uuid|user rid req uuid];
    simpl.
  - unfold Sqlite.create_ride. destruct (_ || _); [exact H|]. cbv zeta.
    destruct (insert_ride db _) as [db'|] eqn:E; [|exact H].
    apply insert_ride_some in E. subst db'. simpl.
    rewrite map_app, mem_app, H. reflexivity.
  - now rewrite (status_column_ids _ _
                   (sqlite_create_booking_status_column db user req uuid)).
  - now rewrite (status_column_ids _ _
                   (sqlite_cancel_booking_status_column db user bid uuid)).
  - now rewrite (seat_counters_ids _ _
                   (sqlite_status_seat_counters db user rid req uuid)).
Qed.

Lemma some_cancelled_ride_ids bs kept :
  some_cancelled bs kept -> map ride_id kept = map ride_id bs.
Proof.
  intros H. induction H as [|b b' l l' Hb _ IH]; simpl; [reflexivity|].
  rewrite IH. destruct Hb as [->| ->]; reflexivity.
Qed.

Lemma answer_keeps_booked_ride db c rid :
  mem rid (map ride_id (ride_bookings db)) = true ->
  mem rid (map r_id (rides db)) = true ->
  mem rid (map ride_id (ride_bookings (answer db c))) = true
  /\ mem rid (map r_id (rides (answer db c))) = true.
Proof.
  intros Hb Hr. split.
  - destruct (answer_bookings db c) as (kept & added & E & S & _).
    rewrite E, map_app, mem_app, (some_cancelled_ride_ids _ _ S), Hb.
    reflexivity.
  - destruct c as [rq|user id]; simpl; [now apply handle_keeps_ride_ids|].
    unfold SqliteRoutes.delete_ride.
    destruct (get_ride db id) as [ride|] eqn:Hg; [|exact Hr].
    destruct (negb _); [exact Hr|].
    destruct (delete_ride_where db id) as [db'|] eqn:E; [|exact Hr].
    apply delete_ride_where_some in E. destruct E as [-> Hfree].
    destruct (Hfree (get_ride_mem db id ride Hg)) as [Hnb _].
    simpl. apply mem_In. apply mem_In in Hr. apply in_map_iff in Hr.
    destruct Hr as (r & Hid & Hin). apply in_map_iff. exists r.
    split; [exact Hid|]. apply filter_In. split; [exact Hin|].
    apply negb_true_iff, String.eqb_neq. intros Heq.
    rewrite Hid in Heq. subst id. congruence.
Qed.

(** X7. On the better-sqlite3 server a ride that has a booking, cancelled
    or not, is never removed: whatever requests follow, the ride and the
    booking are still in their tables (bookings are never deleted, and the
    foreign key blocks the deletion of the ride). *)
Theorem booked_ride_is_never_removed
    (db : DB) (rid : string) (calls : list Call) :
  mem rid (map ride_id (ride_bookings db)) = true ->
  mem rid (map r_id (rides db)) = true ->
  mem rid (map ride_id (ride_bookings (run db calls))) = true
  /\ mem rid (map r_id (rides (run db calls))) = true.
Proof.
  revert db. induction calls as [|c calls IH]; intros db Hb Hr.
  - split; assumption.
  - rewrite run_cons.
    destruct (answer_keeps_booked_ride db c rid Hb Hr) as [Hb' Hr'].
    now apply IH.
Qed.

Lemma booked_ride_is_never_removed_witness :
  mem "ride-0"
    (map ride_id
       (ride_bookings
          (run Scenario.called_off
             [DeleteRide "driver" "ride-0";
              Ledger (CancelBooking "ann" "bk-ann" (Scenario.ids "n"))])))
  = true
  /\ mem "ride-0"
       (map r_id
          (rides
             (run Scenario.called_off
                [DeleteRide "driver" "ride-0";
                 Ledger (CancelBooking "ann" "bk-ann" (Scenario.ids "n"))])))
     = true.
Proof.
  apply (booked_ride_is_never_removed Scenario.called_off "ride-0"
           [DeleteRide "driver" "ride-0";
            Ledger (CancelBooking "ann" "bk-ann" (Scenario.ids "n"))]);
    reflexivity.
Defined.

Lemma NoDup_map_filter {A B : Type} (f : A -> B) (p : A -> bool) l :
  NoDup (map f l) -> NoDup (map f (filter p l)).
Proof.
  induction l as [|x l IH]; simpl; intros H; [constructor|].
  inversion H as [|? ? Hx H']; subst.
  destruct (p x); simpl; [|now apply IH].
  constructor; [|now apply IH].
  intros Hin. apply Hx. apply in_map_iff in Hin.
  destruct Hin as (y & Hy & Hf). apply filter_In in Hf.
  apply in_map_iff. exists y. tauto.
Qed.

(** ** Booking again after a cancellation *)

Lemma sqlite_cancel_booking_accepted db user id uuid booking :
  get_booking db id = Some booking ->
  passenger_id booking = user ->
  booking_status booking <> "cancelled" ->
  let out := Sqlite.cancel_booking db user id uuid in
  snd out = (200, BookingRow (Some (set_booking_status "cancelled" booking)))
  /\ users (fst out) = users db
  /\ rides (fst out)
     = update_where r_id (ride_id booking)
         (fun r => set_available_seats
                     (available_seats r + seats_booked booking) r)
         (rides db)
  /\ ride_bookings (fst out)
     = update_where b_id id (set_booking_status "cancelled")
         (ride_bookings db).
Proof.
  intros Hb Hu Hs out.
  destruct (cancel_booking_ledger db user id uuid booking Hb Hu Hs)
    as (U & R & B).
  fold out in U, R, B. split; [|auto].
  assert (G : get_booking (fst out) id
              = Some (set_booking_status "cancelled" booking)).
  { unfold get_booking. rewrite B.
    apply lookup_update_same; [reflexivity | exact Hb]. }
  unfold out, Sqlite.cancel_booking in *. rewrite Hb in *.
  apply String.eqb_eq in Hu. apply String.eqb_neq in Hs.
  rewrite Hu, Hs in *. simpl in *. now rewrite G.
Qed.


Lemma update_where_last {A : Type} (key : A -> string) id f rows x :
  mem id (map key rows) = false -> key x = id ->
  update_where key id f (rows ++ [x]) = (rows ++ [f x])%list.
Proof.
  intros Hn Hk. unfold update_where. rewrite map_app. simpl.
  rewrite Hk, String.eqb_refl. f_equal.
  now apply update_where_absent.
Qed.




(** ** Notices and the outcome of a request *)

Lemma same_ledger_meet db1 db2 db :
  same_ledger db db1 -> same_ledger db db2 -> same_ledger db1 db2.
Proof.
  intros (U1 & R1 & B1) (U2 & R2 & B2). repeat split; congruence.
Qed.

Lemma sqlite_create_booking_notice db user req uuid uuid' :
  uuid 0%nat = uuid' 0%nat ->
  snd (Sqlite.create_booking db user req uuid)
    = snd (Sqlite.create_booking db user req uuid')
  /\ same_ledger (fst (Sqlite.create_booking db user req uuid))
       (fst (Sqlite.create_booking db user req uuid')).
Proof.
  intros E. unfold Sqlite.create_booking. cbv zeta. rewrite <- E.
  destruct (_ || _); [split; [reflexivity | apply same_ledger_refl]|].
  destruct (get_ride db _) as [ride|];
    [|split; [reflexivity | apply same_ledger_refl]].
  destruct (driver_id ride == user);
    [split; [reflexivity | apply same_ledger_refl]|].
  destruct (_ <? _); [split; [reflexivity | apply same_ledger_refl]|].
  destruct (get_booking_of _ _ _ _);
    [split; [reflexivity | apply same_ledger_refl]|].
  destruct (insert_booking db _) as [db1|];
    [|split; [reflexivity | apply same_ledger_refl]].
  simpl. split; [reflexivity|].
  eapply same_ledger_meet; apply notify_booked_ledger.
Qed.

Lemma sqlite_cancel_booking_notice db user id uuid uuid' :
  snd (Sqlite.cancel_booking db user id uuid)
    = snd (Sqlite.cancel_booking db user id uuid')
  /\ same_ledger (fst (Sqlite.cancel_booking db user id uuid))
       (fst (Sqlite.cancel_booking db user id uuid')).
Proof.
  destruct (get_booking db id) as [booking|] eqn:Hb;
    [|unfold Sqlite.cancel_booking; rewrite Hb;
      split; [reflexivity | apply same_ledger_refl]].
  destruct (String.eqb_spec (passenger_id booking) user) as [Hu|Hu];
    [|unfold Sqlite.cancel_booking; rewrite Hb;
      apply String.eqb_neq in Hu; rewrite Hu;
      split; [reflexivity | apply same_ledger_refl]].
  destruct (String.eqb_spec (booking_status booking) "cancelled") as [Hs|Hs];
    [unfold Sqlite.cancel_booking; rewrite Hb;
     apply String.eqb_eq in Hu, Hs; rewrite Hu, Hs;
     split; [reflexivity | apply same_ledger_refl]|].
  destruct (sqlite_cancel_booking_accepted db user id uuid booking Hb Hu Hs)
    as (R1 & U1 & D1 & B1).
  destruct (sqlite_cancel_booking_accepted db user id uuid' booking Hb Hu Hs)
    as (R2 & U2 & D2 & B2).
  split; [congruence|]. repeat split; congruence.
Qed.

(** X11. A notice that cannot be stored does not change the outcome of a
    booking or of a cancellation: the response of create booking, the
    users, the rides and the bookings it leaves depend on the ids drawn
    only through the booking id, and those of cancel booking do not depend
    on them at all. *)
Theorem notices_do_not_change_the_outcome
    (db : DB) (user : string) (req : BookingReq) (id : string)
    (uuid uuid' : Ids) :
  uuid 0%nat = uuid' 0%nat ->
  (snd (Sqlite.create_booking db user req uuid)
     = snd (Sqlite.create_booking db user req uuid')
   /\ same_ledger (fst (Sqlite.create_booking db user req uuid))
        (fst (Sqlite.create_booking db user req uuid')))
  /\ (snd (Sqlite.cancel_booking db user id uuid)
        = snd (Sqlite.cancel_booking db user id uuid')
      /\ same_ledger (fst (Sqlite.cancel_booking db user id uuid))
           (fst (Sqlite.cancel_booking db user id uuid'))).
Proof.
  intros E. split.
  - now apply sqlite_create_booking_notice.
  - apply sqlite_cancel_booking_notice.
Qed.

Lemma notices_do_not_change_the_outcome_witness :
  snd (Sqlite.create_booking Scenario.noted "bob" (mkBookingReq "ride-0" 1)
         (fun n => match n with O => "bk" | _ => "bye-0" end))
  = snd (Sqlite.create_booking Scenario.noted "bob" (mkBookingReq "ride-0" 1)
           (fun n => match n with O => "bk" | _ => "fresh" end)).
Proof.
  apply (notices_do_not_change_the_outcome Scenario.noted "bob"
           (mkBookingReq "ride-0" 1) "bk-ann"
           (fun n => match n with O => "bk" | _ => "bye-0" end)
           (fun n => match n with O => "bk" | _ => "fresh" end)).
  reflexivity.
Defined.

(** ** The cascade and a refused notice *)

(** X13. On the better-sqlite3 server the cascade stops at the first
    notice that is refused: when the id drawn for the first notice is
    taken, the driver's cancellation is answered 200 and the ride is
    cancelled, but no booking is cancelled and no notice is stored. *)
Theorem refused_notice_stops_the_cascade
    (db : DB) (user id : string) (req : StatusReq) (uuid : Ids) (ride : Ride)
    (b : Booking) (rest : list Booking) :
  get_ride db id = Some ride ->
  driver_id ride = user ->
  rq_status req = "cancelled" ->
  confirmed_with_passenger db id = b :: rest ->
  mem (uuid 0%nat) (map m_id (ride_messages db)) = true ->
  let out := Sqlite.update_ride_status db user id req uuid in
  snd out = (200, RideRow (Some (set_status "cancelled" ride)))
  /\ ride_bookings (fst out) = ride_bookings db
  /\ ride_messages (fst out) = ride_messages db
  /\ In b (ride_bookings (fst out))
  /\ booking_status b = "confirmed".
Proof.
  intros Hr Hu Hst Hsel Hid out.
  assert (Hout : out = (with_rides db
                          (update_where r_id id (set_status "cancelled")
                             (rides db)),
                        (200, RideRow (Some (set_status "cancelled" ride))))).
  { unfold out, Sqlite.update_ride_status. rewrite Hr.
    apply String.eqb_eq in Hu. rewrite Hu. simpl negb. cbv iota.
    rewrite Hst. simpl (_ == _). cbv iota.
    unfold Sqlite.notify_and_cancel. rewrite Hsel. simpl Sqlite.cancel_each.
    unfold insert_message at 1. simpl m_id. rewrite Hid. simpl.
    unfold update_status_where. simpl. do 3 f_equal.
    unfold get_ride. simpl.
    apply lookup_update_same; [reflexivity | exact Hr]. }
  rewrite Hout. simpl. repeat split.
  - assert (Hin : In b (confirmed_with_passenger db id))
      by (rewrite Hsel; now left).
    unfold confirmed_with_passenger in Hin. apply filter_In in Hin. tauto.
  - assert (Hin : In b (confirmed_with_passenger db id))
      by (rewrite Hsel; now left).
    unfold confirmed_with_passenger in Hin. apply filter_In in Hin.
    destruct Hin as [_ Hc]. apply andb_true_iff in Hc. destruct Hc as [Hc _].
    unfold is_confirmed_on in Hc. apply andb_true_iff in Hc.
    destruct Hc as [_ Hc]. now apply String.eqb_eq.
Qed.

Lemma refused_notice_stops_the_cascade_witness :
  ride_bookings
    (fst (Sqlite.update_ride_status Scenario.noted "driver" "ride-0"
            (mkStatusReq "cancelled" None) (Scenario.ids "bye")))
  = ride_bookings Scenario.noted.
Proof.
  destruct (refused_notice_stops_the_cascade Scenario.noted "driver" "ride-0"
              (mkStatusReq "cancelled" None) (Scenario.ids "bye")
              (Scenario.ride "available" 2)
              (Scenario.booking "bk-ann" "ann" 2 "confirmed") []
              eq_refl eq_refl eq_refl eq_refl eq_refl) as (_ & B & _).
  exact B.
Defined.

(** ** The Supabase server between its awaits *)

Lemma find_hd_filter {A : Type} (f : A -> bool) l :
  find f l = hd_error (filter f l).
Proof.
  induction l as [|x l IH]; simpl; [reflexivity|].
  destruct (f x); [reflexivity | exact IH].
Qed.

Lemma single_find {A : Type} (f : A -> bool) l x :
  Supabase.single (filter f l) = Some x -> find f l = Some x.
Proof.
  rewrite find_hd_filter. destruct (filter f l) as [|y [|z r]]; simpl;
    congruence.
Qed.

Lemma supabase_checks_passed db user req ride :
  Supabase.create_booking_checks db user req = inr ride ->
  get_ride db (rq_ride_id req) = Some ride
  /\ rq_seats_booked req <= available_seats ride.
Proof.
  unfold Supabase.create_booking_checks. cbv zeta.
  destruct (_ || _); [discriminate|].
  destruct (Supabase.select_ride db _) as [r|] eqn:Hr; [|discriminate].
  destruct (driver_id r == user); [discriminate|].
  destruct (_ <? _) eqn:Hlt; [discriminate|].
  destruct (Supabase.maybeSingle _); [discriminate|].
  intros H. injection H as <-. split.
  - unfold Supabase.select_ride in Hr. now apply single_find.
  - apply Z.ltb_ge in Hlt. lia.
Qed.

Lemma supabase_writes_accepted db user req uuid ride :
  mem (rq_ride_id req) (map r_id (rides db)) = true ->
  mem user (map u_id (users db)) = true ->
  mem (uuid 0%nat) (map b_id (ride_bookings db)) = false ->
  let booking :=
    mkBooking (uuid 0%nat) (rq_ride_id req) user (rq_seats_booked req)
      "confirmed" (price_per_seat ride * rq_seats_booked req) in
  let out := Supabase.create_booking_writes db user req uuid ride in
  snd out = (201, BookingRow (Some booking))
  /\ users (fst out) = users db
  /\ ride_bookings (fst out) = (ride_bookings db ++ [booking])%list
  /\ rides (fst out)
     = update_where r_id (rq_ride_id req)
         (set_available_seats (available_seats ride - rq_seats_booked req))
         (rides db).
Proof.
  intros Hr Hu Hf booking out. unfold out, Supabase.create_booking_writes.
  cbv zeta.
  pose proof (insert_booking_accepts db booking Hf Hr Hu eq_refl) as Hi.
  unfold booking in Hi. rewrite Hi. simpl fst. simpl snd.
  match goal with |- context [Supabase.insert_message_quiet ?d ?m] =>
    destruct (insert_message_quiet_ledger d m) as (G1 & G2 & G3) end.
  rewrite G1, G2, G3. repeat split.
Qed.

(** X14. The Supabase create booking awaits between its checks and its
    writes.  When the calls of two registered passengers for the same ride
    both pass the checks on the same database and then write one after the
    other, both are accepted and both bookings are stored, but the ride's
    counter is written from the same reading each time: it ends at the
    reading minus the seats of the second call, and the seats of the first
    are not deducted. *)
Theorem supabase_interleaved_calls_lose_a_decrement
    (db : DB) (u1 u2 : string) (req1 req2 : BookingReq) (uuid1 uuid2 : Ids)
    (ride : Ride) :
  rq_ride_id req1 = rq_ride_id req2 ->
  Supabase.create_booking_checks db u1 req1 = inr ride ->
  Supabase.create_booking_checks db u2 req2 = inr ride ->
  mem u1 (map u_id (users db)) = true ->
  mem u2 (map u_id (users db)) = true ->
  mem (uuid1 0%nat) (map b_id (ride_bookings db)) = false ->
  mem (uuid2 0%nat) (map b_id (ride_bookings db)) = false ->
  uuid1 0%nat <> uuid2 0%nat ->
  let rid := rq_ride_id req1 in
  let first := Supabase.create_booking_writes db u1 req1 uuid1 ride in
  let second :=
    Supabase.create_booking_writes (fst first) u2 req2 uuid2 ride in
  fst (snd first) = 201 /\ fst (snd second) = 201
  /\ held rid (ride_bookings (fst second))
     = held rid (ride_bookings db)
       + rq_seats_booked req1 + rq_seats_booked req2
  /\ option_map available_seats (get_ride (fst second) rid)
     = Some (available_seats ride - rq_seats_booked req2).
Proof.
  intros Hsame Hc1 Hc2 Hu1 Hu2 Hf1 Hf2 Hne rid first second.
  destruct (supabase_checks_passed db u1 req1 ride Hc1) as [Hr _].
  fold rid in Hr.
  pose proof (get_ride_mem db rid ride Hr) as Hm.
  destruct (supabase_writes_accepted db u1 req1 uuid1 ride Hm Hu1 Hf1)
    as (R1 & U1 & B1 & D1).
  fold first in R1, U1, B1, D1. fold rid in B1, D1.
  assert (Hm' : mem (rq_ride_id req2) (map r_id (rides (fst first))) = true).
  { rewrite <- Hsame. fold rid. rewrite D1.
    rewrite keys_update_where by reflexivity. exact Hm. }
  assert (Hu2' : mem u2 (map u_id (users (fst first))) = true)
    by (now rewrite U1).
  assert (Hf2' : mem (uuid2 0%nat) (map b_id (ride_bookings (fst first)))
                 = false).
  { rewrite B1, map_app, mem_app, Hf2. simpl.
    apply String.eqb_neq in Hne. now rewrite Hne. }
  destruct (supabase_writes_accepted (fst first) u2 req2 uuid2 ride Hm' Hu2'
              Hf2') as (R2 & _ & B2 & D2).
  fold second in R2, B2, D2. rewrite <- Hsame in B2, D2. fold rid in B2, D2.
  split; [now rewrite R1|]. split; [now rewrite R2|]. split.
  - rewrite B2, B1, !held_app. simpl. unfold holds_on. simpl.
    rewrite String.eqb_refl. simpl. lia.
  - unfold get_ride. rewrite D2, D1.
    rewrite (lookup_update_where r_id) by reflexivity.
    rewrite (lookup_update_where r_id) by reflexivity.
    unfold get_ride in Hr. rewrite Hr. simpl.
    destruct (lookup_some r_id rid _ ride Hr) as [_ Hid].
    rewrite Hid, String.eqb_refl. simpl. rewrite Hid, String.eqb_refl.
    reflexivity.
Qed.

Lemma supabase_interleaved_calls_lose_a_decrement_witness :
  held "ride-0"
    (ride_bookings
       (fst (Supabase.create_booking_writes
               (fst (Supabase.create_booking_writes Scenario.booked "bob"
                       (mkBookingReq "ride-0" 2) (Scenario.ids "bk-bob")
                       (Scenario.ride "available" 2)))
               "cy" (mkBookingReq "ride-0" 2) (Scenario.ids "bk-cy")
               (Scenario.ride "available" 2)))) = 6
  /\ option_map available_seats
       (get_ride
          (fst (Supabase.create_booking_writes
                  (fst (Supabase.create_booking_writes Scenario.booked "bob"
                          (mkBookingReq "ride-0" 2) (Scenario.ids "bk-bob")
                          (Scenario.ride "available" 2)))
                  "cy" (mkBookingReq "ride-0" 2) (Scenario.ids "bk-cy")
                  (Scenario.ride "available" 2)))
          "ride-0") = Some 0.
Proof.
  assert (Hne : Scenario.ids "bk-bob" 0%nat <> Scenario.ids "bk-cy" 0%nat)
    by (vm_compute; discriminate).
  destruct (supabase_interleaved_calls_lose_a_decrement Scenario.booked
              "bob" "cy" (mkBookingReq "ride-0" 2) (mkBookingReq "ride-0" 2)
              (Scenario.ids "bk-bob") (Scenario.ids "bk-cy")
              (Scenario.ride "available" 2) eq_refl eq_refl eq_refl eq_refl
              eq_refl eq_refl eq_refl Hne) as (_ & _ & H & A).
  split; [exact H | exact A].
Defined.

(** ** The two servers on a booking *)





(** ** What the cancellation notice tells the driver *)



(** ** The Supabase routes on the scenario *)

Lemma supabase_cancel_ride_cascade_witness :
  In (Scenario.booking "bk-ann" "ann" 2 "cancelled")
    (ride_bookings
       (fst (Supabase.update_ride_status Scenario.booked "driver" "ride-0"
               (mkStatusReq "cancelled" None) (Scenario.ids "bye")))).
Proof.
  destruct (supabase_cancel_ride_cascade Scenario.booked "driver" "ride-0"
              (mkStatusReq "cancelled" None) (Scenario.ids "bye")
              (Scenario.ride "available" 2) eq_refl eq_refl eq_refl)
    as (_ & H & _).
  apply (H (Scenario.booking "bk-ann" "ann" 2 "confirmed"));
    [left; reflexivity | reflexivity].
Defined.

Lemma supabase_create_booking_first_failure_wins_witness :
  Supabase.create_booking Scenario.booked "driver" (mkBookingReq "ride-0" 3)
    (Scenario.ids "bk")
  = (Scenario.booked, (400, Msg "Cannot book your own ride")).
Proof.
  assert (H1 : rq_ride_id (mkBookingReq "ride-0" 3) <> EmptyString)
    by (simpl; discriminate).
  assert (H2 : rq_seats_booked (mkBookingReq "ride-0" 3) <> 0)
    by (simpl; lia).
  assert (ND : NoDup (map r_id (rides Scenario.booked)))
    by (simpl; constructor; [intros [] | constructor]).
  assert (Hone : (List.length
                    (filter (is_booking_of
                               (rq_ride_id (mkBookingReq "ride-0" 3))
                               "driver" "cancelled")
                       (ride_bookings Scenario.booked)) <= 1)%nat)
    by (simpl; lia).
  exact (proj1 (supabase_create_booking_first_failure_wins Scenario.booked
                  "driver" (mkBookingReq "ride-0" 3) (Scenario.ids "bk")
                  H1 H2 ND Hone)).
Defined.

Lemma supabase_owner_sets_status_witness :
  snd (Supabase.update_ride_status Scenario.called_off "driver" "ride-0"
         (mkStatusReq "active" None) (Scenario.ids "m"))
  = (200, RideRow (Some (Scenario.ride "active" 2))).
Proof.
  exact (proj2 (supabase_owner_sets_status Scenario.called_off "driver"
                  "ride-0" (mkStatusReq "active" None) (Scenario.ids "m")
                  (Scenario.ride "cancelled" 2) eq_refl eq_refl eq_refl)).
Defined.

(** ** Create ride *)

(** X18. Create ride: a request without one of the required texts, with
    no seats or with a price of 0 is refused with 400; a vehicle type
    other than bike, car, cab and suv fails with 500; in both cases nothing
    changes.  Otherwise, for a registered driver and an unused id, the ride
    is stored last in the table as available, with the requested
    [available_seats] or, when that is omitted or 0, with [total_seats];
    it is found under its id and the other rides are found as before. *)
Theorem create_ride_publishes
    (db : DB) (user : string) (req : RideReq) (uuid : Ids) :
  let out := Sqlite.create_ride db user req uuid in
  let ride :=
    mkRide (uuid 0%nat) user (rq_pickup_address req) (rq_drop_address req)
      (rq_pickup_time req) (rq_total_seats req)
      (match rq_available_seats req with
       | Some 0 => rq_total_seats req
       | Some a => a
       | None => rq_total_seats req
       end)
      (rq_vehicle_type req) (rq_price_per_seat req)
      (truthy (rq_description req)) "available" in
  let complete :=
    rq_pickup_address req <> EmptyString
    /\ rq_drop_address req <> EmptyString
    /\ rq_pickup_time req <> EmptyString
    /\ rq_total_seats req <> 0
    /\ rq_vehicle_type req <> EmptyString
    /\ rq_price_per_seat req <> 0 in
  (~ complete -> out = (db, (400, Msg "Missing required fields")))
  /\ (complete -> mem (rq_vehicle_type req) vehicle_types = false ->
        out = (db, (500, Msg "Failed to create ride")))
  /\ (complete -> mem (rq_vehicle_type req) vehicle_types = true ->
        mem user (map u_id (users db)) = true ->
        mem (uuid 0%nat) (map r_id (rides db)) = false ->
        out = (with_rides db (rides db ++ [ride]), (201, RideRow (Some ride)))
        /\ get_ride (fst out) (uuid 0%nat) = Some ride
        /\ forall id, id <> uuid 0%nat ->
                      get_ride (fst out) id = get_ride db id).
Proof.
  intros out ride complete.
  assert (Hc : falsy_str (rq_pickup_address req)
               || falsy_str (rq_drop_address req)
               || falsy_str (rq_pickup_time req)
               || falsy_num (rq_total_seats req)
               || falsy_str (rq_vehicle_type req)
               || falsy_num (rq_price_per_seat req) = false <-> complete).
  { unfold complete, falsy_str, falsy_num.
    rewrite !orb_false_iff, !String.eqb_neq, !Z.eqb_neq. tauto. }
  assert (Hride : forall st,
            mkRide (uuid 0%nat) user (rq_pickup_address req)
              (rq_drop_address req) (rq_pickup_time req) (rq_total_seats req)
              (num_or (rq_available_seats req) (rq_total_seats req))
              (rq_vehicle_type req) (rq_price_per_seat req)
              (truthy (rq_description req)) st
            = set_status st ride).
  { intros st. unfold ride, set_status, num_or, falsy_num. simpl.
    f_equal. destruct (rq_available_seats req) as [[| |]|]; reflexivity. }
  split; [|split].
  - intros Hn. unfold out, Sqlite.create_ride.
    destruct (_ || _) eqn:E; [reflexivity|].
    exfalso. apply Hn. now apply Hc.
  - intros Hok Hv. unfold out, Sqlite.create_ride.
    apply Hc in Hok. rewrite Hok. cbv zeta. unfold insert_ride.
    cbn [r_id driver_id vehicle_type status]. rewrite Hv.
    now rewrite !andb_false_r.
  - intros Hok Hv Hu Hf.
    assert (Hn : lookup r_id (uuid 0%nat) (rides db) = None)
      by (now apply lookup_none).
    assert (Hout : out = (with_rides db (rides db ++ [ride]),
                          (201, RideRow (Some ride)))).
    { unfold out, Sqlite.create_ride. apply Hc in Hok. rewrite Hok.
      cbv zeta. rewrite (Hride "available"). unfold insert_ride.
      cbn [r_id driver_id vehicle_type status set_status]. unfold ride at 1 2 3.
      cbn [r_id driver_id vehicle_type status]. rewrite Hf, Hu, Hv.
      simpl (mem "available" ride_statuses). cbn [negb andb]. cbv iota.
      assert (Hs : set_status "available" ride = ride) by reflexivity.
      rewrite Hs. do 3 f_equal. unfold get_ride. simpl rides.
      rewrite lookup_app, Hn. unfold lookup. simpl.
      now rewrite String.eqb_refl. }
    split; [exact Hout|]. rewrite Hout. simpl fst. unfold get_ride. simpl.
    split.
    + rewrite lookup_app, Hn. unfold lookup. simpl.
      now rewrite String.eqb_refl.
    + intros id Hne. rewrite lookup_app.
      destruct (lookup r_id id (rides db)); [reflexivity|].
      unfold lookup. simpl. apply not_eq_sym in Hne.
      apply String.eqb_neq in Hne. now rewrite Hne.
Qed.

Lemma create_ride_publishes_witness :
  get_ride
    (fst (Sqlite.create_ride (opening Scenario.people) "driver"
            (mkRideReq "Pune" "Mumbai" "2026-01-05T09:00" 4 (Some 0) "car"
               100 None) (Scenario.ids "ride"))) "ride-0"
  = Some (Scenario.ride "available" 4)
  /\ Sqlite.create_ride (opening Scenario.people) "driver"
       (mkRideReq "Pune" "Mumbai" "2026-01-05T09:00" 4 None "car" 0 None)
       (Scenario.ids "ride")
     = (opening Scenario.people, (400, Msg "Missing required fields")).
Proof.
  split.
  - destruct (proj2 (proj2 (create_ride_publishes (opening Scenario.people)
                              "driver"
                              (mkRideReq "Pune" "Mumbai" "2026-01-05T09:00" 4
                                 (Some 0) "car" 100 None)
                              (Scenario.ids "ride")))) as (_ & G & _).
    + simpl. repeat split; try discriminate; lia.
    + reflexivity.
    + reflexivity.
    + reflexivity.
    + exact G.
  - apply (proj1 (create_ride_publishes (opening Scenario.people) "driver"
                    (mkRideReq "Pune" "Mumbai" "2026-01-05T09:00" 4 None
                       "car" 0 None) (Scenario.ids "ride"))).
    simpl. intros (_ & _ & _ & _ & _ & H). apply H. reflexivity.
Defined.

(** ** The bearer token *)

Lemma split_whole sep s :
  occurs sep s = false -> SupabaseRoutes.split sep s = [s].
Proof.
  induction s as [|c s IH]; simpl; intros H; [reflexivity|].
  apply orb_false_iff in H. destruct H as [H1 H2].
  rewrite H1, (IH H2). reflexivity.
Qed.

Lemma split_first sep a b :
  occurs sep a = false ->
  SupabaseRoutes.split sep (a ++ String sep b)
  = a :: SupabaseRoutes.split sep b.
Proof.
  induction a as [|c a IH]; simpl; intros H.
  - now rewrite Ascii.eqb_refl.
  - apply orb_false_iff in H. destruct H as [H1 H2].
    rewrite H1, (IH H2). reflexivity.
Qed.

(** X19. The token middleware of the Supabase server: without a header,
    or with a header that has no space, the request is refused with 401.
    For a header made of a first word, one space and a token without
    spaces, the token alone decides: an empty token gives 401, a token that
    [jwt.verify] rejects gives 403, and otherwise the route runs as the
    user of the token; the first word is not looked at.  No request goes
    on as a user unless [jwt.verify] gave that user for some token. *)
Theorem authenticateToken_outcomes (verify : string -> option string) :
  SupabaseRoutes.authenticateToken verify None
    = inl (401, Msg "Access token required")
  /\ (forall h, occurs " " h = false ->
        SupabaseRoutes.authenticateToken verify (Some h)
        = inl (401, Msg "Access token required"))
  /\ (forall scheme token,
        occurs " " scheme = false -> occurs " " token = false ->
        SupabaseRoutes.authenticateToken verify
          (Some (scheme ++ String " " token))
        = if falsy_str token
          then inl (401, Msg "Access token required")
          else match verify token with
               | Some userId => inr userId
               | None => inl (403, Msg "Invalid or expired token")
               end)
  /\ (forall h userId,
        SupabaseRoutes.authenticateToken verify h = inr userId ->
        exists token, verify token = Some userId).
Proof.
  split; [reflexivity|]. split; [|split].
  - intros h Hh. unfold SupabaseRoutes.authenticateToken, SupabaseRoutes.bearer.
    destruct (falsy_str h) eqn:E; [now rewrite E|].
    now rewrite (split_whole " " h Hh).
  - intros scheme token Hs Ht.
    unfold SupabaseRoutes.authenticateToken, SupabaseRoutes.bearer.
    assert (E : falsy_str (scheme ++ String " " token) = false).
    { unfold falsy_str. destruct scheme; reflexivity. }
    rewrite E, (split_first " " scheme token Hs), (split_whole " " token Ht).
    reflexivity.
  - intros h userId. unfold SupabaseRoutes.authenticateToken.
    destruct (SupabaseRoutes.bearer h) as [token|]; [|discriminate].
    destruct (falsy_str token); [discriminate|].
    destruct (verify token) as [u|] eqn:E; [|discriminate].
    intros H. injection H as <-. eauto.
Qed.

Lemma authenticateToken_outcomes_witness :
  SupabaseRoutes.authenticateToken
    (fun t => if t == "t0k" then Some "ann" else None) (Some "Basic t0k")
  = inr "ann"
  /\ SupabaseRoutes.authenticateToken
       (fun t => if t == "t0k" then Some "ann" else None) (Some "t0k")
     = inl (401, Msg "Access token required").
Proof.
  split.
  - apply (proj1 (proj2 (proj2 (authenticateToken_outcomes
                                  (fun t => if t == "t0k" then Some "ann"
                                            else None))))
             "Basic" "t0k"); reflexivity.
  - apply (proj1 (proj2 (authenticateToken_outcomes
                           (fun t => if t == "t0k" then Some "ann"
                                     else None))) "t0k").
    reflexivity.
Defined.

(** ** The contact form *)

Lemma replace_newlines_app a b :
  Contact.replace_newlines (a ++ b)
  = Contact.replace_newlines a ++ Contact.replace_newlines b.
Proof.
  induction a as [|c a IH]; simpl; [reflexivity|].
  destruct (Ascii.eqb c "010"); simpl; now rewrite IH.
Qed.

(** X20. Replacing the line feeds of the message by [<br>]: the result
    has no line feed, a message without line feed is left as it is (nothing
    else is rewritten or escaped), and the replacement goes through
    concatenation. *)
Theorem replace_newlines_spec (a b : string) :
  occurs "010" (Contact.replace_newlines a) = false
  /\ (occurs "010" a = false -> Contact.replace_newlines a = a)
  /\ Contact.replace_newlines (a ++ String "010" b)
     = Contact.replace_newlines a ++ "<br>" ++ Contact.replace_newlines b.
Proof.
  split; [|split].
  - induction a as [|c a IH]; simpl; [reflexivity|].
    destruct (Ascii.eqb c "010") eqn:E; simpl; [exact IH|].
    now rewrite E.
  - induction a as [|c a IH]; simpl; intros H; [reflexivity|].
    apply orb_false_iff in H. destruct H as [H1 H2].
    rewrite H1, (IH H2). reflexivity.
  - rewrite replace_newlines_app. reflexivity.
Qed.

Lemma replace_newlines_spec_witness :
  Contact.replace_newlines "Hello <b>there</b>" = "Hello <b>there</b>".
Proof.
  apply (proj1 (proj2 (replace_newlines_spec "Hello <b>there</b>"
                         EmptyString))).
  reflexivity.
Defined.

(** X21. The contact form: with a field missing nothing is sent and the
    answer is 400.  Otherwise the submission goes first, to the address of
    the environment or else to support@poolo.in, with replies directed to
    the sender; when the transporter refuses it, nothing is sent and the
    answer is 500.  Once it is accepted the answer is 200 whether or not
    the auto-reply to the sender is accepted. *)
Theorem contact_form_outcomes
    (env : Contact.Env) (sendMail : Contact.Mail -> bool)
    (form : Contact.Form) :
  let out := Contact.post env sendMail form in
  let complete :=
    Contact.f_name form <> EmptyString
    /\ Contact.f_email form <> EmptyString
    /\ Contact.f_subject form <> EmptyString
    /\ Contact.f_message form <> EmptyString in
  (~ complete -> out = ([], (400, Msg "All fields are required")))
  /\ (complete ->
        exists submission autoReply,
          is_submission submission = true
          /\ recipient submission = Contact.receiverEmail env
          /\ reply_to submission = Some (Contact.f_email form)
          /\ is_submission autoReply = false
          /\ recipient autoReply = Contact.f_email form
          /\ (sendMail submission = false ->
                out = ([], (500, Msg
                  "Failed to send message. Please try again later.")))
          /\ (sendMail submission = true ->
                snd out = (200, Msg "Message sent successfully")
                /\ fst out
                   = submission
                     :: (if sendMail autoReply then [autoReply] else []))).
Proof.
  intros out complete.
  assert (Hc : falsy_str (Contact.f_name form)
               || falsy_str (Contact.f_email form)
               || falsy_str (Contact.f_subject form)
               || falsy_str (Contact.f_message form) = false <-> complete).
  { unfold complete, falsy_str.
    rewrite !orb_false_iff, !String.eqb_neq. tauto. }
  split.
  - intros Hn. unfold out, Contact.post.
    destruct (_ || _) eqn:E; [reflexivity|].
    exfalso. apply Hn. now apply Hc.
  - intros Hok. apply Hc in Hok. unfold out, Contact.post. rewrite Hok.
    cbv zeta.
    exists (Contact.Submission (Contact.SMTP_USER env)
              (Contact.receiverEmail env) (Contact.f_email form)
              ("[Poolo Contact] " ++ Contact.f_subject form)
              (Contact.f_name form) (Contact.f_email form)
              (Contact.replace_newlines (Contact.f_message form))
              (Contact.f_message form)),
           (Contact.AutoReply (Contact.SMTP_USER env) (Contact.f_email form)
              (Contact.f_name form)
              (Contact.replace_newlines (Contact.f_message form))).
    split; [reflexivity|]. split; [reflexivity|]. split; [reflexivity|].
    split; [reflexivity|]. split; [reflexivity|]. split.
    + intros Hs. now rewrite Hs.
    + intros Hs. rewrite Hs.
      match goal with |- context [if sendMail ?m then _ else _] =>
        destruct (sendMail m) end; split; reflexivity.
Qed.

Lemma contact_form_outcomes_witness :
  Contact.post (Contact.mkEnv None None) (fun _ => true)
    (Contact.mkForm "Ann" EmptyString "Hi" "Hello")
  = ([], (400, Msg "All fields are required")).
Proof.
  apply (proj1 (contact_form_outcomes (Contact.mkEnv None None)
                  (fun _ => true)
                  (Contact.mkForm "Ann" EmptyString "Hi" "Hello"))).
  simpl. intros (_ & H & _). apply H. reflexivity.
Defined.

(** ** Who removes a ride *)

(** X22. On both servers, on a table with unique ride ids, a delete
    request removes a ride only when the requester is its driver and the id
    is the ride's; on the better-sqlite3 server it leaves users, bookings
    and messages as they are. *)
Theorem only_the_driver_removes_a_ride
    (db : DB) (user id : string) (r : Ride) :
  NoDup (map r_id (rides db)) ->
  In r (rides db) ->
  let sqlite := fst (SqliteRoutes.delete_ride db user id) in
  let supabase := fst (SupabaseRoutes.delete_ride db user id) in
  (users sqlite = users db /\ ride_bookings sqlite = ride_bookings db
   /\ ride_messages sqlite = ride_messages db
   /\ (~ In r (rides sqlite) -> r_id r = id /\ driver_id r = user))
  /\ (~ In r (rides supabase) -> r_id r = id /\ driver_id r = user).
Proof.
  intros ND Hin sqlite supabase.
  assert (Hcore : forall ride db',
            get_ride db id = Some ride ->
            (driver_id ride == user) = true ->
            delete_ride_where db id = Some db' ->
            users db' = users db /\ ride_bookings db' = ride_bookings db
            /\ ride_messages db' = ride_messages db
            /\ (~ In r (rides db') -> r_id r = id /\ driver_id r = user)).
  { intros ride db' Hg Hu Hd.
    apply delete_ride_where_some in Hd. destruct Hd as [-> _].
    split; [reflexivity|]. split; [reflexivity|]. split; [reflexivity|].
    simpl. intros Hout.
    assert (Hid : r_id r = id).
    { destruct (String.eqb_spec (r_id r) id) as [E|E]; [exact E|].
      exfalso. apply Hout. apply filter_In. split; [exact Hin|].
      apply negb_true_iff. now apply String.eqb_neq. }
    split; [exact Hid|].
    assert (r = ride).
    { apply (unique_row r_id id (rides db) ride r ND Hg Hin Hid). }
    subst r. now apply String.eqb_eq. }
  assert (Hsame : users db = users db /\ ride_bookings db = ride_bookings db
                  /\ ride_messages db = ride_messages db
                  /\ (~ In r (rides db) -> r_id r = id /\ driver_id r = user)).
  { split; [reflexivity|]. split; [reflexivity|]. split; [reflexivity|].
    intros H. contradiction. }
  split.
  - unfold sqlite, SqliteRoutes.delete_ride.
    destruct (get_ride db id) as [ride|] eqn:Hg; [|exact Hsame].
    destruct (driver_id ride == user) eqn:Hu; simpl negb; cbv iota;
      [|exact Hsame].
    destruct (delete_ride_where db id) as [db'|] eqn:Hd; [|exact Hsame].
    now apply (Hcore ride).
  - unfold supabase, SupabaseRoutes.delete_ride, Supabase.select_ride.
    rewrite (single_lookup r_id _ _ ND). fold (get_ride db id).
    destruct (get_ride db id) as [ride|] eqn:Hg; [|apply Hsame].
    destruct (driver_id ride == user) eqn:Hu; simpl negb; cbv iota;
      [|apply Hsame].
    destruct (delete_ride_where db id) as [db'|] eqn:Hd; [|apply Hsame].
    now apply (Hcore ride).
Qed.

Lemma only_the_driver_removes_a_ride_witness :
  users (fst (SqliteRoutes.delete_ride Scenario.fresh "driver" "ride-0"))
  = Scenario.people
  /\ rides (fst (SqliteRoutes.delete_ride Scenario.fresh "driver" "ride-0"))
     = [].
Proof.
  assert (ND : NoDup (map r_id (rides Scenario.fresh)))
    by (simpl; constructor; [intros [] | constructor]).
  destruct (only_the_driver_removes_a_ride Scenario.fresh "driver" "ride-0"
              (Scenario.ride "available" 4) ND (or_introl eq_refl))
    as ((U & _) & _).
  split; [exact U | reflexivity].
Defined.


(** ** The arithmetic of doubles on whole numbers *)

Lemma scale_pos : 0 < Double.scale.
Proof. reflexivity. Qed.

Lemma half_even_mul c b : 0 < b -> Double.half_even (c * b) b = c.
Proof.
  intros Hb. unfold Double.half_even.
  rewrite Z.div_mul, Z.mod_mul by lia. simpl.
  destruct (Z.ltb_spec 0 b); [reflexivity | lia].
Qed.

Lemma half_even_scale a b d :
  0 < b -> 0 < d -> Double.half_even (a * d) (b * d) = Double.half_even a b.
Proof.
  intros Hb Hd. unfold Double.half_even.
  rewrite Z.div_mul_cancel_r, Z.mul_mod_distr_r by lia.
  pose proof (Z.mod_pos_bound a b Hb) as Hr.
  destruct (Z.ltb_spec (2 * (a mod b)) b),
    (Z.ltb_spec (2 * (a mod b * d)) (b * d)); try nia; try reflexivity.
  destruct (Z.ltb_spec b (2 * (a mod b))),
    (Z.ltb_spec (b * d) (2 * (a mod b * d))); try nia; reflexivity.
Qed.

Lemma magnitude_whole v e :
  0 <= v <= 2 ^ 53 -> 0 <= e ->
  Double.magnitude (v * 2 ^ e) 1 = v * 2 ^ e.
Proof.
  intros Hv He. unfold Double.magnitude. rewrite Z.div_1_r.
  assert (Hp : 0 < 2 ^ e) by (apply Z.pow_pos_nonneg; lia).
  destruct (Z.leb_spec (Z.log2 (v * 2 ^ e) - 52) 0) as [Hs|Hs].
  - rewrite <- (Z.mul_1_r (v * 2 ^ e)) at 1. apply half_even_mul. lia.
  - assert (H0 : 0 < v).
    { destruct (Z.eq_dec v 0) as [->|]; [|lia]. simpl in Hs. lia. }
    rewrite Z.log2_mul_pow2 in * by lia.
    set (L := Z.log2 v) in *. rewrite Z.mul_1_l.
    assert (HL : 0 <= L) by apply Z.log2_nonneg.
    assert (Hs0 : 0 < 2 ^ (e + L - 52)) by (apply Z.pow_pos_nonneg; lia).
    destruct (Z.le_gt_cases L 52) as [Hle|Hgt].
    + replace (v * 2 ^ e) with (v * 2 ^ (52 - L) * 2 ^ (e + L - 52)).
      * rewrite half_even_mul by exact Hs0. reflexivity.
      * rewrite <- Z.mul_assoc, <- Z.pow_add_r by lia. f_equal. f_equal. lia.
    + assert (L <= 53).
      { unfold L. change 53 with (Z.log2 (2 ^ 53)).
        apply Z.log2_le_mono. lia. }
      assert (HL53 : L = 53) by lia.
      assert (2 ^ L <= v) by (apply Z.log2_spec; lia).
      rewrite HL53 in *.
      assert (v = 2 ^ 53) by lia. subst v.
      replace (e + 53 - 52) with (e + 1) in * by lia.
      replace (2 ^ 53 * 2 ^ e) with (2 ^ 52 * 2 ^ (e + 1)).
      * rewrite half_even_mul by exact Hs0. reflexivity.
      * rewrite (Z.pow_add_r 2 e 1) by lia.
        change (2 ^ 53) with (2 ^ 52 * 2). change (2 ^ 1) with 2. lia.
Qed.

Lemma nearest_whole v :
  Z.abs v <= Double.safe ->
  Double.nearest (v * Double.scale) 1 = Double.of_whole v.
Proof.
  intros Hv. unfold Double.nearest, Double.of_whole.
  pose proof scale_pos as Hs.
  rewrite Z.abs_mul, (Z.abs_eq Double.scale) by lia.
  assert (Hm : Double.magnitude (Z.abs v * Double.scale) 1
               = Z.abs v * Double.scale).
  { unfold Double.scale. apply magnitude_whole; [|lia].
    split; [apply Z.abs_nonneg | exact Hv]. }
  rewrite Hm.
  assert (Hb : Z.abs v * Double.scale < 2 ^ 2098).
  { apply Z.le_lt_trans with (Double.safe * Double.scale).
    - apply Z.mul_le_mono_nonneg_r; lia.
    - reflexivity. }
  destruct (Z.leb_spec (2 ^ 2098) (Z.abs v * Double.scale)); [lia|].
  f_equal. rewrite Z.sgn_mul, (Z.sgn_pos Double.scale) by lia.
  rewrite Z.mul_1_r, Z.mul_assoc. f_equal.
  rewrite Z.mul_comm. apply Z.abs_sgn.
Qed.

Lemma nearest_cancel n d :
  0 < d -> Double.nearest (n * d) d = Double.nearest n 1.
Proof.
  intros Hd. unfold Double.nearest.
  rewrite Z.abs_mul, (Z.abs_eq d) by lia.
  assert (Hm : Double.magnitude (Z.abs n * d) d
               = Double.magnitude (Z.abs n) 1).
  { unfold Double.magnitude. rewrite Z.div_mul, Z.div_1_r by lia.
    destruct (Z.leb_spec (Z.log2 (Z.abs n) - 52) 0) as [Hs|Hs].
    - rewrite <- (Z.mul_1_l d) at 2. apply half_even_scale; lia.
    - f_equal. rewrite (Z.mul_comm d), Z.mul_1_l.
      apply half_even_scale; [|exact Hd]. apply Z.pow_pos_nonneg; lia. }
  rewrite Hm. replace (n * d <? 0) with (n <? 0).
  - rewrite Z.sgn_mul, (Z.sgn_pos d), Z.mul_1_r by lia. reflexivity.
  - destruct (Z.ltb_spec n 0), (Z.ltb_spec (n * d) 0); try reflexivity; nia.
Qed.

Lemma count_of_whole v : Double.count (Double.of_whole v) = v.
Proof.
  unfold Double.count, Double.of_whole. apply Z.div_mul.
  pose proof scale_pos. lia.
Qed.

Lemma whole_of_whole v : Double.whole (Double.of_whole v).
Proof. unfold Double.whole. now rewrite count_of_whole. Qed.

Lemma add_whole a b :
  Z.abs (a + b) <= Double.safe ->
  Double.add (Double.of_whole a) (Double.of_whole b) = Double.of_whole (a + b).
Proof.
  intros H. unfold Double.add, Double.of_whole at 1 2.
  rewrite <- Z.mul_add_distr_r. now apply nearest_whole.
Qed.

Lemma sub_whole a b :
  Z.abs (a - b) <= Double.safe ->
  Double.sub (Double.of_whole a) (Double.of_whole b) = Double.of_whole (a - b).
Proof.
  intros H. unfold Double.sub, Double.neg, Double.of_whole at 2.
  rewrite <- Z.mul_opp_l. fold (Double.of_whole (- b)).
  rewrite add_whole; [f_equal; lia|].
  replace (a + - b) with (a - b) by lia. exact H.
Qed.

Lemma mul_whole a b :
  Z.abs (a * b) <= Double.safe ->
  Double.mul (Double.of_whole a) (Double.of_whole b) = Double.of_whole (a * b).
Proof.
  intros H. unfold Double.mul, Double.of_whole at 1 2.
  replace (a * Double.scale * (b * Double.scale))
    with (a * b * Double.scale * Double.scale) by ring.
  rewrite nearest_cancel by apply scale_pos. now apply nearest_whole.
Qed.

Lemma lt_whole a b :
  Double.lt (Double.of_whole a) (Double.of_whole b) = (a <? b).
Proof.
  unfold Double.lt, Double.of_whole. pose proof scale_pos.
  destruct (Z.ltb_spec (a * Double.scale) (b * Double.scale)),
    (Z.ltb_spec a b); try reflexivity; nia.
Qed.

Lemma le_whole a b :
  Double.le (Double.of_whole a) (Double.of_whole b) <-> a <= b.
Proof.
  unfold Double.le, Double.of_whole. pose proof scale_pos. split; nia.
Qed.

Lemma falsy_whole v : Double.falsy (Double.of_whole v) = (v =? 0).
Proof.
  unfold Double.falsy, Double.of_whole. pose proof scale_pos.
  destruct (Z.eqb_spec (v * Double.scale) 0), (Z.eqb_spec v 0);
    try reflexivity; nia.
Qed.

Lemma add_whole_numbers x y :
  Double.whole x -> Double.whole y ->
  Z.abs (Double.count x + Double.count y) <= Double.safe ->
  Double.add x y = Double.of_whole (Double.count x + Double.count y).
Proof.
  unfold Double.whole. intros Hx Hy H.
  rewrite Hx, Hy, !count_of_whole. now apply add_whole.
Qed.

Lemma sub_whole_numbers x y :
  Double.whole x -> Double.whole y ->
  Z.abs (Double.count x - Double.count y) <= Double.safe ->
  Double.sub x y = Double.of_whole (Double.count x - Double.count y).
Proof.
  unfold Double.whole. intros Hx Hy H.
  rewrite Hx, Hy, !count_of_whole. now apply sub_whole.
Qed.

Lemma lt_whole_numbers x y :
  Double.whole x -> Double.whole y ->
  Double.lt x y = (Double.count x <? Double.count y).
Proof.
  unfold Double.whole. intros Hx Hy.
  rewrite Hx, Hy, !count_of_whole. apply lt_whole.
Qed.

Lemma falsy_is_number x : Double.falsy x = false -> Double.is_number x = true.
Proof. destruct x; simpl; congruence. Qed.

(** The arithmetic against results that are known: 0.9 - 0.3 is
    0.6000000000000001 and not 0.6; 0.1 * 3 is 0.30000000000000004;
    (2^53 - 1) * 3 is 27021597764222972; 1e19 - 1 is 1e19;
    2^64 + 12288, less 6144, plus 6144, is 2^64 + 16384; 1e308 * 10 is
    infinite, and infinity less infinity is no number. *)
Example double_arithmetic :
  Double.sub (Double.decimal 9 10) (Double.decimal 3 10)
  = Double.decimal 6000000000000001 (10 ^ 16)
  /\ Double.sub (Double.decimal 9 10) (Double.decimal 3 10)
     <> Double.decimal 6 10
  /\ Double.mul (Double.decimal 1 10) (Double.of_whole 3)
     = Double.decimal 30000000000000004 (10 ^ 17)
  /\ Double.mul (Double.of_whole (2 ^ 53 - 1)) (Double.of_whole 3)
     = Double.of_whole 27021597764222972
  /\ Double.sub (Double.of_whole (10 ^ 19)) (Double.of_whole 1)
     = Double.of_whole (10 ^ 19)
  /\ Double.add
       (Double.sub (Double.of_whole (2 ^ 64 + 12288)) (Double.of_whole 6144))
       (Double.of_whole 6144)
     = Double.of_whole (2 ^ 64 + 16384)
  /\ Double.mul (Double.decimal (10 ^ 308) 1) (Double.of_whole 10)
     = Double.Infinite false
  /\ Double.sub (Double.Infinite false) (Double.Infinite false) = Double.NaN.
Proof.
  split; [vm_compute; reflexivity|].
  split; [vm_compute; discriminate|].
  split; [vm_compute; reflexivity|].
  split; [vm_compute; reflexivity|].
  split; [vm_compute; reflexivity|].
  split; [vm_compute; reflexivity|].
  split; vm_compute; reflexivity.
Qed.

(** ** The ledger over the values of the store *)

Section StoredLedger.
Import Stored.

Lemma stored_insert_message_some db m db' :
  insert_message db m = Some db' ->
  db' = with_messages db (ride_messages db ++ [m]).
Proof. unfold insert_message. destruct (_ && _); congruence. Qed.

Lemma stored_insert_booking_some db b db' :
  insert_booking db b = Some db' ->
  db' = with_bookings db (ride_bookings db ++ [b]).
Proof. unfold insert_booking. destruct (_ && _); congruence. Qed.

Lemma stored_insert_ride_some db r db' :
  insert_ride db r = Some db' ->
  db' = with_rides db (rides db ++ [r]).
Proof. unfold insert_ride. destruct (_ && _); congruence. Qed.

Lemma stored_update_available_seats_some db f id db' :
  update_available_seats db f id = Some db' ->
  db' = with_rides db
          (update_where r_id id
             (fun r => set_available_seats (f (available_seats r)) r)
             (rides db)).
Proof. unfold update_available_seats. destruct (forallb _ _); congruence. Qed.

Lemma stored_update_available_seats_accepts db f id :
  (forall r, In r (rides db) -> r_id r = id ->
             Double.is_number (f (available_seats r)) = true) ->
  update_available_seats db f id
  = Some (with_rides db
            (update_where r_id id
               (fun r => set_available_seats (f (available_seats r)) r)
               (rides db))).
Proof.
  intros H. unfold update_available_seats.
  replace (forallb _ (rides db)) with true; [reflexivity|].
  symmetry. apply forallb_forall. intros r Hin.
  destruct (String.eqb_spec (r_id r) id) as [E|E]; simpl; [|reflexivity].
  now apply H.
Qed.

Lemma stored_notify_booked_tables db user ride rid seats price mid :
  same_tables db (notify_booked db user ride rid seats price mid).
Proof.
  unfold notify_booked. cbv zeta.
  destruct (insert_message db _) as [db'|] eqn:E; [|repeat split].
  apply stored_insert_message_some in E. subst db'. repeat split.
Qed.

Lemma stored_notify_cancelled_tables db user b mid :
  same_tables db (notify_cancelled db user b mid).
Proof.
  unfold notify_cancelled.
  destruct (get_ride db _) as [ride|]; [|repeat split]. cbv zeta.
  destruct (insert_message db _) as [db'|] eqn:E; [|repeat split].
  apply stored_insert_message_some in E. subst db'. repeat split.
Qed.

Lemma stored_get_ride_mem db id ride :
  get_ride db id = Some ride -> mem id (map r_id (rides db)) = true.
Proof.
  intros H. apply (lookup_some r_id) in H. destruct H as [Hin <-].
  apply mem_In. now apply in_map.
Qed.

Lemma truthy_some s : s <> EmptyString -> truthy (Some s) = Some s.
Proof.
  intros H. unfold truthy, falsy_str. apply String.eqb_neq in H.
  now rewrite H.
Qed.

Lemma given_some x : Double.falsy x = false -> given (Some x) = Some x.
Proof. intros H. unfold given. now rewrite H. Qed.

(** ** Create booking: the effect *)

Lemma stored_create_booking_accepted
    db user rid seats uuid ride :
  NoDup (map r_id (rides db)) ->
  rid <> EmptyString ->
  Double.falsy seats = false ->
  get_ride db rid = Some ride ->
  driver_id ride <> user ->
  Double.lt (available_seats ride) seats = false ->
  get_booking_of db rid user "cancelled" = None ->
  mem user (map u_id (users db)) = true ->
  mem (uuid 0%nat) (map b_id (ride_bookings db)) = false ->
  Double.is_number (Double.mul (price_per_seat ride) seats) = true ->
  Double.is_number (Double.sub (available_seats ride) seats) = true ->
  let booking :=
    mkBooking (uuid 0%nat) rid user seats (Some "confirmed")
      (Double.mul (price_per_seat ride) seats) in
  let out :=
    create_booking db user (mkBookingReq (Some rid) (Some seats)) uuid in
  snd out = (201, BookingRow (Some booking))
  /\ users (fst out) = users db
  /\ ride_bookings (fst out) = (ride_bookings db ++ [booking])%list
  /\ rides (fst out)
     = update_where r_id rid
         (set_available_seats (Double.sub (available_seats ride) seats))
         (rides db).
Proof.
  intros ND Hrid Hseats Hr Hu Hlt Hex Huser Hfresh Hprice Hleft booking out.
  assert (Hins : insert_booking db booking
                 = Some (with_bookings db (ride_bookings db ++ [booking]))).
  { unfold insert_booking. simpl b_id. simpl ride_id. simpl passenger_id.
    rewrite Hfresh, (stored_get_ride_mem db rid ride Hr), Huser.
    simpl seats_booked. simpl total_price.
    rewrite (falsy_is_number seats Hseats), Hprice. reflexivity. }
  set (db1 := with_bookings db (ride_bookings db ++ [booking])) in *.
  assert (Hsame : forall r, In r (rides db1) -> r_id r = rid -> r = ride).
  { intros r Hin E. apply (unique_row r_id rid (rides db)); assumption. }
  assert (Hupd : sub_available_seats db1 seats rid
                 = Some (with_rides db1
                           (update_where r_id rid
                              (set_available_seats
                                 (Double.sub (available_seats ride) seats))
                              (rides db)))).
  { unfold sub_available_seats.
    rewrite stored_update_available_seats_accepts.
    - f_equal. f_equal. unfold update_where. apply map_ext_in.
      intros r Hin. destruct (String.eqb_spec (r_id r) rid) as [E|E];
        [|reflexivity].
      now rewrite (Hsame r Hin E).
    - intros r Hin E. now rewrite (Hsame r Hin E). }
  assert (Hout : out
                 = (notify_booked
                      (with_rides db1
                         (update_where r_id rid
                            (set_available_seats
                               (Double.sub (available_seats ride) seats))
                            (rides db)))
                      user ride rid seats
                      (Double.mul (price_per_seat ride) seats) (uuid 1%nat),
                    (201, BookingRow (Some booking)))).
  { unfold out, create_booking. cbn [rq_ride_id rq_seats_booked].
    rewrite (truthy_some rid Hrid), (given_some seats Hseats), Hr.
    apply String.eqb_neq in Hu. rewrite Hu, Hlt, Hex. cbv zeta.
    fold booking. rewrite Hins. fold db1. rewrite Hupd.
    f_equal. f_equal. f_equal. unfold get_booking. simpl ride_bookings.
    rewrite lookup_app.
    assert (Hn : lookup b_id (uuid 0%nat) (ride_bookings db) = None)
      by (apply lookup_none; exact Hfresh).
    rewrite Hn. unfold lookup. simpl. now rewrite String.eqb_refl. }
  rewrite Hout. simpl snd. simpl fst.
  match goal with |- context [notify_booked ?d ?u ?r ?i ?s ?p ?m] =>
    destruct (stored_notify_booked_tables d u r i s p m) as (G1 & G2 & G3) end.
  rewrite G1, G2, G3. repeat split.
Qed.

(** C5, as the code has it.  For a request that carries both fields, on a
    ride of somebody else, by a registered passenger without a booking on
    the ride that is not cancelled, with an unused booking id: asking for
    more than [available_seats] is refused and changes nothing.  Otherwise
    a confirmed booking is inserted whose [total_price] is the double
    [price_per_seat * seats_booked], and the ride's [available_seats]
    becomes the double [available_seats - seats_booked] (provided both are
    numbers: a NaN is refused by the NOT NULL columns).  These are exactly
    the product and the difference when the values are whole numbers and
    the results lie within 2^53: then asking for [available_seats] leaves
    0, and asking for one more is refused. *)
Theorem create_booking_takes_seats
    (db : DB) (user rid : string) (seats : Double.number) (uuid : Ids)
    (ride : Ride) :
  NoDup (map r_id (rides db)) ->
  rid <> EmptyString ->
  Double.falsy seats = false ->
  get_ride db rid = Some ride ->
  driver_id ride <> user ->
  get_booking_of db rid user "cancelled" = None ->
  mem user (map u_id (users db)) = true ->
  mem (uuid 0%nat) (map b_id (ride_bookings db)) = false ->
  let out :=
    create_booking db user (mkBookingReq (Some rid) (Some seats)) uuid in
  let total := Double.mul (price_per_seat ride) seats in
  let left := Double.sub (available_seats ride) seats in
  let booking :=
    mkBooking (uuid 0%nat) rid user seats (Some "confirmed") total in
  (Double.lt (available_seats ride) seats = true ->
     out = (db, (400, Msg "Not enough seats available")))
  /\ (Double.lt (available_seats ride) seats = false ->
      Double.is_number total = true ->
      Double.is_number left = true ->
      snd out = (201, BookingRow (Some booking))
      /\ ride_bookings (fst out) = (ride_bookings db ++ [booking])%list
      /\ option_map available_seats (get_ride (fst out) rid) = Some left
      /\ option_map total_seats (get_ride (fst out) rid)
         = Some (total_seats ride)
      /\ (forall id, id <> rid -> get_ride (fst out) id = get_ride db id))
  /\ (forall a n,
        available_seats ride = Double.of_whole a ->
        seats = Double.of_whole n ->
        (0 <= n <= a -> a <= Double.safe ->
           Double.lt (available_seats ride) seats = false
           /\ Double.is_number left = true
           /\ left = Double.of_whole (a - n))
        /\ (a < n -> Double.lt (available_seats ride) seats = true))
  /\ (forall p n,
        price_per_seat ride = Double.of_whole p ->
        seats = Double.of_whole n ->
        Z.abs (p * n) <= Double.safe ->
        Double.is_number total = true /\ total = Double.of_whole (p * n)).
Proof.
  intros ND Hrid Hseats Hr Hu Hex Huser Hfresh out total left booking.
  split; [|split; [|split]].
  - intros Hlt. unfold out, create_booking. cbn [rq_ride_id rq_seats_booked].
    rewrite (truthy_some rid Hrid), (given_some seats Hseats), Hr.
    apply String.eqb_neq in Hu. now rewrite Hu, Hlt.
  - intros Hlt Htotal Hleft.
    destruct (stored_create_booking_accepted db user rid seats uuid ride
                ND Hrid Hseats Hr Hu Hlt Hex Huser Hfresh Htotal Hleft)
      as (R & _ & B & S).
    fold out in R, B, S. fold total in R, B. fold booking in R, B.
    fold left in S.
    assert (G : get_ride (fst out) rid = Some (set_available_seats left ride)).
    { unfold get_ride. rewrite S.
      apply lookup_update_same; [reflexivity | exact Hr]. }
    split; [exact R|]. split; [exact B|]. rewrite G.
    split; [reflexivity|]. split; [reflexivity|].
    intros id Hne. unfold get_ride. rewrite S.
    apply lookup_update_other; [reflexivity | exact Hne].
  - intros a n Ha Hn. unfold left. rewrite Ha, Hn, lt_whole. split.
    + intros Hle Hsafe. split; [apply Z.ltb_ge; lia|].
      rewrite sub_whole by (unfold Double.safe in *; lia).
      split; reflexivity.
    + intros Hlt. now apply Z.ltb_lt.
  - intros p n Hp Hn Hb. unfold total. rewrite Hp, Hn, mul_whole by exact Hb.
    split; reflexivity.
Qed.

Lemma create_booking_takes_seats_witness :
  snd (create_booking booked "bob"
         (mkBookingReq (Some "ride-0") (Some (Double.of_whole 2)))
         (Scenario.ids "bk-bob"))
  = (201, BookingRow (Some (example_booking "bk-bob-0" "bob" 2 200
                              "confirmed")))
  /\ option_map available_seats
       (get_ride
          (fst (create_booking booked "bob"
                  (mkBookingReq (Some "ride-0") (Some (Double.of_whole 2)))
                  (Scenario.ids "bk-bob"))) "ride-0")
     = Some (Double.of_whole 0)
  /\ create_booking booked "bob"
       (mkBookingReq (Some "ride-0") (Some (Double.of_whole 3)))
       (Scenario.ids "bk-bob")
     = (booked, (400, Msg "Not enough seats available")).
Proof.
  assert (ND : NoDup (map r_id (rides booked)))
    by (simpl; constructor; [intros [] | constructor]).
  assert (Hrid : "ride-0" <> EmptyString) by discriminate.
  assert (Hu : driver_id
                 (example_ride "ride-0" 4 2 (Double.of_whole 100)
                    (Some "available")) <> "bob")
    by (simpl; discriminate).
  destruct (create_booking_takes_seats booked "bob" "ride-0"
              (Double.of_whole 2) (Scenario.ids "bk-bob")
              (example_ride "ride-0" 4 2 (Double.of_whole 100)
                 (Some "available"))
              ND Hrid eq_refl eq_refl Hu eq_refl eq_refl eq_refl)
    as (_ & A & _ & _).
  destruct (A eq_refl eq_refl eq_refl) as (R & _ & S & _).
  destruct (create_booking_takes_seats booked "bob" "ride-0"
              (Double.of_whole 3) (Scenario.ids "bk-bob")
              (example_ride "ride-0" 4 2 (Double.of_whole 100)
                 (Some "available"))
              ND Hrid eq_refl eq_refl Hu eq_refl eq_refl eq_refl)
    as (B & _).
  split; [exact R|]. split; [exact S|]. exact (B eq_refl).
Defined.

(** C5, as stated, fails: on a ride with 1e19 available seats a booking of
    one seat is accepted and the ride has 1e19 available seats afterwards;
    the seat is not deducted. *)
Lemma booked_seat_is_not_deducted :
  fst (snd (create_booking vast "ann"
              (mkBookingReq (Some "ride-0") (Some (Double.of_whole 1)))
              (Scenario.ids "bk-ann"))) = 201
  /\ option_map available_seats
       (get_ride
          (fst (create_booking vast "ann"
                  (mkBookingReq (Some "ride-0") (Some (Double.of_whole 1)))
                  (Scenario.ids "bk-ann"))) "ride-0")
     = Some (Double.of_whole (10 ^ 19))
  /\ ~ is_difference (Double.of_whole (10 ^ 19)) (Double.of_whole 1)
         (Double.of_whole (10 ^ 19)).
Proof.
  split; [vm_compute; reflexivity|]. split; [vm_compute; reflexivity|].
  vm_compute. discriminate.
Qed.

(** ** The seats held on a ride *)

Lemma stored_held_app id l1 l2 :
  held id (l1 ++ l2) = held id l1 + held id l2.
Proof. induction l1 as [|b l1 IH]; simpl; [reflexivity | lia]. Qed.

Lemma stored_held_none id bs :
  (forall b, In b bs -> ride_id b <> id) -> held id bs = 0.
Proof.
  induction bs as [|b bs IH]; intros H; simpl; [reflexivity|].
  rewrite IH by (intros c Hc; apply H; now right).
  unfold holds_on.
  assert (E : (ride_id b == id) = false)
    by (apply String.eqb_neq, H; now left).
  now rewrite E.
Qed.

Lemma stored_holds_on_cancelled id b :
  holds_on id (set_booking_status (Some "cancelled") b) = 0.
Proof. unfold holds_on. simpl. now rewrite andb_false_r. Qed.

Lemma stored_holds_on_bounds id b :
  0 <= Double.count (seats_booked b) ->
  0 <= holds_on id b <= Double.count (seats_booked b).
Proof. intros H. unfold holds_on. destruct (_ && _); lia. Qed.

Lemma stored_held_nonneg id bs :
  (forall b, In b bs -> 0 <= Double.count (seats_booked b)) ->
  0 <= held id bs.
Proof.
  induction bs as [|b bs IH]; intros H; simpl; [lia|].
  assert (0 <= held id bs) by (apply IH; intros c Hc; apply H; now right).
  pose proof (stored_holds_on_bounds id b (H b (or_introl eq_refl))). lia.
Qed.

Lemma stored_some_cancelled_refl bs : some_cancelled bs bs.
Proof. unfold some_cancelled. induction bs; constructor; auto. Qed.

Lemma stored_some_cancelled_trans bs1 bs2 bs3 :
  some_cancelled bs1 bs2 -> some_cancelled bs2 bs3 -> some_cancelled bs1 bs3.
Proof.
  unfold some_cancelled. intros H. revert bs3.
  induction H as [|b b' l l' Hb _ IH]; intros bs3 H3;
    inversion H3 as [|? c ? l3 Hc H3']; subst; constructor.
  - destruct Hb as [->| ->]; destruct Hc as [->| ->]; auto.
  - now apply IH.
Qed.

Lemma stored_some_cancelled_update id bs :
  some_cancelled bs
    (update_where b_id id (set_booking_status (Some "cancelled")) bs).
Proof.
  unfold some_cancelled, update_where.
  induction bs as [|b bs IH]; simpl; constructor; [|exact IH].
  destruct (b_id b == id); auto.
Qed.

Lemma stored_some_cancelled_held id bs bs' :
  (forall b, In b bs -> 0 <= Double.count (seats_booked b)) ->
  some_cancelled bs bs' -> held id bs' <= held id bs.
Proof.
  intros Hpos H. induction H as [|b b' l l' Hb _ IH]; simpl; [lia|].
  assert (IH' : held id l' <= held id l)
    by (apply IH; intros c Hc; apply Hpos; now right).
  assert (Hb0 : 0 <= Double.count (seats_booked b)) by (apply Hpos; now left).
  destruct Hb as [->| ->].
  - lia.
  - rewrite stored_holds_on_cancelled.
    pose proof (stored_holds_on_bounds id b Hb0). lia.
Qed.

Lemma stored_some_cancelled_rows (P : Booking -> Prop) bs bs' :
  (forall b, P b -> P (set_booking_status (Some "cancelled") b)) ->
  some_cancelled bs bs' ->
  (forall b, In b bs -> P b) -> forall b', In b' bs' -> P b'.
Proof.
  intros HP H. induction H as [|b c l l' Hb _ IH]; intros Hall b' Hin.
  - destruct Hin.
  - destruct Hin as [<-|Hin].
    + destruct Hb as [->| ->]; [|apply HP]; apply Hall; now left.
    + apply IH; [|exact Hin]. intros x Hx. apply Hall. now right.
Qed.

(** Cancelling the booking found under an id releases at least its seats
    on its ride. *)
Lemma stored_held_cancel_found id bs b :
  (forall c, In c bs -> 0 <= Double.count (seats_booked c)) ->
  lookup b_id id bs = Some b ->
  is_text (booking_status b) "cancelled" = false ->
  held (ride_id b)
    (update_where b_id id (set_booking_status (Some "cancelled")) bs)
  + Double.count (seats_booked b) <= held (ride_id b) bs.
Proof.
  intros Hpos Hb Hst. unfold lookup in Hb.
  induction bs as [|c bs IH]; simpl in *; [discriminate|].
  assert (Hc : 0 <= Double.count (seats_booked c)) by (apply Hpos; now left).
  destruct (b_id c == id) eqn:E.
  - injection Hb as ->. rewrite stored_holds_on_cancelled.
    assert (Hle : held (ride_id b)
                    (update_where b_id id
                       (set_booking_status (Some "cancelled")) bs)
                  <= held (ride_id b) bs).
    { apply stored_some_cancelled_held; [|apply stored_some_cancelled_update].
      intros x Hx. apply Hpos. now right. }
    assert (Hh : holds_on (ride_id b) b = Double.count (seats_booked b)).
    { unfold holds_on. now rewrite String.eqb_refl, Hst. }
    fold (update_where b_id id (set_booking_status (Some "cancelled")) bs).
    lia.
  - assert (IH' := IH (fun x Hx => Hpos x (or_intror Hx)) Hb).
    fold (update_where b_id id (set_booking_status (Some "cancelled")) bs).
    lia.
Qed.

(** ** The invariant of the ledger *)

Lemma stored_ledger_ok_in_range db r :
  ledger_ok db -> In r (rides db) -> seats_in_range r.
Proof.
  intros (_ & HB & HR) Hin. destruct (HR r Hin) as (Wt & Wa & H0 & H1 & _).
  assert (0 <= held (r_id r) (ride_bookings db))
    by (apply stored_held_nonneg; intros b Hb; apply HB; exact Hb).
  unfold seats_in_range. rewrite Wt, Wa. split; apply le_whole; lia.
Qed.

Lemma stored_ledger_ok_opening people : ledger_ok (opening people).
Proof.
  split; [|split]; simpl.
  - constructor.
  - intros b [].
  - intros r [].
Qed.

Lemma stored_ledger_ok_tables db db' :
  same_tables db db' -> ledger_ok db -> ledger_ok db'.
Proof.
  intros (_ & R & B) H. unfold ledger_ok. rewrite R, B. exact H.
Qed.

Lemma stored_seat_counters_ids db db' :
  seat_counters db' = seat_counters db ->
  map r_id (rides db') = map r_id (rides db).
Proof.
  intros H. apply (f_equal (map (fun c => fst (fst c)))) in H.
  unfold seat_counters in H. rewrite !map_map in H. exact H.
Qed.

Lemma stored_seat_counters_in db db' r' :
  seat_counters db' = seat_counters db ->
  In r' (rides db') ->
  exists r, In r (rides db) /\ r_id r = r_id r'
            /\ total_seats r = total_seats r'
            /\ available_seats r = available_seats r'.
Proof.
  intros H Hin.
  assert (Hc : In (r_id r', total_seats r', available_seats r')
                 (seat_counters db')).
  { unfold seat_counters.
    apply (in_map (fun r => (r_id r, total_seats r, available_seats r))).
    exact Hin. }
  rewrite H in Hc. unfold seat_counters in Hc. apply in_map_iff in Hc.
  destruct Hc as [r [E Hr]]. exists r. inversion E. auto.
Qed.

(** Cancelling bookings while the seat counters stay keeps the
    invariant. *)
Lemma stored_ledger_ok_some_cancelled db db' :
  ledger_ok db ->
  seat_counters db' = seat_counters db ->
  some_cancelled (ride_bookings db) (ride_bookings db') ->
  ledger_ok db'.
Proof.
  intros (ND & HB & HR) Hc Hs.
  pose proof (stored_seat_counters_ids db db' Hc) as Hids.
  split; [|split].
  - now rewrite Hids.
  - rewrite Hids.
    apply (stored_some_cancelled_rows
             (fun b => Double.whole (seats_booked b)
                       /\ 0 <= Double.count (seats_booked b)
                       /\ mem (ride_id b) (map r_id (rides db)) = true)
             (ride_bookings db) (ride_bookings db'));
      [intros b H; exact H | exact Hs | exact HB].
  - intros r' Hin.
    destruct (stored_seat_counters_in db db' r' Hc Hin)
      as (r & Hr & E1 & E2 & E3).
    destruct (HR r Hr) as (Wt & Wa & H0 & H1 & H2).
    assert (held (r_id r') (ride_bookings db')
            <= held (r_id r') (ride_bookings db)).
    { apply stored_some_cancelled_held; [|exact Hs].
      intros b Hb. now apply HB. }
    rewrite <- E1, <- E2, <- E3 in *. repeat split; try assumption. lia.
Qed.

Lemma stored_cancel_each_keeps ride dn reason uuid bs :
  forall db i,
    users (cancel_each db ride dn reason bs uuid i) = users db
    /\ rides (cancel_each db ride dn reason bs uuid i) = rides db
    /\ some_cancelled (ride_bookings db)
         (ride_bookings (cancel_each db ride dn reason bs uuid i)).
Proof.
  induction bs as [|b bs IH]; intros db i; simpl.
  - split; [|split]; try reflexivity. apply stored_some_cancelled_refl.
  - destruct (insert_message db _) as [db1|] eqn:E;
      [|split; [|split]; try reflexivity; apply stored_some_cancelled_refl].
    apply stored_insert_message_some in E.
    destruct (IH (update_booking_status db1 "cancelled" (b_id b)) (S i))
      as (H1 & H2 & H3).
    rewrite H1, H2. subst db1. split; [|split]; try reflexivity.
    eapply stored_some_cancelled_trans; [|exact H3].
    simpl. apply stored_some_cancelled_update.
Qed.

Lemma stored_update_status_where_some db st id db' :
  update_status_where db st id = Some db' ->
  db' = with_rides db (update_where r_id id (set_status st) (rides db)).
Proof. unfold update_status_where. destruct (_ || _); congruence. Qed.

Lemma stored_seat_counters_set_status db st id :
  seat_counters
    (with_rides db (update_where r_id id (set_status st) (rides db)))
  = seat_counters db.
Proof.
  unfold seat_counters, update_where. simpl. rewrite map_map.
  apply map_ext. intros r. destruct (r_id r == id); reflexivity.
Qed.

(** A status update leaves the users and the seat counters, and cancels
    bookings at most. *)
Lemma stored_status_keeps db user id req uuid :
  let db' := fst (update_ride_status db user id req uuid) in
  users db' = users db
  /\ seat_counters db' = seat_counters db
  /\ some_cancelled (ride_bookings db) (ride_bookings db').
Proof.
  unfold update_ride_status.
  destruct (get_ride db id) as [ride|];
    [|split; [|split]; try reflexivity; apply stored_some_cancelled_refl].
  destruct (negb _);
    [split; [|split]; try reflexivity; apply stored_some_cancelled_refl|].
  set (db1 := if is_text (rq_status req) "cancelled" then _ else db).
  assert (H1 : users db1 = users db /\ rides db1 = rides db
               /\ some_cancelled (ride_bookings db) (ride_bookings db1)).
  { unfold db1. destruct (is_text (rq_status req) "cancelled").
    - apply stored_cancel_each_keeps.
    - split; [|split]; try reflexivity. apply stored_some_cancelled_refl. }
  destruct H1 as (U & R & S).
  destruct (update_status_where db1 _ id) as [db2|] eqn:E; simpl.
  - apply stored_update_status_where_some in E. subst db2.
    rewrite stored_seat_counters_set_status. unfold seat_counters.
    simpl. rewrite R. auto.
  - unfold seat_counters. rewrite R. auto.
Qed.

Lemma stored_ledger_ok_update_ride_status db user id req uuid :
  ledger_ok db -> ledger_ok (fst (update_ride_status db user id req uuid)).
Proof.
  intros H. destruct (stored_status_keeps db user id req uuid) as (_ & C & S).
  now apply (stored_ledger_ok_some_cancelled db).
Qed.

Lemma stored_ledger_ok_cancel_booking db user id uuid :
  ledger_ok db -> ledger_ok (fst (cancel_booking db user id uuid)).
Proof.
  intros Hok. unfold cancel_booking.
  destruct (get_booking db id) as [booking|] eqn:Hb; [|exact Hok].
  destruct (negb _); [exact Hok|].
  destruct (is_text (booking_status booking) "cancelled") eqn:Hs;
    [exact Hok|].
  cbv zeta.
  set (db1 := update_booking_status db "cancelled" id).
  assert (Hsc : some_cancelled (ride_bookings db) (ride_bookings db1))
    by apply stored_some_cancelled_update.
  assert (Hok1 : ledger_ok db1)
    by (apply (stored_ledger_ok_some_cancelled db);
        [exact Hok | reflexivity | exact Hsc]).
  destruct (add_available_seats db1 _ _) as [db2|] eqn:E; [|exact Hok1].
  apply stored_update_available_seats_some in E. simpl fst.
  apply (stored_ledger_ok_tables db2);
    [apply stored_notify_cancelled_tables|].
  destruct Hok as (ND & HB & HR). destruct Hok1 as (ND1 & HB1 & HR1).
  assert (Hpos : forall b, In b (ride_bookings db) ->
                           0 <= Double.count (seats_booked b))
    by (intros b H; now apply HB).
  destruct (HB booking) as (Wn & Hn & _);
    [now apply (lookup_some b_id id _ booking)|].
  subst db2. unfold ledger_ok. simpl rides. simpl ride_bookings.
  split; [|split].
  - rewrite keys_update_where by reflexivity. exact ND.
  - rewrite keys_update_where by reflexivity. exact HB1.
  - intros r' Hin. unfold update_where in Hin.
    apply in_map_iff in Hin. destruct Hin as [r [E Hr]].
    destruct (r_id r == ride_id booking) eqn:Eid.
    + apply String.eqb_eq in Eid. subst r'.
      destruct (HR r Hr) as (Wt & Wa & H0 & H1 & H2).
      pose proof (stored_held_cancel_found id (ride_bookings db) booking
                    Hpos Hb Hs) as Hrel.
      change (update_where b_id id (set_booking_status (Some "cancelled"))
                (ride_bookings db))
        with (ride_bookings db1) in Hrel.
      simpl. rewrite Eid in *.
      assert (Hsum : Double.add (available_seats r) (seats_booked booking)
                     = Double.of_whole
                         (Double.count (available_seats r)
                          + Double.count (seats_booked booking))).
      { apply add_whole_numbers; [exact Wa | exact Wn |].
        assert (0 <= held (ride_id booking) (ride_bookings db1))
          by (apply stored_held_nonneg; intros b Hb1; now apply HB1).
        lia. }
      rewrite Hsum, count_of_whole.
      split; [exact Wt|]. split; [apply whole_of_whole|].
      split; [lia|]. split; [|exact H2].
      change (update_where b_id id (set_booking_status (Some "cancelled"))
                (ride_bookings db))
        with (ride_bookings db1).
      lia.
    + subst r'. apply HR1. exact Hr.
Qed.

Lemma given_inv x n :
  given x = Some n -> x = Some n /\ Double.falsy n = false.
Proof.
  unfold given. destruct x as [m|]; [|discriminate].
  destruct (Double.falsy m) eqn:E; [discriminate|].
  intros H. injection H as <-. auto.
Qed.

Lemma stored_ledger_ok_create_booking db user req uuid :
  plausible (CreateBooking user req uuid) ->
  ledger_ok db ->
  ledger_ok (fst (create_booking db user req uuid)).
Proof.
  intros Hpl Hok. unfold create_booking.
  destruct (truthy (rq_ride_id req)) as [rid|]; [|exact Hok].
  destruct (given (rq_seats_booked req)) as [seats|] eqn:Hg; [|exact Hok].
  apply given_inv in Hg. destruct Hg as [Hreq Hseats].
  simpl in Hpl. rewrite Hreq in Hpl. destruct Hpl as [Wn Hn].
  destruct (get_ride db rid) as [ride|] eqn:Hr; [|exact Hok].
  destruct (driver_id ride == user); [exact Hok|].
  destruct (Double.lt (available_seats ride) seats) eqn:Hlt; [exact Hok|].
  destruct (get_booking_of db rid user "cancelled"); [exact Hok|].
  cbv zeta.
  destruct (insert_booking db _) as [db1|] eqn:E; [|exact Hok].
  apply stored_insert_booking_some in E.
  destruct Hok as (ND & HB & HR).
  pose proof (lookup_some r_id rid (rides db) ride Hr) as [Hin Hid].
  destruct (HR ride Hin) as (Wt & Wa & H0 & H1 & H2).
  rewrite (lt_whole_numbers _ _ Wa Wn) in Hlt. apply Z.ltb_ge in Hlt.
  assert (Hheld : 0 <= held (r_id ride) (ride_bookings db))
    by (apply stored_held_nonneg; intros b Hb; now apply HB).
  assert (Hsub : Double.sub (available_seats ride) seats
                 = Double.of_whole
                     (Double.count (available_seats ride)
                      - Double.count seats))
    by (apply sub_whole_numbers; [exact Wa | exact Wn | lia]).
  assert (Hsame : forall r, In r (rides db1) -> r_id r = rid -> r = ride).
  { intros r Hr' Er. subst db1.
    apply (unique_row r_id rid (rides db)); assumption. }
  unfold sub_available_seats.
  rewrite stored_update_available_seats_accepts
    by (intros r Hr' Er; rewrite (Hsame r Hr' Er), Hsub; reflexivity).
  simpl fst.
  apply (stored_ledger_ok_tables
           (with_rides db1
              (update_where r_id rid
                 (fun r => set_available_seats
                             (Double.sub (available_seats r) seats) r)
                 (rides db1))));
    [apply stored_notify_booked_tables|].
  subst db1. unfold ledger_ok. simpl rides. simpl ride_bookings.
  split; [|split].
  - rewrite keys_update_where by reflexivity. exact ND.
  - rewrite keys_update_where by reflexivity.
    intros b Hb. apply in_app_or in Hb.
    destruct Hb as [Hb|[<-|[]]]; [now apply HB|]. simpl.
    split; [exact Wn|]. split; [exact Hn|].
    now apply (stored_get_ride_mem db rid ride).
  - intros r' Hin'. unfold update_where in Hin'.
    apply in_map_iff in Hin'. destruct Hin' as [r [Er Hinr]].
    rewrite stored_held_app. simpl held. unfold holds_on. simpl.
    destruct (r_id r == rid) eqn:Eid.
    + apply String.eqb_eq in Eid.
      assert (r = ride)
        by (apply (unique_row r_id rid (rides db)); assumption).
      subst r r'. simpl. rewrite Eid, String.eqb_refl. simpl.
      rewrite Hsub, count_of_whole. rewrite <- Eid.
      split; [exact Wt|]. split; [apply whole_of_whole|].
      split; [lia|]. split; [lia | exact H2].
    + subst r'. rewrite String.eqb_sym, Eid. simpl.
      destruct (HR r Hinr) as (Wt' & Wa' & H0' & H1' & H2').
      split; [exact Wt'|]. split; [exact Wa'|].
      split; [exact H0'|]. split; [lia | exact H2'].
Qed.

Lemma stored_ledger_ok_create_ride db user req uuid :
  plausible (CreateRide user req uuid) ->
  ledger_ok db ->
  ledger_ok (fst (create_ride db user req uuid)).
Proof.
  intros Hpl Hok. unfold create_ride.
  destruct (truthy (rq_pickup_address req)); [|exact Hok].
  destruct (truthy (rq_drop_address req)); [|exact Hok].
  destruct (truthy (rq_pickup_time req)); [|exact Hok].
  destruct (given (rq_total_seats req)) as [total|] eqn:Ht; [|exact Hok].
  destruct (truthy (rq_vehicle_type req)); [|exact Hok].
  destruct (given (rq_price_per_seat req)); [|exact Hok].
  cbv zeta.
  destruct (insert_ride db _) as [db'|] eqn:E; [|exact Hok].
  simpl fst. pose proof E as E'. apply stored_insert_ride_some in E'.
  unfold insert_ride in E. simpl in E.
  destruct (mem (uuid 0%nat) (map r_id (rides db))) eqn:Hfresh;
    [discriminate|]. clear E.
  apply given_inv in Ht. destruct Ht as [Hreq _].
  simpl in Hpl. rewrite Hreq in Hpl. destruct Hpl as [[Wt Ht] Ha].
  destruct Hok as (ND & HB & HR). subst db'. unfold ledger_ok. simpl.
  split; [|split].
  - rewrite map_app. apply NoDup_app; [exact ND | |].
    + simpl. constructor; [intros [] | constructor].
    + intros a Ha' [<-|[]]. apply mem_false in Hfresh. now apply Hfresh.
  - intros b Hb. destruct (HB b Hb) as (W & H0 & H1).
    split; [exact W|]. split; [exact H0|].
    rewrite map_app, mem_app, H1. reflexivity.
  - intros r Hin. apply in_app_or in Hin.
    destruct Hin as [Hin|[<-|[]]].
    + destruct (HR r Hin) as (W1 & W2 & H0 & H1 & H2).
      repeat split; assumption.
    + simpl. rewrite stored_held_none.
      * unfold num_or.
        destruct (given (rq_available_seats req)) as [a|] eqn:Eg.
        -- apply given_inv in Eg. destruct Eg as [Eg _].
           rewrite Eg in Ha. destruct Ha as [Wa Ha].
           repeat split; try assumption; lia.
        -- repeat split; try assumption; lia.
      * intros b Hb Eq. destruct (HB b Hb) as (_ & _ & Hm).
        rewrite Eq in Hm. congruence.
Qed.

Lemma stored_delete_ride_where_some db id db' :
  delete_ride_where db id = Some db' ->
  db' = with_rides db (filter (fun r => negb (r_id r == id)) (rides db))
  /\ (mem id (map r_id (rides db)) = true ->
        mem id (map ride_id (ride_bookings db)) = false
        /\ mem id (map m_ride_id (ride_messages db)) = false).
Proof.
  unfold delete_ride_where.
  destruct (mem id (map r_id (rides db))) eqn:E1; simpl.
  - destruct (mem id (map ride_id (ride_bookings db))) eqn:E2; simpl;
      [discriminate|].
    destruct (mem id (map m_ride_id (ride_messages db))) eqn:E3; simpl;
      [discriminate|].
    intros H. injection H as <-. auto.
  - intros H. injection H as <-. split; [reflexivity | discriminate].
Qed.

Lemma stored_ledger_ok_delete_ride db user id :
  ledger_ok db -> ledger_ok (fst (delete_ride db user id)).
Proof.
  intros Hok. unfold delete_ride.
  destruct (get_ride db id) as [ride|] eqn:Hg; [|exact Hok].
  destruct (negb _); [exact Hok|].
  destruct (delete_ride_where db id) as [db'|] eqn:E; [|exact Hok].
  apply stored_delete_ride_where_some in E. destruct E as [-> Hfree].
  destruct (Hfree (stored_get_ride_mem db id ride Hg)) as [Hnb _].
  destruct Hok as (ND & HB & HR). unfold ledger_ok. simpl.
  split; [|split].
  - now apply NoDup_map_filter.
  - intros b Hb. destruct (HB b Hb) as (W & H0 & H1).
    split; [exact W|]. split; [exact H0|].
    apply mem_In. apply mem_In in H1. apply in_map_iff in H1.
    destruct H1 as (r & Hid & Hin). apply in_map_iff. exists r.
    split; [exact Hid|]. apply filter_In. split; [exact Hin|].
    apply negb_true_iff, String.eqb_neq. intros Heq.
    apply mem_false in Hnb. apply Hnb. apply in_map_iff. exists b.
    split; [congruence | exact Hb].
  - intros r Hin. apply filter_In in Hin. destruct Hin as [Hin _].
    now apply HR.
Qed.

Lemma stored_ledger_ok_handle db rq :
  plausible rq -> ledger_ok db -> ledger_ok (fst (handle db rq)).
Proof.
  destruct rq as [user req uuid|user req uuid|user id uuid|user id req uuid
                 |user id]; intros Hp Hok; unfold handle.
  - now apply stored_ledger_ok_create_ride.
  - now apply stored_ledger_ok_create_booking.
  - now apply stored_ledger_ok_cancel_booking.
  - now apply stored_ledger_ok_update_ride_status.
  - now apply stored_ledger_ok_delete_ride.
Qed.

Lemma stored_ledger_ok_run rqs :
  forall db, Forall plausible rqs -> ledger_ok db -> ledger_ok (run db rqs).
Proof.
  induction rqs as [|rq rest IH]; intros db Hp Hok; [exact Hok|].
  inversion Hp; subst. unfold run. simpl. apply IH; [assumption|].
  now apply stored_ledger_ok_handle.
Qed.

(** C1, as the code has it.  From a database without rides, after any run
    of create ride, create booking, cancel booking, ride status update
    (the cancellation of a ride included) and delete ride requests served
    one after the other, in which every ride is published with whole
    numbers [0 <= available_seats <= total_seats <= 2^53] and every
    booking asks for a whole number of seats that is not negative, every
    ride has [0 <= available_seats <= total_seats].  The numbers are the
    doubles of the program and the store. *)
Theorem seats_stay_in_range (people : list User) (rqs : list Request) :
  Forall plausible rqs ->
  forall r, In r (rides (run (opening people) rqs)) -> seats_in_range r.
Proof.
  intros Hp r Hin.
  apply (stored_ledger_ok_in_range (run (opening people) rqs)); [|exact Hin].
  apply stored_ledger_ok_run; [exact Hp | apply stored_ledger_ok_opening].
Qed.

Lemma whole_between_of_whole lo hi v :
  lo <= v <= hi -> whole_between lo hi (Double.of_whole v).
Proof.
  intros H. split; [apply whole_of_whole | now rewrite count_of_whole].
Qed.

Lemma seats_stay_in_range_witness :
  rides (run (opening Scenario.people) story)
  = [example_ride "ride-0" 4 4 (Double.of_whole 100) (Some "cancelled")]
  /\ seats_in_range
       (example_ride "ride-0" 4 4 (Double.of_whole 100) (Some "cancelled")).
Proof.
  assert (E : rides (run (opening Scenario.people) story)
              = [example_ride "ride-0" 4 4 (Double.of_whole 100)
                   (Some "cancelled")])
    by (vm_compute; reflexivity).
  split; [exact E|].
  apply (seats_stay_in_range Scenario.people story).
  - unfold story.
    apply Forall_cons.
    { split; [|exact I]. apply whole_between_of_whole.
      unfold Double.safe. lia. }
    apply Forall_cons.
    { split; [apply whole_of_whole | rewrite count_of_whole; lia]. }
    apply Forall_cons.
    { split; [apply whole_of_whole | rewrite count_of_whole; lia]. }
    apply Forall_cons; [exact I|].
    apply Forall_cons; [exact I|].
    apply Forall_nil.
  - rewrite E. left. reflexivity.
Defined.

(** ** Booking and cancelling in a row *)

Lemma stored_cancel_booking_accepted db user id uuid booking :
  get_booking db id = Some booking ->
  passenger_id booking = user ->
  is_text (booking_status booking) "cancelled" = false ->
  (forall r, In r (rides db) -> r_id r = ride_id booking ->
     Double.is_number
       (Double.add (available_seats r) (seats_booked booking)) = true) ->
  let out := cancel_booking db user id uuid in
  snd out
  = (200, BookingRow (Some (set_booking_status (Some "cancelled") booking)))
  /\ users (fst out) = users db
  /\ rides (fst out)
     = update_where r_id (ride_id booking)
         (fun r => set_available_seats
                     (Double.add (available_seats r) (seats_booked booking))
                     r)
         (rides db)
  /\ ride_bookings (fst out)
     = update_where b_id id (set_booking_status (Some "cancelled"))
         (ride_bookings db).
Proof.
  intros Hb Hu Hs Hnum out.
  assert (Hout : out
                 = let db2 :=
                     with_rides (update_booking_status db "cancelled" id)
                       (update_where r_id (ride_id booking)
                          (fun r => set_available_seats
                                      (Double.add (available_seats r)
                                         (seats_booked booking)) r)
                          (rides db)) in
                   let db3 := notify_cancelled db2 user booking (uuid 0%nat) in
                   (db3, (200, BookingRow (get_booking db3 id)))).
  { unfold out, cancel_booking. rewrite Hb.
    apply String.eqb_eq in Hu. rewrite Hu, Hs. simpl negb. cbv iota.
    cbv zeta. unfold add_available_seats.
    rewrite stored_update_available_seats_accepts by exact Hnum.
    reflexivity. }
  rewrite Hout. cbv zeta. simpl snd. simpl fst.
  match goal with |- context [notify_cancelled ?d ?u ?b ?m] =>
    destruct (stored_notify_cancelled_tables d u b m) as (G1 & G2 & G3) end.
  unfold get_booking. rewrite G1, G2, G3.
  unfold with_rides, update_booking_status, with_bookings.
  cbn [users rides ride_bookings].
  rewrite (lookup_update_same b_id id
             (set_booking_status (Some "cancelled")) (ride_bookings db)
             booking (fun _ => eq_refl) Hb).
  repeat split.
Qed.

(** X9. Booking and then cancelling gives the seats back when the counts
    are whole numbers up to 2^53: on a table with unique ride ids, a create
    booking for a whole number of seats out of a whole number of available
    seats leaves the difference on the ride; the passenger's cancel booking
    is then answered 200 with the booking as cancelled, the rides are
    exactly as they were before the booking, and the booking stays in the
    table as cancelled; a second cancellation is refused with 400 and
    changes nothing. *)
Theorem book_then_cancel_restores_rides
    (db : DB) (user rid : string) (seats : Double.number)
    (uuid note note' : Ids) (ride : Ride) :
  NoDup (map r_id (rides db)) ->
  rid <> EmptyString ->
  get_ride db rid = Some ride ->
  driver_id ride <> user ->
  get_booking_of db rid user "cancelled" = None ->
  mem user (map u_id (users db)) = true ->
  mem (uuid 0%nat) (map b_id (ride_bookings db)) = false ->
  Double.whole (available_seats ride) ->
  Double.whole seats ->
  0 < Double.count seats <= Double.count (available_seats ride) ->
  Double.count (available_seats ride) <= Double.safe ->
  Double.is_number (Double.mul (price_per_seat ride) seats) = true ->
  let cancelled :=
    mkBooking (uuid 0%nat) rid user seats (Some "cancelled")
      (Double.mul (price_per_seat ride) seats) in
  let booked :=
    fst (create_booking db user (mkBookingReq (Some rid) (Some seats))
           uuid) in
  let out := cancel_booking booked user (uuid 0%nat) note in
  option_map available_seats (get_ride booked rid)
  = Some (Double.of_whole
            (Double.count (available_seats ride) - Double.count seats))
  /\ snd out = (200, BookingRow (Some cancelled))
  /\ users (fst out) = users db
  /\ rides (fst out) = rides db
  /\ ride_bookings (fst out) = (ride_bookings db ++ [cancelled])%list
  /\ cancel_booking (fst out) user (uuid 0%nat) note'
     = (fst out, (400, Msg "Booking already cancelled")).
Proof.
  intros ND Hrid Hr Hd Hex Hu Hf Wa Wn Hn Hsafe Hprice cancelled booked out.
  set (a := Double.count (available_seats ride)) in *.
  set (n := Double.count seats) in *.
  assert (Hseats : Double.falsy seats = false).
  { rewrite Wn, falsy_whole. apply Z.eqb_neq. fold n. lia. }
  assert (Hlt : Double.lt (available_seats ride) seats = false).
  { rewrite (lt_whole_numbers _ _ Wa Wn). apply Z.ltb_ge. fold a n. lia. }
  assert (Hsub : Double.sub (available_seats ride) seats
                 = Double.of_whole (a - n)).
  { apply sub_whole_numbers; [exact Wa | exact Wn |]. fold a n. lia. }
  assert (Hleft : Double.is_number (Double.sub (available_seats ride) seats)
                  = true) by now rewrite Hsub.
  destruct (stored_create_booking_accepted db user rid seats uuid ride
              ND Hrid Hseats Hr Hd Hlt Hex Hu Hf Hprice Hleft)
    as (_ & U & B & R).
  fold booked in U, B, R.
  set (booking := mkBooking (uuid 0%nat) rid user seats (Some "confirmed")
                    (Double.mul (price_per_seat ride) seats)) in *.
  assert (Hnone : lookup b_id (uuid 0%nat) (ride_bookings db) = None)
    by (now apply lookup_none).
  assert (Hg : get_booking booked (uuid 0%nat) = Some booking).
  { unfold get_booking. rewrite B, lookup_app, Hnone. unfold lookup. simpl.
    now rewrite String.eqb_refl. }
  assert (Hback : Double.add (Double.sub (available_seats ride) seats) seats
                  = available_seats ride).
  { rewrite Hsub.
    rewrite add_whole_numbers;
      [| apply whole_of_whole | exact Wn
       | rewrite count_of_whole; fold n; lia].
    rewrite count_of_whole. fold n.
    replace (a - n + n) with a by lia. symmetry. exact Wa. }
  assert (Hrow : forall r, In r (rides booked) -> r_id r = rid ->
                 r = set_available_seats
                       (Double.sub (available_seats ride) seats) ride).
  { intros r Hin Er. rewrite R in Hin. unfold update_where in Hin.
    apply in_map_iff in Hin. destruct Hin as (r0 & E0 & Hin0).
    destruct (String.eqb_spec (r_id r0) rid) as [E1|E1].
    - rewrite (unique_row r_id rid (rides db) ride r0 ND Hr Hin0 E1) in E0.
      now symmetry.
    - subst r. contradiction. }
  destruct (stored_cancel_booking_accepted booked user (uuid 0%nat) note
              booking Hg eq_refl eq_refl) as (Rsp & U' & R' & B').
  { intros r Hin Er. simpl in Er. rewrite (Hrow r Hin Er). simpl.
    rewrite Hback, Wa. reflexivity. }
  fold out in Rsp, U', R', B'.
  assert (HB : ride_bookings (fst out) = (ride_bookings db ++ [cancelled])%list).
  { rewrite B', B. now apply update_where_last. }
  split.
  { unfold get_ride. rewrite R.
    rewrite (lookup_update_same r_id rid
               (set_available_seats
                  (Double.sub (available_seats ride) seats))
               (rides db) ride (fun _ => eq_refl) Hr).
    simpl. now rewrite Hsub. }
  split; [exact Rsp|]. split; [congruence|]. split; [|split; [exact HB|]].
  - rewrite R', R. simpl ride_id. simpl seats_booked.
    unfold update_where. rewrite map_map. rewrite <- (map_id (rides db)) at 2.
    apply map_ext_in. intros r Hin.
    destruct (String.eqb_spec (r_id r) rid) as [E|E].
    + rewrite (unique_row r_id rid (rides db) ride r ND Hr Hin E).
      simpl. apply lookup_some in Hr. destruct Hr as [_ Hid].
      rewrite Hid, String.eqb_refl.
      unfold set_available_seats at 1. simpl. rewrite Hback.
      now destruct ride.
    + apply String.eqb_neq in E. now rewrite E.
  - unfold cancel_booking, get_booking. rewrite HB, lookup_app, Hnone.
    unfold lookup. simpl. now rewrite !String.eqb_refl.
Qed.

Lemma book_then_cancel_restores_rides_witness :
  rides (fst (cancel_booking
                (fst (create_booking booked "bob"
                        (mkBookingReq (Some "ride-0")
                           (Some (Double.of_whole 2)))
                        (Scenario.ids "bk-bob")))
                "bob" "bk-bob-0" (Scenario.ids "note")))
  = rides booked.
Proof.
  assert (ND : NoDup (map r_id (rides booked)))
    by (simpl; constructor; [intros [] | constructor]).
  assert (Hrid : "ride-0" <> EmptyString) by discriminate.
  assert (Hu : driver_id
                 (example_ride "ride-0" 4 2 (Double.of_whole 100)
                    (Some "available")) <> "bob")
    by (simpl; discriminate).
  assert (Hn : 0 < Double.count (Double.of_whole 2)
               <= Double.count
                    (available_seats
                       (example_ride "ride-0" 4 2 (Double.of_whole 100)
                          (Some "available"))))
    by (simpl available_seats; rewrite !count_of_whole; lia).
  assert (Hs : Double.count
                 (available_seats
                    (example_ride "ride-0" 4 2 (Double.of_whole 100)
                       (Some "available"))) <= Double.safe)
    by (simpl available_seats; rewrite count_of_whole;
        unfold Double.safe; lia).
  destruct (book_then_cancel_restores_rides booked "bob" "ride-0"
              (Double.of_whole 2) (Scenario.ids "bk-bob")
              (Scenario.ids "note") (Scenario.ids "note")
              (example_ride "ride-0" 4 2 (Double.of_whole 100)
                 (Some "available"))
              ND Hrid eq_refl Hu eq_refl eq_refl eq_refl
              (whole_of_whole 2) (whole_of_whole 2) Hn Hs eq_refl)
    as (_ & _ & _ & R & _).
  exact R.
Defined.

(** Where the bound of 2^53 is needed: on a ride published with
    2^64 + 12288 seats, a booking of 6144 seats and its cancellation leave
    2^64 + 16384 available seats, more than the ride has. *)
Remark seats_given_back_beyond_the_bound :
  option_map available_seats
    (get_ride
       (run (opening Scenario.people)
          [publish (2 ^ 64 + 12288) None;
           book "ann" 6144;
           CancelBooking "ann" "bk-ann-0" (Scenario.ids "note")])
       "ride-0")
  = Some (Double.of_whole (2 ^ 64 + 16384)).
Proof. vm_compute. reflexivity. Qed.

(** ** A status update that starts no cascade *)

Lemma stored_status_without_cascade db user id req uuid ride :
  get_ride db id = Some ride ->
  driver_id ride = user ->
  is_text (rq_status req) "cancelled" = false
  \/ confirmed_with_passenger db id = [] ->
  update_ride_status db user id req uuid
  = match update_status_where db (rq_status req) id with
    | Some db2 => (db2, (200, RideRow (get_ride db2 id)))
    | None => (db, (500, Msg "Failed to update ride"))
    end.
Proof.
  intros Hr Hu Hno. unfold update_ride_status. rewrite Hr.
  apply String.eqb_eq in Hu. rewrite Hu. simpl negb. cbv iota.
  assert (E : (if is_text (rq_status req) "cancelled"
               then notify_and_cancel db ride id
                      (rq_cancellation_reason req) uuid
               else db) = db).
  { destruct (is_text (rq_status req) "cancelled") eqn:Hc; [|reflexivity].
    destruct Hno as [Hno|Hno]; [discriminate|].
    unfold notify_and_cancel. rewrite Hno. reflexivity. }
  rewrite E. reflexivity.
Qed.

(** X12. A status update by the driver that starts no cascade (the status
    is not the text cancelled, or the ride has no confirmed booking)
    touches nothing but the status of that ride: users, bookings, messages,
    seat counters and the other rides are as before.  A status that is
    missing or null passes the CHECK: the answer is 200 and the ride is
    stored with a NULL status.  A status text that is none of available,
    active, completed and cancelled is answered 500 and changes nothing;
    one of the four is answered 200 and stored. *)
Theorem status_update_without_cascade
    (db : DB) (user id : string) (req : StatusReq) (uuid : Ids) (ride : Ride) :
  get_ride db id = Some ride ->
  driver_id ride = user ->
  is_text (rq_status req) "cancelled" = false
  \/ confirmed_with_passenger db id = [] ->
  let out := update_ride_status db user id req uuid in
  let updated :=
    mkRide (r_id ride) (driver_id ride) (pickup_address ride)
      (pickup_latitude ride) (pickup_longitude ride) (drop_address ride)
      (drop_latitude ride) (drop_longitude ride) (pickup_time ride)
      (total_seats ride) (available_seats ride) (vehicle_type ride)
      (price_per_seat ride) (description ride) (rq_status req) in
  (users (fst out) = users db
   /\ ride_bookings (fst out) = ride_bookings db
   /\ ride_messages (fst out) = ride_messages db
   /\ seat_counters (fst out) = seat_counters db
   /\ (forall id', id' <> id -> get_ride (fst out) id' = get_ride db id'))
  /\ (rq_status req = None ->
        snd out = (200, RideRow (Some updated))
        /\ option_map status (get_ride (fst out) id) = Some None)
  /\ (forall st, rq_status req = Some st ->
        mem st ride_statuses = true ->
        snd out = (200, RideRow (Some updated))
        /\ option_map status (get_ride (fst out) id) = Some (Some st))
  /\ (forall st, rq_status req = Some st ->
        mem st ride_statuses = false ->
        out = (db, (500, Msg "Failed to update ride"))).
Proof.
  intros Hr Hu Hno out updated.
  pose proof (stored_status_without_cascade db user id req uuid ride Hr Hu
                Hno) as E.
  fold out in E.
  assert (Hok : check_in (rq_status req) ride_statuses = true ->
                out = (with_rides db
                         (update_where r_id id (set_status (rq_status req))
                            (rides db)),
                       (200, RideRow (Some updated)))).
  { intros Hc. rewrite E. unfold update_status_where. rewrite Hc. simpl orb.
    cbv iota. unfold get_ride. simpl rides.
    rewrite (lookup_update_same r_id id (set_status (rq_status req))
               (rides db) ride (fun _ => eq_refl) Hr).
    reflexivity. }
  assert (Hfound : check_in (rq_status req) ride_statuses = true ->
                   option_map status (get_ride (fst out) id)
                   = Some (rq_status req)).
  { intros Hc. rewrite (Hok Hc). unfold get_ride. simpl.
    rewrite (lookup_update_same r_id id (set_status (rq_status req))
               (rides db) ride (fun _ => eq_refl) Hr).
    reflexivity. }
  split; [|split; [|split]].
  - destruct (check_in (rq_status req) ride_statuses) eqn:Hc.
    + rewrite (Hok eq_refl). simpl fst.
      split; [reflexivity|]. split; [reflexivity|]. split; [reflexivity|].
      split; [apply stored_seat_counters_set_status|].
      intros id' Hne. unfold get_ride. simpl.
      apply lookup_update_other; [reflexivity | exact Hne].
    + assert (Eout : out = (db, (500, Msg "Failed to update ride"))).
      { rewrite E. unfold update_status_where. rewrite Hc.
        now rewrite (stored_get_ride_mem db id ride Hr). }
      rewrite Eout. simpl. repeat split.
  - intros Hnone.
    assert (Hc : check_in (rq_status req) ride_statuses = true)
      by now rewrite Hnone.
    split; [now rewrite (Hok Hc)|]. rewrite (Hfound Hc). now rewrite Hnone.
  - intros st Hst Hm.
    assert (Hc : check_in (rq_status req) ride_statuses = true)
      by now rewrite Hst.
    split; [now rewrite (Hok Hc)|]. rewrite (Hfound Hc). now rewrite Hst.
  - intros st Hst Hm. rewrite E. unfold update_status_where.
    rewrite Hst. cbn [check_in]. rewrite Hm.
    now rewrite (stored_get_ride_mem db id ride Hr).
Qed.

Lemma status_update_without_cascade_witness :
  option_map status
    (get_ride
       (fst (update_ride_status booked "driver" "ride-0"
               (mkStatusReq None None) (Scenario.ids "m"))) "ride-0")
  = Some None
  /\ update_ride_status booked "driver" "ride-0"
       (mkStatusReq (Some "paused") None) (Scenario.ids "m")
     = (booked, (500, Msg "Failed to update ride")).
Proof.
  destruct (status_update_without_cascade booked "driver" "ride-0"
              (mkStatusReq None None) (Scenario.ids "m")
              (example_ride "ride-0" 4 2 (Double.of_whole 100)
                 (Some "available"))
              eq_refl eq_refl (or_introl eq_refl))
    as (_ & A & _ & _).
  destruct (status_update_without_cascade booked "driver" "ride-0"
              (mkStatusReq (Some "paused") None) (Scenario.ids "m")
              (example_ride "ride-0" 4 2 (Double.of_whole 100)
                 (Some "available"))
              eq_refl eq_refl (or_introl eq_refl))
    as (_ & _ & _ & B).
  split; [exact (proj2 (A eq_refl)) | exact (B "paused" eq_refl eq_refl)].
Defined.

(** ** Without a transaction *)

Lemma forallb_refuted {A : Type} (f : A -> bool) l x :
  In x l -> f x = false -> forallb f l = false.
Proof.
  intros Hin Hx. destruct (forallb f l) eqn:E; [|reflexivity].
  rewrite forallb_forall in E. specialize (E x Hin). congruence.
Qed.

Lemma stored_update_available_seats_refuses db f id r :
  In r (rides db) -> r_id r = id ->
  Double.is_number (f (available_seats r)) = false ->
  update_available_seats db f id = None.
Proof.
  intros Hin Hid Hn. unfold update_available_seats.
  rewrite (forallb_refuted _ (rides db) r Hin); [reflexivity|].
  rewrite Hid, String.eqb_refl, Hn. reflexivity.
Qed.

(** X26. Create booking is not atomic.  When the checks pass and the
    booking is inserted, but the difference [available_seats -
    seats_booked] is no number (infinity less infinity), the UPDATE of the
    ride throws on the NOT NULL column: the answer is 500, the rides are as
    before, and the confirmed booking stays in the table. *)
Theorem create_booking_is_not_atomic
    (db : DB) (user rid : string) (seats : Double.number) (uuid : Ids)
    (ride : Ride) :
  rid <> EmptyString ->
  Double.falsy seats = false ->
  get_ride db rid = Some ride ->
  driver_id ride <> user ->
  Double.lt (available_seats ride) seats = false ->
  get_booking_of db rid user "cancelled" = None ->
  mem user (map u_id (users db)) = true ->
  mem (uuid 0%nat) (map b_id (ride_bookings db)) = false ->
  Double.is_number (Double.mul (price_per_seat ride) seats) = true ->
  Double.is_number (Double.sub (available_seats ride) seats) = false ->
  let out :=
    create_booking db user (mkBookingReq (Some rid) (Some seats)) uuid in
  snd out = (500, Msg "Failed to create booking")
  /\ users (fst out) = users db
  /\ rides (fst out) = rides db
  /\ ride_messages (fst out) = ride_messages db
  /\ ride_bookings (fst out)
     = (ride_bookings db
        ++ [mkBooking (uuid 0%nat) rid user seats (Some "confirmed")
              (Double.mul (price_per_seat ride) seats)])%list.
Proof.
  intros Hrid Hseats Hr Hu Hlt Hex Huser Hfresh Hprice Hleft out.
  set (booking := mkBooking (uuid 0%nat) rid user seats (Some "confirmed")
                    (Double.mul (price_per_seat ride) seats)).
  assert (Hins : insert_booking db booking
                 = Some (with_bookings db (ride_bookings db ++ [booking]))).
  { unfold insert_booking. simpl b_id. simpl ride_id. simpl passenger_id.
    rewrite Hfresh, (stored_get_ride_mem db rid ride Hr), Huser.
    simpl seats_booked. simpl total_price.
    rewrite (falsy_is_number seats Hseats), Hprice. reflexivity. }
  pose proof (lookup_some r_id rid (rides db) ride Hr) as [Hin Hid].
  assert (Hout : out
                 = (with_bookings db (ride_bookings db ++ [booking]),
                    (500, Msg "Failed to create booking"))).
  { unfold out, create_booking. cbn [rq_ride_id rq_seats_booked].
    rewrite (truthy_some rid Hrid), (given_some seats Hseats), Hr.
    apply String.eqb_neq in Hu. rewrite Hu, Hlt, Hex. cbv zeta.
    fold booking. rewrite Hins. unfold sub_available_seats.
    rewrite (stored_update_available_seats_refuses _ _ rid ride);
      [reflexivity | exact Hin | exact Hid | exact Hleft]. }
  rewrite Hout. repeat split.
Qed.

Lemma create_booking_is_not_atomic_witness :
  create_booking endless "ann"
    (mkBookingReq (Some "ride-0") (Some (Double.Infinite false)))
    (Scenario.ids "bk-ann")
  = (with_bookings endless
       [mkBooking "bk-ann-0" "ride-0" "ann" (Double.Infinite false)
          (Some "confirmed") (Double.Infinite false)],
     (500, Msg "Failed to create booking")).
Proof.
  assert (Hrid : "ride-0" <> EmptyString) by discriminate.
  assert (Hr : get_ride endless "ride-0"
               = Some (mkRide "ride-0" "driver" "Pune" None None "Mumbai"
                         None None "2026-01-05T09:00" (Double.Infinite false)
                         (Double.Infinite false) "car" (Double.of_whole 100)
                         None (Some "available"))) by reflexivity.
  assert (Hu : driver_id
                 (mkRide "ride-0" "driver" "Pune" None None "Mumbai"
                    None None "2026-01-05T09:00" (Double.Infinite false)
                    (Double.Infinite false) "car" (Double.of_whole 100)
                    None (Some "available")) <> "ann")
    by (simpl; discriminate).
  destruct (create_booking_is_not_atomic endless "ann" "ride-0"
              (Double.Infinite false) (Scenario.ids "bk-ann") _
              Hrid eq_refl Hr Hu eq_refl eq_refl eq_refl eq_refl eq_refl
              eq_refl) as (R & U & S & M & B).
  destruct (create_booking endless "ann" _ _) as [db' resp].
  simpl in R, U, S, M, B. subst resp. f_equal.
  destruct db' as [us rs bs ms]. simpl in U, S, M, B. now subst.
Defined.

(** X27. Cancel booking over the values of the store, on a table with
    unique ride ids: the booking of the requester that is not cancelled is
    stored as cancelled with its other fields unchanged.  When the sum
    [available_seats + seats_booked] is a number, the answer is 200 with
    the booking, the ride has that sum as [available_seats] and no other
    ride changes; the sum is exact for whole numbers within 2^53.  When the
    sum is no number the UPDATE throws: the answer is 500, the rides are as
    before, and the booking stays cancelled. *)
Theorem cancel_booking_gives_seats_back
    (db : DB) (user id : string) (uuid : Ids) (booking : Booking)
    (ride : Ride) :
  NoDup (map r_id (rides db)) ->
  get_booking db id = Some booking ->
  passenger_id booking = user ->
  is_text (booking_status booking) "cancelled" = false ->
  get_ride db (ride_id booking) = Some ride ->
  let sum := Double.add (available_seats ride) (seats_booked booking) in
  let cancelled :=
    mkBooking (b_id booking) (ride_id booking) (passenger_id booking)
      (seats_booked booking) (Some "cancelled") (total_price booking) in
  let out := cancel_booking db user id uuid in
  get_booking (fst out) id = Some cancelled
  /\ (Double.is_number sum = true ->
        snd out = (200, BookingRow (Some cancelled))
        /\ option_map available_seats (get_ride (fst out) (ride_id booking))
           = Some sum
        /\ option_map total_seats (get_ride (fst out) (ride_id booking))
           = Some (total_seats ride)
        /\ (forall rid, rid <> ride_id booking ->
              get_ride (fst out) rid = get_ride db rid))
  /\ (Double.is_number sum = false ->
        snd out = (500, Msg "Failed to cancel booking")
        /\ rides (fst out) = rides db)
  /\ (Double.whole (available_seats ride) ->
      Double.whole (seats_booked booking) ->
      Z.abs (Double.count (available_seats ride)
             + Double.count (seats_booked booking)) <= Double.safe ->
      sum = Double.of_whole
              (Double.count (available_seats ride)
               + Double.count (seats_booked booking))).
Proof.
  intros ND Hb Hu Hs Hr sum cancelled out.
  pose proof (lookup_some r_id _ (rides db) ride Hr) as [Hin Hid].
  assert (Hcancelled : lookup b_id id
                         (update_where b_id id
                            (set_booking_status (Some "cancelled"))
                            (ride_bookings db)) = Some cancelled).
  { rewrite (lookup_update_same b_id id
               (set_booking_status (Some "cancelled")) (ride_bookings db)
               booking (fun _ => eq_refl) Hb).
    reflexivity. }
  destruct (Double.is_number sum) eqn:Hsum.
  - destruct (stored_cancel_booking_accepted db user id uuid booking Hb Hu
                Hs) as (Rsp & _ & R & B).
    { intros r Hr' Er.
      now rewrite (unique_row r_id _ (rides db) ride r ND Hr Hr' Er). }
    fold out in Rsp, R, B.
    assert (G : get_ride (fst out) (ride_id booking)
                = Some (set_available_seats sum ride)).
    { unfold get_ride. rewrite R.
      exact (lookup_update_same r_id _
               (fun r => set_available_seats
                           (Double.add (available_seats r)
                              (seats_booked booking)) r)
               _ _ (fun _ => eq_refl) Hr). }
    split; [unfold get_booking; rewrite B; exact Hcancelled|].
    split; [|split; [discriminate|]].
    + intros _. split; [exact Rsp|]. rewrite G.
      split; [reflexivity|]. split; [reflexivity|].
      intros rid Hne. unfold get_ride. rewrite R.
      apply lookup_update_other; [reflexivity | exact Hne].
    + intros Wa Wn Hsafe. now apply add_whole_numbers.
  - assert (Hout : out = (update_booking_status db "cancelled" id,
                          (500, Msg "Failed to cancel booking"))).
    { unfold out, cancel_booking. rewrite Hb.
      apply String.eqb_eq in Hu. rewrite Hu, Hs. simpl negb. cbv iota.
      cbv zeta. unfold add_available_seats.
      rewrite (stored_update_available_seats_refuses _ _ (ride_id booking)
                 ride); [reflexivity | exact Hin | exact Hid | exact Hsum]. }
    rewrite Hout. simpl fst. simpl snd.
    split; [exact Hcancelled|]. split; [discriminate|].
    split; [intros _; split; reflexivity|].
    intros Wa Wn Hsafe. now apply add_whole_numbers.
Qed.

Lemma cancel_booking_gives_seats_back_witness :
  snd (cancel_booking booked "ann" "bk-ann-0" (Scenario.ids "note"))
  = (200, BookingRow (Some (example_booking "bk-ann-0" "ann" 2 200
                              "cancelled")))
  /\ option_map available_seats
       (get_ride
          (fst (cancel_booking booked "ann" "bk-ann-0" (Scenario.ids "note")))
          "ride-0")
     = Some (Double.of_whole 4).
Proof.
  assert (ND : NoDup (map r_id (rides booked)))
    by (simpl; constructor; [intros [] | constructor]).
  destruct (cancel_booking_gives_seats_back booked "ann" "bk-ann-0"
              (Scenario.ids "note")
              (example_booking "bk-ann-0" "ann" 2 200 "confirmed")
              (example_ride "ride-0" 4 2 (Double.of_whole 100)
                 (Some "available"))
              ND eq_refl eq_refl eq_refl eq_refl) as (_ & A & _ & _).
  destruct (A eq_refl) as (R & S & _).
  split; [exact R | exact S].
Defined.

End StoredLedger.
